(** * OPA report scripts: a shallow embedding and its properties

    The four scripts under [.github/scripts] turn the JSON output of
    [opa test] into JUnit and Cobertura reports:

    - [opa_test_to_junit.py]        (module [TestReport])
    - [opa_coverage_to_junit.py]    (module [CoverageReport])
    - [opa_combined_junit.py]       (module [Combined])
    - [opa_coverage_to_cobertura.py] (module [Cobertura])

    Python values are embedded as follows.  A [str] is a [string] (the
    UTF-8 bytes; the separators and suffixes the scripts look for are
    ASCII, so byte-wise and code-point-wise operations agree).  An [int]
    is a [Z].  A [float] is a binary64 value of [SpecFloat].  A [dict]
    built by a script and read back through [sorted(...)] or an
    order-insensitive [sum] is a [gmap]; the [files] object of the
    coverage input, whose iteration order the scripts observe, is an
    association list in insertion order. *)

From Stdlib Require Import ZArith Ascii String List Lia.
From Stdlib Require Import Floats.SpecFloat.
From stdpp Require Import base decidable option list gmap strings sorting pretty.

Local Open Scope Z_scope.

Set Warnings "-register-all".

(** ** Python strings *)

Module PyStr.

(** [s.split(sep)] for a one-character separator. *)
Fixpoint split (sep : ascii) (s : string) : list string :=
  match s with
  | EmptyString => [EmptyString]
  | String c s' =>
      if Ascii.eqb c sep then EmptyString :: split sep s'
      else String c (hd EmptyString (split sep s')) :: tl (split sep s')
  end.

(** [sep.join(parts)]. *)
Definition join (sep : string) (parts : list string) : string :=
  String.concat sep parts.

(** [s.endswith(suffix)]: some tail of [s] is [suffix]. *)
Fixpoint endswith (s suffix : string) : bool :=
  String.eqb s suffix ||
  match s with
  | EmptyString => false
  | String _ s' => endswith s' suffix
  end.

(** [s.startswith(prefix)]. *)
Definition startswith (s pre : string) : bool := String.prefix pre s.

(** [s[:-k]] for [k > 0]. *)
Definition chop (k : nat) (s : string) : string :=
  String.substring 0 (String.length s - k) s.

(** [s[k:]]. *)
Definition drop (k : nat) (s : string) : string :=
  String.substring k (String.length s - k) s.

(** [parts[-1]] and [parts[-1] = f(parts[-1])] on a list. *)
Definition last_part (parts : list string) : string := List.last parts EmptyString.

Fixpoint set_last (f : string → string) (parts : list string) : list string :=
  match parts with
  | [] => []
  | [x] => [f x]
  | x :: rest => x :: set_last f rest
  end.

End PyStr.

(** ** Python numbers

    [int] is [Z].  [float] is IEEE 754 binary64, computed with the
    reference operations of [SpecFloat] at precision 53. *)

Module PyFloat.

Abbreviation float := spec_float.

Definition prec : Z := 53.
Definition emax : Z := 1024.

Definition zero : float := S754_zero false.
Definition add : float → float → float := SFadd prec emax.
Definition mul : float → float → float := SFmul prec emax.
Definition div : float → float → float := SFdiv prec emax.
Definition ltb : float → float → bool := SFltb.
Definition leb : float → float → bool := SFleb.
Definition eqb : float → float → bool := SFeqb.

Definition is_zero (x : float) : bool :=
  match x with S754_zero _ => true | _ => false end.
Definition is_infinite (x : float) : bool :=
  match x with S754_infinity _ => true | _ => false end.
Definition is_nan (x : float) : bool :=
  match x with S754_nan => true | _ => false end.

(** [float(z)] for an [int] that fits, as every [int] converted by
    the scripts does: the counts are lengths of lists and the
    constants are 100. *)
Definition of_int (z : Z) : float := binary_normalize prec emax z 0 false.

(** The binary64 value nearest to [n / d], with sign [s]. *)
Definition ratio_pos (s : bool) (n d : positive) : float :=
  let '(mz, ez, lz) := SFdiv_core_binary prec emax (Zpos n) 0 (Zpos d) 0 in
  binary_round_aux prec emax s mz ez lz.

(** The value of a decimal literal [n / 10^k] read by [json.load],
    and of a fraction in general. *)
Definition of_ratio (n : Z) (d : positive) : float :=
  match n with
  | Z0 => S754_zero false
  | Zpos p => ratio_pos false p d
  | Zneg p => ratio_pos true p d
  end.

(** [a / b] on two [int]s: the quotient correctly rounded;
    [ZeroDivisionError] or [OverflowError] is [None]. *)
Definition truediv_int (a b : Z) : option float :=
  let s := xorb (a <? 0) (b <? 0) in
  match Z.abs b, Z.abs a with
  | Zpos d, Zpos n =>
      let x := ratio_pos s n d in
      if is_infinite x then None else Some x
  | Zpos d, _ => Some (S754_zero s)
  | _, _ => None
  end.

(** [x / n] for a [float] and an [int]; [ZeroDivisionError] is [None]. *)
Definition truediv_float_int (x : float) (n : Z) : option float :=
  if bool_decide (n = 0) then None else Some (div x (of_int n)).

(** Nearest integer to [n / d] for [d > 0], a tie going to the even
    neighbour. *)
Definition round_half_even (n d : Z) : Z :=
  let q := n / d in
  match 2 * (n mod d) ?= d with
  | Lt => q
  | Gt => q + 1
  | Eq => if Z.even q then q else q + 1
  end.

(** [|x| * 10^ndigits] for [|x| = m * 2^e], rounded to an integer by
    [rnd]. *)
Definition scaled (rnd : Z → Z → Z) (ndigits : nat) (m : positive) (e : Z) : Z :=
  let n := Zpos m * 10 ^ Z.of_nat ndigits in
  match e with
  | Zneg k => rnd n (2 ^ Zpos k)
  | _ => n * 2 ^ e
  end.

Definition round_with (rnd : Z → Z → Z) (x : float) (ndigits : nat) : float :=
  match x with
  | S754_finite s m e =>
      match scaled rnd ndigits m e with
      | Zpos p => ratio_pos s p (Pos.pow 10 (Pos.of_nat ndigits))
      | _ => S754_zero s
      end
  | _ => x
  end.

(** [round(x, ndigits)] for [ndigits > 0]: the exact value of [x] is
    rounded to [ndigits] decimals, a tie going to the even digit, and
    the decimal is read back as a float; infinities and NaN are
    returned as they are. *)
Definition round (x : float) (ndigits : nat) : float :=
  round_with round_half_even x ndigits.

End PyFloat.

Import PyFloat.

(** ** Text

    The value of an f-string, kept as its pieces: [str] of a [float] is
    not computed here. *)

Inductive frag :=
  | FStr (s : string)
  | FInt (z : Z)
  | FFloat (x : float).

Definition fstring := list frag.

Definition nl : string := String "010"%char EmptyString.

(** [sep.join(lines)] on f-strings. *)
Fixpoint fjoin (sep : string) (lines : list fstring) : fstring :=
  match lines with
  | [] => []
  | [l] => l
  | l :: rest => l ++ FStr sep :: fjoin sep rest
  end.


(** ** XML trees of [xml.etree.ElementTree]

    Attributes and children are in insertion order.  The [timestamp]
    and [hostname] attributes, read from the clock and the host, are
    not part of the tree. *)

Inductive element :=
  Element (tag : string) (attrib : list (string * fstring))
          (text : option fstring) (children : list element).

Definition tag_of (e : element) : string := let 'Element t _ _ _ := e in t.
Definition attrib_of (e : element) : list (string * fstring) :=
  let 'Element _ a _ _ := e in a.
Definition children_of (e : element) : list element := let 'Element _ _ _ c := e in c.

(** The value of [key] in a dict kept as the list of its items, in
    insertion order (the keys of a dict are distinct); [None] is the
    [KeyError] of [d[key]]. *)
Fixpoint assoc {V} (key : string) (d : list (string * V)) : option V :=
  match d with
  | [] => None
  | (k, v) :: rest => if bool_decide (k = key) then Some v else assoc key rest
  end.

(** [e.get(key)]. *)
Definition get (e : element) (key : string) : option fstring := assoc key (attrib_of e).

(** [e.findall(tag)]: the children with that tag. *)
Definition findall (e : element) (t : string) : list element :=
  filter (λ c, tag_of c = t) (children_of e).

Definition property (name : string) (value : fstring) : element :=
  Element "property" [("name", [FStr name]); ("value", value)] None [].

(** [sorted(...)] on strings and on ints.  Python orders strings by
    code point, which is the order of their UTF-8 bytes. *)
Definition sorted (l : list string) : list string := merge_sort String.le l.
Definition sorted_Z (l : list Z) : list Z := merge_sort Z.le l.

(** [sorted(d.keys())] and [d.values()] of a dict built by a script. *)
Definition sorted_keys {V} (d : gmap string V) : list string :=
  sorted (map_to_list d).*1.

Definition values {V} (d : gmap string V) : list V := (map_to_list d).*2.

(** [sum(f(g) for g in gs)] and [sum(1 for g in gs if p(g))]. *)
Definition sum_of {A} (f : A → Z) (gs : list A) : Z := foldl (λ acc g, acc + f g) 0 gs.
Definition count_if {A} (p : A → bool) (gs : list A) : Z :=
  foldl (λ acc g, if p g then acc + 1 else acc) 0 gs.

(** ** The policy name of a test package

    [opa_test_to_junit.py] lines 42-49 and 195-200 and
    [opa_combined_junit.py] lines 47-54 carry the same statements. *)

Definition policy_name (package : string) : string :=
  let package_parts := PyStr.split "." package in
  let package_parts :=
    if bool_decide (hd EmptyString package_parts = "data")
       && bool_decide (1 < length package_parts)%nat
    then tl package_parts else package_parts in
  let package_parts :=
    if bool_decide (package_parts ≠ [])
       && PyStr.endswith (PyStr.last_part package_parts) "_test"
    then PyStr.set_last (PyStr.chop 5) package_parts else package_parts in
  PyStr.join "." package_parts.

(** The same rule said on the whole name: drop one leading [data.] and
    then one trailing [_test]. *)
Definition strip_root (s : string) : string :=
  if PyStr.startswith s "data." then PyStr.drop 5 s else s.

Definition strip_test_suffix (s : string) : string :=
  if PyStr.endswith s "_test" then PyStr.chop 5 s else s.

Definition normalized (s : string) : Prop :=
  PyStr.startswith s "data." = false ∧ PyStr.endswith s "_test" = false.

(** ** Test records

    One object of the array printed by [opa test --format=json].  The
    keys read with [test[...]] are fields; the keys read with
    [test.get(...)] are optional. *)

Module Test.

(** The [error] object; [{}] has neither key. *)
Record error := { code : option string; message : option string }.

(** The [skip] value: a JSON boolean or an object. *)
Inductive skip :=
  | SkipFlag (b : bool)
  | SkipDict (message : option string).

Record location := { file : string; row : Z }.

Record t := {
  package : string;
  name : string;
  loc : location;
  duration : Z;
  fail_ : option bool;
  error_ : option error;
  skip_ : option skip;
}.

(** [test.get("fail", False)], [test.get("error")] and
    [test.get("skip")] in a condition. *)
Definition failed (x : t) : bool := default false (fail_ x).

Definition errored (x : t) : bool :=
  match error_ x with
  | Some e => bool_decide (is_Some (code e)) || bool_decide (is_Some (message e))
  | None => false
  end.

Definition skipped (x : t) : bool :=
  match skip_ x with
  | Some (SkipFlag b) => b
  | Some (SkipDict m) => bool_decide (is_Some m)
  | None => false
  end.

End Test.

(** The groups of tests, one per policy name: the first loop of
    [create_test_report] ([opa_test_to_junit.py] lines 29-61) and of
    [create_test_summary_and_suites] ([opa_combined_junit.py] lines
    34-66), which are the same statements. *)

Module TestGroup.

Record t := {
  tests : list Test.t;
  package : option string;
  duration : Z;
  failures : Z;
  errors : Z;
  skipped : Z;
}.

(** The value the [defaultdict] makes for a new key. *)
Definition fresh : t :=
  {| tests := []; package := None; duration := 0;
     failures := 0; errors := 0; skipped := 0 |}.

Definition add (policy_groups : gmap string t) (test : Test.t) : gmap string t :=
  let policy_name := policy_name (Test.package test) in
  let group := default fresh (policy_groups !! policy_name) in
  <[policy_name :=
      {| tests := tests group ++ [test];
         package := Some policy_name;
         duration := duration group + Test.duration test;
         failures := if Test.failed test then failures group + 1 else failures group;
         errors := if Test.errored test then errors group + 1 else errors group;
         skipped := if Test.skipped test then skipped group + 1 else skipped group |}]>
    policy_groups.

Definition group_tests (test_data : list Test.t) : gmap string t :=
  foldl add ∅ test_data.

End TestGroup.

(** [_nanos_to_seconds], the same in both scripts that have it. *)
Definition _nanos_to_seconds (nanos : Z) : option float :=
  x ← truediv_int nanos 1000000000; Some (round x 3).

(** What a run of a script leaves: the tree it wrote, if it got that
    far, and the exit status. *)
Record outcome := { written : option element; exit_status : Z }.

(** ** [opa_test_to_junit.py] *)

Module TestReport.

Definition testcase (test : Test.t) : option element :=
  time ← _nanos_to_seconds (Test.duration test);
  let failure :=
    if Test.failed test then
      [Element "failure"
         [("message", [FStr "Test "; FStr (Test.name test); FStr " failed"]);
          ("type", [FStr "AssertionError"])] None []]
    else [] in
  let error :=
    match Test.error_ test with
    | Some e =>
        if Test.errored test then
          [Element "error"
             [("type", [FStr (default "Error" (Test.code e))]);
              ("message", [FStr (default "Test error" (Test.message e))])] None []]
        else []
    | None => []
    end in
  let skipped :=
    if Test.skipped test then
      [Element "skipped"
         match Test.skip_ test with
         | Some (Test.SkipDict m) => [("message", [FStr (default "Test skipped" m)])]
         | _ => []
         end None []]
    else [] in
  Some (Element "testcase"
          [("name", [FStr (Test.name test)]);
           ("file", [FStr (Test.file (Test.loc test))]);
           ("line", [FInt (Test.row (Test.loc test))]);
           ("time", [FFloat time])]
          None (failure ++ error ++ skipped)).

Definition testsuite (policy_name : string) (group : TestGroup.t) : option element :=
  time ← _nanos_to_seconds (TestGroup.duration group);
  testcases ← mapM testcase (TestGroup.tests group);
  Some (Element "testsuite"
          [("name", [FStr policy_name]);
           ("package", [FStr policy_name]);
           ("tests", [FInt (Z.of_nat (length (TestGroup.tests group)))]);
           ("failures", [FInt (TestGroup.failures group)]);
           ("errors", [FInt (TestGroup.errors group)]);
           ("skipped", [FInt (TestGroup.skipped group)]);
           ("time", [FFloat time])]
          None
          (Element "properties" [] None [property "policy" [FStr policy_name]]
           :: testcases)).

Definition create_test_report (test_data : list Test.t) : option element :=
  let policy_groups := TestGroup.group_tests test_data in
  let total_tests := Z.of_nat (length test_data) in
  let total_failures := sum_of TestGroup.failures (values policy_groups) in
  let total_errors := sum_of TestGroup.errors (values policy_groups) in
  let total_skipped := sum_of TestGroup.skipped (values policy_groups) in
  let total_duration := sum_of TestGroup.duration (values policy_groups) in
  time ← _nanos_to_seconds total_duration;
  suites ← mapM (λ policy_name,
                   group ← policy_groups !! policy_name;
                   testsuite policy_name group)
                (sorted_keys policy_groups);
  Some (Element "testsuites"
          [("name", [FStr "OPA Policy Test Report"]);
           ("tests", [FInt total_tests]);
           ("failures", [FInt total_failures]);
           ("errors", [FInt total_errors]);
           ("skipped", [FInt total_skipped]);
           ("time", [FFloat time])]
          None suites).

(** [main] on the parsed [--test-json] file: the report is written,
    the summary is printed and the script ends with [sys.exit(0)]; an
    exception ends it with [sys.exit(1)]. *)
Definition main (test_data : list Test.t) : outcome :=
  match create_test_report test_data with
  | Some testsuites => {| written := Some testsuites; exit_status := 0 |}
  | None => {| written := None; exit_status := 1 |}
  end.

End TestReport.

(** ** Coverage records

    The object printed by [opa test --coverage --format=json]. *)

Module Region.

(** [region["start"]["row"]] and [region["end"]["row"]]; [None] when
    a key on the way is missing. *)
Record t := { start_row : option Z; end_row : option Z }.

End Region.

Module File.

(** An entry of [files].  [coverage] is a percentage; a JSON integer
    such as [100] is kept as the float of the same value, which [+],
    [/], [<] and [==] do not tell from the [int]. *)
Record t := {
  coverage : float;
  covered_lines : option Z;
  not_covered_lines : option Z;
  covered : option (list Region.t);
  not_covered : option (list Region.t);
}.

End File.

Module Coverage.

Record t := {
  coverage : float;
  covered_lines : Z;
  not_covered_lines : Z;
  files : list (string * File.t);
}.

(** [[f for f in coverage_data["files"] if not f.endswith("_test.rego")]]. *)
Definition policy_files (coverage_data : t) : list string :=
  filter (λ f, PyStr.endswith f "_test.rego" = false) (files coverage_data).*1.

End Coverage.

(** The policy area of a file path ([opa_coverage_to_junit.py] lines
    44-48, [opa_combined_junit.py] lines 188-192). *)
Definition policy_area (file_path : string) : string :=
  let parts := PyStr.split "/" file_path in
  if bool_decide (3 ≤ length parts)%nat && bool_decide (hd EmptyString parts = "policy")
  then PyStr.join "." (removelast (tl parts))
  else "other".

(** [file_path.split("/")[-1]]. *)
Definition filename_of (file_path : string) : string :=
  PyStr.last_part (PyStr.split "/" file_path).

Definition row_frag (r : option Z) : frag :=
  match r with Some z => FInt z | None => FStr "?" end.

(** The groups of files, one per policy area. *)

Module CovGroup.

Record t := {
  files : list string;
  total_coverage : float;
  file_count : Z;
  total_lines : Z;
  covered_lines : Z;
  not_covered_lines : Z;
}.

Definition fresh : t :=
  {| files := []; total_coverage := PyFloat.zero; file_count := 0;
     total_lines := 0; covered_lines := 0; not_covered_lines := 0 |}.

(** The three statements every file goes through. *)
Definition count_file (group : t) (file_path : string) (file_data : File.t) : t :=
  {| files := files group ++ [file_path];
     total_coverage := PyFloat.add (total_coverage group) (File.coverage file_data);
     file_count := file_count group + 1;
     total_lines := total_lines group;
     covered_lines := covered_lines group;
     not_covered_lines := not_covered_lines group |}.

Definition count_lines (group : t) (covered not_covered : Z) : t :=
  {| files := files group;
     total_coverage := total_coverage group;
     file_count := file_count group;
     total_lines := total_lines group + (covered + not_covered);
     covered_lines := covered_lines group + covered;
     not_covered_lines := not_covered_lines group + not_covered |}.

(** [group["total_coverage"] / group["file_count"]]. *)
Definition average (group : t) : option float :=
  truediv_float_int (total_coverage group) (file_count group).

(** The loop [for file_path in policy_files], the same in both scripts
    but for the statements [add_file] stands for. *)
Fixpoint fold_files (add_file : gmap string t → string → File.t → gmap string t)
    (files : list (string * File.t)) (policy_files : list string)
    (policy_groups : gmap string t) : option (gmap string t) :=
  match policy_files with
  | [] => Some policy_groups
  | file_path :: rest =>
      file_data ← assoc file_path files;
      fold_files add_file files rest (add_file policy_groups file_path file_data)
  end.

End CovGroup.

(** ** [opa_coverage_to_junit.py] *)

Module CoverageReport.

Definition _round_percentage (value : float) : float := round value 2.

Definition add_file (policy_groups : gmap string CovGroup.t)
    (file_path : string) (file_data : File.t) : gmap string CovGroup.t :=
  let policy_area := policy_area file_path in
  let group := CovGroup.count_file (default CovGroup.fresh (policy_groups !! policy_area))
                 file_path file_data in
  let group :=
    match File.covered_lines file_data with
    | Some covered =>
        CovGroup.count_lines group covered (default 0 (File.not_covered_lines file_data))
    | None => group
    end in
  <[policy_area := group]> policy_groups.

Definition group_files := CovGroup.fold_files add_file.

(** The loop over [file_data["not_covered"]] (lines 181-187). *)
Definition region_line (region : Region.t) : fstring :=
  let start_line := Region.start_row region in
  let end_line := Region.end_row region in
  if bool_decide (start_line = end_line)
  then [FStr "     - Line "; row_frag start_line]
  else [FStr "     - Lines "; row_frag start_line; FStr "-"; row_frag end_line].

Definition uncovered_regions (regions : list Region.t) : list fstring :=
  [FStr "     Uncovered regions:"] :: (region_line <$> regions).

Definition file_lines (coverage_data : Coverage.t) (coverage_threshold : float)
    (file_path : string) : option (list fstring) :=
  file_data ← assoc file_path (Coverage.files coverage_data);
  let file_coverage := _round_percentage (File.coverage file_data) in
  let filename := filename_of file_path in
  let status := if PyFloat.eqb file_coverage (of_int 100) then "✅" else "❌" in
  match File.covered_lines file_data with
  | Some covered =>
      let not_covered := default 0 (File.not_covered_lines file_data) in
      let total_file_lines := covered + not_covered in
      Some
        ([FStr "  "; FStr status; FStr " "; FStr filename; FStr ": ";
          FFloat file_coverage; FStr "% ("; FInt covered; FStr "/";
          FInt total_file_lines; FStr " lines)"]
         :: if PyFloat.ltb file_coverage coverage_threshold
            then match File.not_covered file_data with
                 | Some (region :: rest) => uncovered_regions (region :: rest)
                 | _ => []
                 end
            else [])
  | None =>
      Some [[FStr "  "; FStr status; FStr " "; FStr filename; FStr ": ";
             FFloat file_coverage; FStr "%"]]
  end.

Definition policy_lines (coverage_data : Coverage.t) (coverage_threshold : float)
    (policy_area : string) (group : CovGroup.t) : option (list fstring) :=
  average ← CovGroup.average group;
  let avg_coverage := _round_percentage average in
  let header :=
    if bool_decide (0 < CovGroup.total_lines group)
    then [FStr nl; FStr policy_area; FStr ": "; FFloat avg_coverage; FStr "% (";
          FInt (CovGroup.covered_lines group); FStr "/";
          FInt (CovGroup.total_lines group); FStr " lines)"]
    else [FStr nl; FStr policy_area; FStr ": "; FFloat avg_coverage; FStr "%"] in
  details ← mapM (file_lines coverage_data coverage_threshold)
                 (sorted (CovGroup.files group));
  Some (header :: concat details).

Definition create_coverage_report (coverage_data : Coverage.t)
    (coverage_threshold : float) : option element :=
  policy_groups ← group_files (Coverage.files coverage_data)
                     (Coverage.policy_files coverage_data) ∅;
  let overall_coverage := _round_percentage (Coverage.coverage coverage_data) in
  let total_lines :=
    Coverage.covered_lines coverage_data + Coverage.not_covered_lines coverage_data in
  let overall_meets_threshold := PyFloat.leb coverage_threshold overall_coverage in
  let failures := [FStr (if overall_meets_threshold then "0" else "1")] in
  let properties :=
    Element "properties" [] None
      [property "coverage_threshold" [FFloat coverage_threshold; FStr "%"];
       property "overall_coverage" [FFloat overall_coverage; FStr "%"];
       property "total_lines" [FInt total_lines];
       property "covered_lines" [FInt (Coverage.covered_lines coverage_data)];
       property "uncovered_lines" [FInt (Coverage.not_covered_lines coverage_data)]] in
  let failure :=
    if overall_meets_threshold then []
    else [Element "failure"
            [("message", [FStr "Overall coverage "; FFloat overall_coverage;
                          FStr "% is below "; FFloat coverage_threshold;
                          FStr "% threshold"]);
             ("type", [FStr "CoverageThreshold"])] None []] in
  let header :=
    [[FStr "Coverage Report: "; FFloat overall_coverage; FStr "% (";
      FInt (Coverage.covered_lines coverage_data); FStr "/"; FInt total_lines;
      FStr " lines)"];
     [FStr "Threshold: "; FFloat coverage_threshold; FStr "%"];
     [FStr (String.concat "" (replicate 80 "="))]] in
  sections ← mapM (λ policy_area,
                     group ← policy_groups !! policy_area;
                     policy_lines coverage_data coverage_threshold policy_area group)
                  (sorted_keys policy_groups);
  let output_lines := header ++ concat sections in
  let overall_testcase :=
    Element "testcase"
      [("name", [FStr "Overall Coverage: "; FFloat overall_coverage; FStr "%"]);
       ("time", [FStr "0"])]
      None
      (failure ++ [Element "system-out" [] (Some (fjoin nl output_lines)) []]) in
  let coverage_suite :=
    Element "testsuite"
      [("name", [FStr "Coverage"]);
       ("package", [FStr "coverage"]);
       ("tests", [FStr "1"]);
       ("failures", failures);
       ("errors", [FStr "0"]);
       ("skipped", [FStr "0"]);
       ("time", [FStr "0"])]
      None [properties; overall_testcase] in
  Some (Element "testsuites"
          [("name", [FStr "OPA Coverage Report"]);
           ("tests", [FStr "1"]);
           ("failures", failures);
           ("errors", [FStr "0"]);
           ("skipped", [FStr "0"])]
          None [coverage_suite]).

(** [main] on the parsed [--coverage-json] file and the value of
    [--coverage-threshold]: [parser.error] ends the script with
    status 2 before anything is read. *)
Definition main (coverage_data : Coverage.t) (coverage_threshold : float) : outcome :=
  if negb (PyFloat.leb (of_int 0) coverage_threshold
           && PyFloat.leb coverage_threshold (of_int 100))
  then {| written := None; exit_status := 2 |}
  else
    match create_coverage_report coverage_data coverage_threshold with
    | Some testsuites =>
        let overall_coverage := _round_percentage (Coverage.coverage coverage_data) in
        {| written := Some testsuites;
           exit_status := if PyFloat.leb coverage_threshold overall_coverage then 0 else 1 |}
    | None => {| written := None; exit_status := 1 |}
    end.

End CoverageReport.

(** ** [opa_combined_junit.py] *)

Module Combined.

Definition _round_percentage (value : float) : float := round value 2.

(** The status marks, as the bytes of the literals in the script. *)
Definition mark_ok : string := "‚úÖ".
Definition mark_failed : string := "‚ùå".
Definition mark_error : string := "‚ö†Ô∏è".
Definition mark_skipped : string := "‚è≠Ô∏è".

Definition test_detail (test : Test.t) : option (list fstring) :=
  let status :=
    if Test.failed test then mark_failed
    else if Test.errored test then mark_error
    else if Test.skipped test then mark_skipped
    else mark_ok in
  time ← _nanos_to_seconds (Test.duration test);
  Some
    ([FStr status; FStr " "; FStr (Test.name test); FStr " ("; FFloat time; FStr "s)"]
     :: match Test.error_ test with
        | Some e =>
            if Test.errored test
            then [[FStr "   Error: "; FStr (default "Unknown error" (Test.message e))]]
            else []
        | None => []
        end).

Definition has_problem (g : TestGroup.t) : bool :=
  bool_decide (0 < TestGroup.failures g) || bool_decide (0 < TestGroup.errors g).

Definition policy_testcase (policy_name : string) (group : TestGroup.t) : option element :=
  time ← _nanos_to_seconds (TestGroup.duration group);
  let failure :=
    if has_problem group then
      [Element "failure"
         [("message", [FStr "Policy has "; FInt (TestGroup.failures group);
                       FStr " failures and "; FInt (TestGroup.errors group);
                       FStr " errors"]);
          ("type", [FStr "PolicyTestFailure"])] None []]
    else [] in
  test_details ← mapM test_detail (TestGroup.tests group);
  Some (Element "testcase"
          [("classname", [FStr "tests"]);
           ("name", [FStr policy_name; FStr ": ";
                     FInt (Z.of_nat (length (TestGroup.tests group))); FStr " tests, ";
                     FInt (TestGroup.failures group); FStr " failures, ";
                     FInt (TestGroup.errors group); FStr " errors, ";
                     FInt (TestGroup.skipped group); FStr " skipped"]);
           ("time", [FFloat time])]
          None
          (failure ++ [Element "system-out" [] (Some (fjoin nl (concat test_details))) []])).

Definition create_test_summary_and_suites (test_data : list Test.t)
    : option (list element) :=
  let policy_groups := TestGroup.group_tests test_data in
  let total_tests := Z.of_nat (length test_data) in
  let total_failures := sum_of TestGroup.failures (values policy_groups) in
  let total_errors := sum_of TestGroup.errors (values policy_groups) in
  let total_skipped := sum_of TestGroup.skipped (values policy_groups) in
  let total_duration := sum_of TestGroup.duration (values policy_groups) in
  time ← _nanos_to_seconds total_duration;
  let properties :=
    Element "properties" [] None
      [property "total_policies" [FInt (Z.of_nat (size policy_groups))];
       property "total_tests" [FInt total_tests];
       property "passed_tests" [FInt (total_tests - total_failures - total_errors)]] in
  testcases ← mapM (λ policy_name,
                      group ← policy_groups !! policy_name;
                      policy_testcase policy_name group)
                   (sorted_keys policy_groups);
  Some [Element "testsuite"
          [("name", [FStr "Test ("; FInt total_tests; FStr " tests, ";
                     FInt total_failures; FStr " failures)"]);
           ("package", [FStr "tests"]);
           ("tests", [FInt (Z.of_nat (size policy_groups))]);
           ("failures", [FInt (count_if has_problem (values policy_groups))]);
           ("errors", [FStr "0"]);
           ("skipped", [FStr "0"]);
           ("time", [FFloat time])]
          None (properties :: testcases)].

Definition add_file (policy_groups : gmap string CovGroup.t)
    (file_path : string) (file_data : File.t) : gmap string CovGroup.t :=
  let policy_area := policy_area file_path in
  let group := CovGroup.count_file (default CovGroup.fresh (policy_groups !! policy_area))
                 file_path file_data in
  let group :=
    match File.covered_lines file_data, File.not_covered_lines file_data with
    | Some covered, Some not_covered => CovGroup.count_lines group covered not_covered
    | _, _ => group
    end in
  <[policy_area := group]> policy_groups.

Definition group_files := CovGroup.fold_files add_file.

(** [any(coverage_data["files"][f]["coverage"] < 100 for f in group["files"])]. *)
Fixpoint has_incomplete_coverage (files : list (string * File.t))
    (group_files : list string) : option bool :=
  match group_files with
  | [] => Some false
  | f :: rest =>
      file_data ← assoc f files;
      if PyFloat.ltb (File.coverage file_data) (of_int 100) then Some true
      else has_incomplete_coverage files rest
  end.

(** The lines under a file that is not fully covered (lines 332-342). *)
Definition region_line (region : Region.t) : fstring :=
  [FStr "   - Lines "; row_frag (Region.start_row region); FStr "-";
   row_frag (Region.end_row region)].

Definition uncovered_regions (regions : list Region.t) : list fstring :=
  [FStr "   Uncovered regions:"]
  :: (region_line <$> take 3 regions)
  ++ (if bool_decide (3 < length regions)%nat
      then [[FStr "   - ... and "; FInt (Z.of_nat (length regions) - 3);
             FStr " more regions"]]
      else []).

Definition file_details (coverage_data : Coverage.t) (file_path : string)
    : option (list fstring) :=
  file_data ← assoc file_path (Coverage.files coverage_data);
  let file_coverage := _round_percentage (File.coverage file_data) in
  let filename := filename_of file_path in
  let status := if PyFloat.eqb file_coverage (of_int 100) then mark_ok else mark_failed in
  match File.covered_lines file_data, File.not_covered_lines file_data with
  | Some covered, Some not_covered =>
      let total_file_lines := covered + not_covered in
      Some
        ([FStr status; FStr " "; FStr filename; FStr ": "; FFloat file_coverage;
          FStr "% ("; FInt covered; FStr "/"; FInt total_file_lines; FStr " lines)"]
         :: if PyFloat.ltb file_coverage (of_int 100)
            then match File.not_covered file_data with
                 | Some (region :: rest) => uncovered_regions (region :: rest)
                 | _ => []
                 end
            else [])
  | _, _ =>
      Some [[FStr status; FStr " "; FStr filename; FStr ": "; FFloat file_coverage;
             FStr "%"]]
  end.

(** The [name] of the test case of a policy area (lines 273-295). *)
Definition case_name (coverage_data : Coverage.t) (policy_area : string)
    (group : CovGroup.t) (avg_coverage : float) : option fstring :=
  let short := [FStr policy_area; FStr ": "; FFloat avg_coverage; FStr "%"] in
  if bool_decide (0 < CovGroup.total_lines group) then
    Some (short ++ [FStr " ("; FInt (CovGroup.covered_lines group); FStr "/";
                    FInt (CovGroup.total_lines group); FStr " lines)"])
  else
    match CovGroup.files group with
    | first_file :: _ =>
        file_data ← assoc first_file (Coverage.files coverage_data);
        match File.covered_lines file_data, File.not_covered_lines file_data with
        | Some file_covered, Some not_covered =>
            let file_total := file_covered + not_covered in
            Some (short ++ [FStr " ("; FInt file_covered; FStr "/"; FInt file_total;
                            FStr " lines)"])
        | _, _ => Some short
        end
    | [] => Some short
    end.

Definition coverage_testcase (coverage_data : Coverage.t) (policy_area : string)
    (group : CovGroup.t) : option element :=
  average ← CovGroup.average group;
  let avg_coverage := _round_percentage average in
  incomplete ← has_incomplete_coverage (Coverage.files coverage_data)
                  (CovGroup.files group);
  name ← case_name coverage_data policy_area group avg_coverage;
  let failure :=
    if incomplete : bool then
      [Element "failure"
         [("message", [FStr "One or more files in "; FStr policy_area;
                       FStr " have coverage below 100%"]);
          ("type", [FStr "CoverageThreshold"])] None []]
    else [] in
  details ← mapM (file_details coverage_data) (sorted (CovGroup.files group));
  Some (Element "testcase" [("name", name)] None
          (failure ++ [Element "system-out" [] (Some (fjoin nl (concat details))) []])).

Definition create_coverage_summary_and_suites (coverage_data : Coverage.t)
    (coverage_threshold : float) : option (list element) :=
  policy_groups ← group_files (Coverage.files coverage_data)
                     (Coverage.policy_files coverage_data) ∅;
  let overall_coverage := _round_percentage (Coverage.coverage coverage_data) in
  let total_lines :=
    Coverage.covered_lines coverage_data + Coverage.not_covered_lines coverage_data in
  let properties :=
    Element "properties" [] None
      [property "coverage_threshold" [FFloat coverage_threshold; FStr "%"];
       property "overall_coverage" [FFloat overall_coverage; FStr "%"];
       property "total_lines" [FInt total_lines];
       property "covered_lines" [FInt (Coverage.covered_lines coverage_data)];
       property "uncovered_lines" [FInt (Coverage.not_covered_lines coverage_data)]] in
  testcases ← mapM (λ policy_area,
                      group ← policy_groups !! policy_area;
                      coverage_testcase coverage_data policy_area group)
                   (sorted_keys policy_groups);
  Some [Element "testsuite"
          [("name", [FStr "Coverage: "; FFloat overall_coverage; FStr "% (";
                     FInt (Coverage.covered_lines coverage_data); FStr "/";
                     FInt total_lines; FStr " lines)"]);
           ("package", [FStr "coverage"])]
          None (properties :: testcases)].

(** [create_combined_report] on the two parsed files: the tree it
    writes and the value it returns. *)
Definition create_combined_report (test_data : list Test.t)
    (coverage_data : Coverage.t) (coverage_threshold : float) : option (element * Z) :=
  test_suites ← create_test_summary_and_suites test_data;
  coverage_suites ← create_coverage_summary_and_suites coverage_data coverage_threshold;
  let total_tests := Z.of_nat (length test_data) in
  let total_failures := count_if Test.failed test_data in
  let total_errors := count_if Test.errored test_data in
  let total_skipped := count_if Test.skipped test_data in
  let overall_coverage := _round_percentage (Coverage.coverage coverage_data) in
  let total_failures :=
    if PyFloat.ltb overall_coverage coverage_threshold
    then total_failures + 1 else total_failures in
  let testsuites :=
    Element "testsuites"
      [("name", [FStr "OPA Policy Test and Coverage Report"]);
       ("tests", [FInt total_tests]);
       ("failures", [FInt total_failures]);
       ("errors", [FInt total_errors]);
       ("skipped", [FInt total_skipped])]
      None (test_suites ++ coverage_suites) in
  Some (testsuites,
        if bool_decide (0 < total_failures) || PyFloat.ltb overall_coverage coverage_threshold
        then 1 else 0).

Definition main (test_data : list Test.t) (coverage_data : Coverage.t)
    (coverage_threshold : float) : outcome :=
  if negb (PyFloat.leb (of_int 0) coverage_threshold
           && PyFloat.leb coverage_threshold (of_int 100))
  then {| written := None; exit_status := 2 |}
  else
    match create_combined_report test_data coverage_data coverage_threshold with
    | Some (testsuites, exit_code) =>
        {| written := Some testsuites; exit_status := exit_code |}
    | None => {| written := None; exit_status := 1 |}
    end.

End Combined.

(** ** [opa_coverage_to_cobertura.py] *)

Module Cobertura.

(** [round(value / 100, 4)]. *)
Definition _round_percentage (value : float) : float :=
  round (PyFloat.div value (of_int 100)) 4.

Record metrics := {
  covered_lines : Z;
  not_covered_lines : Z;
  total_lines : Z;
  coverage : float;
}.

(** The loop of [calculate_policy_only_coverage]: the pair
    [(policy_covered, policy_uncovered)]. *)
Definition policy_totals (files : list (string * File.t)) : Z * Z :=
  foldl (λ '(policy_covered, policy_uncovered) '(file_path, file_data),
           if PyStr.endswith file_path "_test.rego"
           then (policy_covered, policy_uncovered)
           else (policy_covered + default 0 (File.covered_lines file_data),
                 policy_uncovered + default 0 (File.not_covered_lines file_data)))
        (0, 0) files.

(** The [int] 0 of the [else] branch is kept as the float of the same
    value: the only use made of it is [value / 100]. *)
Definition calculate_policy_only_coverage (coverage_data : Coverage.t) : option metrics :=
  let '(policy_covered, policy_uncovered) := policy_totals (Coverage.files coverage_data) in
  let total_policy_lines := policy_covered + policy_uncovered in
  policy_coverage ←
    (if bool_decide (0 < total_policy_lines)
     then q ← truediv_int policy_covered total_policy_lines;
          Some (PyFloat.mul q (of_int 100))
     else Some PyFloat.zero);
  Some {| covered_lines := policy_covered;
          not_covered_lines := policy_uncovered;
          total_lines := total_policy_lines;
          coverage := policy_coverage |}.

Record package := {
  pkg_files : list (string * File.t);
  pkg_line_rate : Z;
  pkg_covered_lines : Z;
  pkg_total_lines : Z;
}.

Definition package_name (file_path : string) : string :=
  let parts := PyStr.split "/" file_path in
  if bool_decide (1 < length parts)%nat
  then PyStr.join "." (removelast parts)
  else "default".

Definition add_file (package_map : gmap string package)
    (entry : string * File.t) : gmap string package :=
  let '(file_path, file_data) := entry in
  if PyStr.endswith file_path "_test.rego" then package_map
  else
    let package_name := package_name file_path in
    let p := default {| pkg_files := []; pkg_line_rate := 0;
                        pkg_covered_lines := 0; pkg_total_lines := 0 |}
                     (package_map !! package_name) in
    let covered_lines := default 0 (File.covered_lines file_data) in
    let not_covered_lines := default 0 (File.not_covered_lines file_data) in
    let total_file_lines := covered_lines + not_covered_lines in
    <[package_name :=
        {| pkg_files := pkg_files p ++ [(file_path, file_data)];
           pkg_line_rate := pkg_line_rate p;
           pkg_covered_lines := pkg_covered_lines p + covered_lines;
           pkg_total_lines := pkg_total_lines p + total_file_lines |}]> package_map.

Definition group_packages (files : list (string * File.t)) : gmap string package :=
  foldl add_file ∅ files.

(** One pass over a list of regions, every line of every region
    getting the mark [hit]; a region without a row is a [KeyError]. *)
Fixpoint mark_regions (hit : bool) (regions : list Region.t)
    (line_coverage : gmap Z bool) : option (gmap Z bool) :=
  match regions with
  | [] => Some line_coverage
  | region :: rest =>
      start_line ← Region.start_row region;
      end_line ← Region.end_row region;
      mark_regions hit rest
        (foldl (λ m line_num, <[line_num := hit]> m) line_coverage
               (seqZ start_line (end_line + 1 - start_line)))
  end.

(** The dict [line_coverage] of a file (lines 162-177). *)
Definition line_coverage (file_data : File.t) : option (gmap Z bool) :=
  covered ← mark_regions true (default [] (File.covered file_data)) ∅;
  mark_regions false (default [] (File.not_covered file_data)) covered.

Definition line_elem (line_num : Z) (hit : bool) : element :=
  Element "line"
    [("number", [FInt line_num]);
     ("hits", [FStr (if hit then "1" else "0")]);
     ("branch", [FStr "false"])] None [].

Definition line_elems (line_coverage : gmap Z bool) : list element :=
  omap (λ line_num, line_elem line_num <$> line_coverage !! line_num)
       (sorted_Z (map_to_list line_coverage).*1).

(** [filename.replace(".rego", "")]: [skip] counts the characters of
    a match still to be dropped. *)
Fixpoint remove_all (pat : string) (skip : nat) (s : string) : string :=
  match s with
  | EmptyString => EmptyString
  | String c s' =>
      match skip with
      | S k => remove_all pat k s'
      | O =>
          if String.prefix pat s
          then remove_all pat (String.length pat - 1) s'
          else String c (remove_all pat 0 s')
      end
  end.

Definition class_elem (entry : string * File.t) : option element :=
  let '(file_path, file_data) := entry in
  let filename := filename_of file_path in
  let classname := remove_all ".rego" 0 filename in
  let line_rate := [FFloat (_round_percentage (File.coverage file_data))] in
  line_coverage ← line_coverage file_data;
  Some (Element "class"
          [("name", [FStr classname]);
           ("filename", [FStr file_path]);
           ("line-rate", line_rate);
           ("branch-rate", [FStr "0"]);
           ("complexity", [FStr "0"])]
          None
          [Element "methods" [] None
             [Element "method"
                [("name", [FStr "evaluate"]);
                 ("signature", [FStr ""]);
                 ("line-rate", line_rate);
                 ("branch-rate", [FStr "0"])] None []];
           Element "lines" [] None (line_elems line_coverage)]).

Definition package_elem (package_name : string) (package_data : package) : option element :=
  package_line_rate ←
    (if bool_decide (0 < pkg_total_lines package_data)
     then q ← truediv_int (pkg_covered_lines package_data) (pkg_total_lines package_data);
          Some [FFloat (round q 4)]
     else Some [FInt 0]);
  classes ← mapM class_elem (pkg_files package_data);
  Some (Element "package"
          [("name", [FStr package_name]);
           ("line-rate", package_line_rate);
           ("branch-rate", [FStr "0"]);
           ("complexity", [FStr "0"])]
          None [Element "classes" [] None classes]).

(** [source] is [os.path.abspath(policy_directory)]. *)
Definition create_cobertura_report (coverage_data : Coverage.t) (source : string)
    : option (element * metrics) :=
  policy_metrics ← calculate_policy_only_coverage coverage_data;
  let total_lines := total_lines policy_metrics in
  let line_rate := _round_percentage (coverage policy_metrics) in
  let package_map := group_packages (Coverage.files coverage_data) in
  packages ← mapM (λ package_name,
                     package_data ← package_map !! package_name;
                     package_elem package_name package_data)
                  (sorted_keys package_map);
  Some (Element "coverage"
          [("line-rate", [FFloat line_rate]);
           ("branch-rate", [FStr "0"]);
           ("lines-covered", [FInt (covered_lines policy_metrics)]);
           ("lines-valid", [FInt total_lines]);
           ("branches-covered", [FStr "0"]);
           ("branches-valid", [FStr "0"]);
           ("complexity", [FStr "0"]);
           ("version", [FStr "0.1"])]
          None
          [Element "sources" [] None [Element "source" [] (Some [FStr source]) []];
           Element "packages" [] None packages],
        policy_metrics).

(** [main] on the parsed [--coverage-json] file; the threshold is
    optional and only printed. *)
Definition main (coverage_data : Coverage.t) (source : string)
    (coverage_threshold : option float) : outcome :=
  let invalid :=
    match coverage_threshold with
    | Some t => negb (PyFloat.leb (of_int 0) t && PyFloat.leb t (of_int 100))
    | None => false
    end in
  if invalid then {| written := None; exit_status := 2 |}
  else
    match create_cobertura_report coverage_data source with
    | Some (coverage_elem, _) => {| written := Some coverage_elem; exit_status := 0 |}
    | None => {| written := None; exit_status := 1 |}
    end.

End Cobertura.

(** ** Notions the statements use

    The policy files of an area, in the order of the input, and the
    coverage the input gives for a path. *)

Definition area_files (coverage_data : Coverage.t) (area : string) : list string :=
  filter (λ p, policy_area p = area) (Coverage.policy_files coverage_data).

Definition coverage_of (files : list (string * File.t)) (file_path : string) : float :=
  from_option File.coverage PyFloat.zero (assoc file_path files).

(** The sum [0 + c1 + c2 + ...] of floats, added from the left as the
    loop does. *)
Definition float_sum (start : float) (xs : list float) : float :=
  foldl PyFloat.add start xs.


(** The coverage input without its test files. *)
Definition policy_only (coverage_data : Coverage.t) : Coverage.t :=
  {| Coverage.coverage := Coverage.coverage coverage_data;
     Coverage.covered_lines := Coverage.covered_lines coverage_data;
     Coverage.not_covered_lines := Coverage.not_covered_lines coverage_data;
     Coverage.files :=
       filter (λ entry, PyStr.endswith entry.1 "_test.rego" = false)
              (Coverage.files coverage_data) |}.

(** A line number lies in a region. *)
Definition in_region (line_num : Z) (region : Region.t) : Prop :=
  ∃ start_line end_line,
    Region.start_row region = Some start_line
    ∧ Region.end_row region = Some end_line
    ∧ start_line ≤ line_num ≤ end_line.




(** The groups of either script, once the loop over the files is over. *)
Definition grouped (coverage_data : Coverage.t)
    (policy_groups : gmap string CovGroup.t) : Prop :=
  CoverageReport.group_files (Coverage.files coverage_data)
    (Coverage.policy_files coverage_data) ∅ = Some policy_groups
  ∨ Combined.group_files (Coverage.files coverage_data)
      (Coverage.policy_files coverage_data) ∅ = Some policy_groups.

(** The test records of a policy, in the order of the input. *)
Definition policy_tests (test_data : list Test.t) (name : string) : list Test.t :=
  filter (λ t, policy_name (Test.package t) = name) test_data.

(** What the dict of test groups holds under a key after the loop over
    [test_data]: the records of that policy and their counts, or
    nothing when the policy has no record. *)
Definition holds_tests (test_data : list Test.t) (name : string)
    (entry : option TestGroup.t) : Prop :=
  match entry with
  | Some g =>
      TestGroup.tests g = policy_tests test_data name
      ∧ policy_tests test_data name ≠ []
      ∧ TestGroup.package g = Some name
      ∧ TestGroup.duration g = sum_of Test.duration (policy_tests test_data name)
      ∧ TestGroup.failures g = count_if Test.failed (policy_tests test_data name)
      ∧ TestGroup.errors g = count_if Test.errored (policy_tests test_data name)
      ∧ TestGroup.skipped g = count_if Test.skipped (policy_tests test_data name)
  | None => policy_tests test_data name = []
  end.

(** A record that makes its policy fail in the combined report: one
    with a true fail flag or with an error. *)
Definition problem (t : Test.t) : bool := Test.failed t || Test.errored t.

(** [c in s] for a character. *)
Fixpoint contains (c : ascii) (s : string) : bool :=
  match s with
  | EmptyString => false
  | String c' s' => Ascii.eqb c' c || contains c s'
  end.

(** The entries of the policy files of a Cobertura package, in the
    order of the input, and the line numbers an entry stands for. *)
Definition package_files (files : list (string * File.t)) (name : string)
    : list (string * File.t) :=
  filter (λ entry, PyStr.endswith entry.1 "_test.rego" = false
                   ∧ Cobertura.package_name entry.1 = name) files.

Definition entry_covered (entry : string * File.t) : Z :=
  default 0 (File.covered_lines entry.2).

Definition entry_lines (entry : string * File.t) : Z :=
  default 0 (File.covered_lines entry.2) + default 0 (File.not_covered_lines entry.2).

(** What the dict of packages holds under a key after the loop over
    the files. *)
Definition holds_files (files : list (string * File.t)) (name : string)
    (entry : option Cobertura.package) : Prop :=
  match entry with
  | Some p =>
      Cobertura.pkg_files p = package_files files name
      ∧ package_files files name ≠ []
      ∧ Cobertura.pkg_covered_lines p = sum_of entry_covered (package_files files name)
      ∧ Cobertura.pkg_total_lines p = sum_of entry_lines (package_files files name)
  | None => package_files files name = []
  end.

(** The covered and not-covered lines a file adds to its group: the
    coverage-only script counts a file that has [covered_lines], a
    missing [not_covered_lines] being zero; the combined script counts
    a file that has both keys. *)
Definition lines_of_coverage_report (file_data : File.t) : Z * Z :=
  match File.covered_lines file_data with
  | Some covered => (covered, default 0 (File.not_covered_lines file_data))
  | None => (0, 0)
  end.

Definition lines_of_combined (file_data : File.t) : Z * Z :=
  match File.covered_lines file_data, File.not_covered_lines file_data with
  | Some covered, Some not_covered => (covered, not_covered)
  | _, _ => (0, 0)
  end.

Definition lines_at (lines_of : File.t → Z * Z) (files : list (string * File.t))
    (file_path : string) : Z * Z :=
  from_option lines_of (0, 0) (assoc file_path files).

(** The [value] of the property [name] among the [properties] of a
    suite. *)
Definition named (name : string) (p : element) : bool :=
  match get p "name" with
  | Some [FStr s] => String.eqb s name
  | _ => false
  end.

Definition property_value (suite : element) (name : string) : option fstring :=
  properties ← head (findall suite "properties");
  property ← List.find (named name) (children_of properties);
  get property "value".

(** ** Sample inputs *)

Module Examples.

Definition region (a b : Z) : Region.t :=
  {| Region.start_row := Some a; Region.end_row := Some b |}.

(** A file at 10%: one line covered, nine not, in four regions. *)
Definition low_file : File.t :=
  {| File.coverage := of_int 10;
     File.covered_lines := Some 1;
     File.not_covered_lines := Some 9;
     File.covered := Some [region 1 1];
     File.not_covered := Some [region 2 4; region 6 6; region 8 10; region 12 13] |}.

Definition full_file : File.t :=
  {| File.coverage := of_int 100;
     File.covered_lines := Some 20;
     File.not_covered_lines := Some 0;
     File.covered := Some [region 1 20];
     File.not_covered := None |}.

(** An overall coverage of 96% with one file at 10%. *)
Definition cov_low_file : Coverage.t :=
  {| Coverage.coverage := of_int 96;
     Coverage.covered_lines := 96;
     Coverage.not_covered_lines := 4;
     Coverage.files :=
       [("policy/a/x.rego", low_file);
        ("policy/a/y.rego", full_file);
        ("policy/a/y_test.rego", low_file)] |}.



(** A file whose lines 3 to 5 are in a covered and in a not-covered
    region. *)
Definition overlapping_file : File.t :=
  {| File.coverage := of_int 50;
     File.covered_lines := Some 5;
     File.not_covered_lines := Some 5;
     File.covered := Some [region 1 5];
     File.not_covered := Some [region 3 7] |}.

Definition passing_test : Test.t :=
  {| Test.package := "data.policy.foo_test"; Test.name := "t1";
     Test.loc := {| Test.file := "policy/foo_test.rego"; Test.row := 3 |};
     Test.duration := 1000000;
     Test.fail_ := None; Test.error_ := None; Test.skip_ := None |}.

Definition failing_test : Test.t :=
  {| Test.package := "data.policy.foo_test"; Test.name := "t2";
     Test.loc := {| Test.file := "policy/foo_test.rego"; Test.row := 9 |};
     Test.duration := 2000000;
     Test.fail_ := Some true; Test.error_ := None; Test.skip_ := None |}.

(** An overall coverage of 94.996%: below a threshold of 95, and 95.0
    once rounded to two decimals. *)
Definition cov_just_below : Coverage.t :=
  {| Coverage.coverage := of_ratio 94996 1000;
     Coverage.covered_lines := 94996;
     Coverage.not_covered_lines := 5004;
     Coverage.files := [] |}.

(** An input as [opa test --coverage] prints it, the overall figures
    counting every file: a policy file with 8 lines of 10 covered and
    its test file with 10 of 10, hence 18 of 20 and 90% overall. *)
Definition cov_with_tests : Coverage.t :=
  {| Coverage.coverage := of_int 90;
     Coverage.covered_lines := 18;
     Coverage.not_covered_lines := 2;
     Coverage.files :=
       [("policy/a/x.rego",
         {| File.coverage := of_int 80;
            File.covered_lines := Some 8;
            File.not_covered_lines := Some 2;
            File.covered := Some [region 1 8];
            File.not_covered := Some [region 9 10] |});
        ("policy/a/x_test.rego",
         {| File.coverage := of_int 100;
            File.covered_lines := Some 10;
            File.not_covered_lines := Some 0;
            File.covered := Some [region 1 10];
            File.not_covered := None |})] |}.

End Examples.

(** * Properties *)

Example policy_name_ex1 : policy_name "data.policy.foo.bar_test" = "policy.foo.bar".
Proof. reflexivity. Qed.
Example policy_name_ex2 : policy_name "data" = "data".
Proof. reflexivity. Qed.
Example policy_name_ex3 : policy_name "data.data.a" = "data.a".
Proof. reflexivity. Qed.
Example policy_name_ex4 : policy_name "a_test_test" = "a_test".
Proof. reflexivity. Qed.
Example policy_name_ex5 : policy_name "data._test" = "".
Proof. reflexivity. Qed.

(** ** Strings *)

Section string_lemmas.
Implicit Types (s t u : string) (c : ascii).

Lemma app_cons c s t : String c s +:+ t = String c (s +:+ t).
Proof. reflexivity. Qed.

Lemma app_empty t : EmptyString +:+ t = t.
Proof. reflexivity. Qed.

Lemma split_not_nil sep s : PyStr.split sep s ≠ [].
Proof. destruct s as [|c s]; simpl; [done|]. by destruct (Ascii.eqb c sep). Qed.

Lemma join_cons2 sep x y l :
  String.concat sep (x :: y :: l) = x +:+ sep +:+ String.concat sep (y :: l).
Proof. reflexivity. Qed.

Lemma join_split sep s : PyStr.join (String sep EmptyString) (PyStr.split sep s) = s.
Proof.
  unfold PyStr.join. induction s as [|c s IH]; [done|]. cbn [PyStr.split].
  pose proof (split_not_nil sep s) as Hne.
  destruct (PyStr.split sep s) as [|h t]; [done|].
  destruct (Ascii.eqb_spec c sep) as [->|Hc].
  - rewrite join_cons2, app_empty, app_cons, app_empty. by rewrite IH.
  - cbn [hd tl]. destruct t as [|y t].
    + cbn [String.concat] in *. by rewrite IH.
    + rewrite join_cons2, app_cons. f_equal. by rewrite <- IH.
Qed.

Lemma substring_all s : String.substring 0 (String.length s) s = s.
Proof. induction s; simpl; by f_equal. Qed.

Lemma prefix_split p s :
  String.prefix p s = true → s = p +:+ PyStr.drop (String.length p) s.
Proof.
  revert s. induction p as [|a p IH]; intros s H.
  - unfold PyStr.drop. simpl. rewrite Nat.sub_0_r. by rewrite substring_all.
  - destruct s as [|b s]; [done|]. simpl in H.
    destruct (ascii_dec a b) as [->|]; [|done].
    rewrite app_cons. f_equal. by apply IH.
Qed.

Lemma endswith_unfold s suf :
  PyStr.endswith s suf =
    String.eqb s suf ||
    match s with EmptyString => false | String _ s' => PyStr.endswith s' suf end.
Proof. by destruct s. Qed.

Lemma endswith_length s suf :
  PyStr.endswith s suf = true → (String.length suf ≤ String.length s)%nat.
Proof.
  induction s as [|c s IH]; rewrite endswith_unfold; intros H.
  - rewrite orb_false_r in H. apply String.eqb_eq in H. by subst.
  - apply orb_true_iff in H as [H|H].
    + apply String.eqb_eq in H. subst. simpl. lia.
    + specialize (IH H). simpl. lia.
Qed.

Lemma chop_cons k c s :
  (k ≤ String.length s)%nat → PyStr.chop k (String c s) = String c (PyStr.chop k s).
Proof.
  intros Hk. unfold PyStr.chop. cbn [String.length].
  replace (S (String.length s) - k)%nat with (S (String.length s - k)) by lia.
  reflexivity.
Qed.

(** The suffix rule commutes with a leading character, unless that
    character starts the suffix itself. *)
Lemma strip_test_suffix_cons c s :
  String c s ≠ "_test" →
  strip_test_suffix (String c s) = String c (strip_test_suffix s).
Proof.
  intros Hne. unfold strip_test_suffix. rewrite (endswith_unfold (String c s)).
  destruct (String.eqb_spec (String c s) "_test") as [|_]; [done|].
  rewrite orb_false_l. destruct (PyStr.endswith s "_test") eqn:He; [|done].
  apply chop_cons. by apply endswith_length in He.
Qed.

Lemma dotted_not_suffix x t c : String c (x +:+ "." +:+ t) ≠ "_test".
Proof.
  destruct x as [|c1 [|c2 [|c3 [|c4 [|c5 x]]]]];
    rewrite ?app_cons, ?app_empty; intros H; by simplify_eq.
Qed.

Lemma strip_test_suffix_dotted x t :
  strip_test_suffix (x +:+ "." +:+ t) = x +:+ "." +:+ strip_test_suffix t.
Proof.
  induction x as [|c x IH].
  - rewrite !app_empty, !app_cons, !app_empty.
    apply strip_test_suffix_cons. intros H; by simplify_eq.
  - rewrite !(app_cons c x), <- IH. apply strip_test_suffix_cons, dotted_not_suffix.
Qed.

Lemma set_last_not_nil f l : l ≠ [] → PyStr.set_last f l ≠ [].
Proof. destruct l as [|x [|y l]]; done. Qed.

Lemma join_set_last l :
  l ≠ [] →
  PyStr.join "." (PyStr.set_last strip_test_suffix l)
  = strip_test_suffix (PyStr.join "." l).
Proof.
  unfold PyStr.join. induction l as [|x [|y l] IH]; intros Hne; [done|done|].
  change (PyStr.set_last strip_test_suffix (x :: y :: l))
    with (x :: PyStr.set_last strip_test_suffix (y :: l)).
  pose proof (set_last_not_nil strip_test_suffix (y :: l)) as Hl.
  destruct (PyStr.set_last strip_test_suffix (y :: l)) as [|z l'] eqn:E; [by destruct Hl|].
  rewrite !join_cons2, IH by done. by rewrite strip_test_suffix_dotted.
Qed.

Lemma set_last_cond l :
  (if bool_decide (l ≠ []) && PyStr.endswith (PyStr.last_part l) "_test"
   then PyStr.set_last (PyStr.chop 5) l else l)
  = PyStr.set_last strip_test_suffix l.
Proof.
  induction l as [|x [|y l] IH]; [done| |].
  - cbn. unfold strip_test_suffix. by destruct (PyStr.endswith x "_test").
  - change (PyStr.set_last ?f (x :: y :: l)) with (x :: PyStr.set_last f (y :: l)).
    rewrite <- IH.
    change (PyStr.last_part (x :: y :: l)) with (PyStr.last_part (y :: l)).
    rewrite !bool_decide_eq_true_2 by done. cbn [andb].
    by destruct (PyStr.endswith _ _).
Qed.

Lemma split_data r : PyStr.split "." ("data." +:+ r) = "data" :: PyStr.split "." r.
Proof.
  rewrite !app_cons, !app_empty. cbn [PyStr.split].
  pose proof (split_not_nil "." r). by destruct (PyStr.split "." r).
Qed.

Lemma join_root s :
  PyStr.join "."
    (if bool_decide (hd EmptyString (PyStr.split "." s) = "data")
        && bool_decide (1 < length (PyStr.split "." s))%nat
     then tl (PyStr.split "." s) else PyStr.split "." s)
  = strip_root s.
Proof.
  unfold strip_root, PyStr.startswith.
  destruct (String.prefix "data." s) eqn:Hp.
  - apply prefix_split in Hp. change (String.length "data.") with 5%nat in Hp.
    generalize dependent (PyStr.drop 5 s). intros r ->. rewrite split_data.
    pose proof (split_not_nil "." r).
    rewrite !bool_decide_eq_true_2; [|destruct (PyStr.split "." r); [done|simpl; lia]|done].
    cbn [andb tl]. apply join_split.
  - case_bool_decide as Hhd; [|apply join_split].
    case_bool_decide as Hlen; [|apply join_split]. exfalso.
    pose proof (join_split "." s) as Hs. unfold PyStr.join in Hs.
    destruct (PyStr.split "." s) as [|h [|y l]]; simpl in Hhd, Hlen; [lia|lia|].
    subst h. rewrite join_cons2 in Hs. rewrite <- Hs in Hp.
    revert Hp. generalize (String.concat "." (y :: l)). by intros [|??].
Qed.
End string_lemmas.

Lemma policy_name_strips s : policy_name s = strip_test_suffix (strip_root s).
Proof.
  unfold policy_name. rewrite set_last_cond, join_set_last, join_root; [done|].
  pose proof (split_not_nil "." s).
  destruct (PyStr.split "." s) as [|h [|y l]]; [done| |].
  - by rewrite andb_false_r.
  - by destruct (_ && _).
Qed.


(** ** The policy name (C3) *)

(** C3, as stated: normalization is idempotent on every name in its
    image.  It is not: the name [data.data.a] loses one [data] at each
    application. *)
Lemma policy_name_not_idempotent :
  ¬ (∀ s, policy_name (policy_name s) = policy_name s).
Proof. intros H. specialize (H "data.data.a"). by vm_compute in H. Qed.

(** C3, amended: on every name normalization removes exactly one
    leading [data.] when the name starts with it and then exactly one
    trailing [_test] when what is left ends with it, and nothing else;
    so it is the identity on a name with neither. *)
Theorem policy_name_strips_once (s : string) :
  policy_name s = strip_test_suffix (strip_root s)
  ∧ (normalized s → policy_name s = s).
Proof.
  split; [apply policy_name_strips|]. intros [Hr Ht].
  rewrite policy_name_strips. unfold strip_root. rewrite Hr.
  unfold strip_test_suffix. by rewrite Ht.
Qed.

Lemma policy_name_strips_once_witness :
  normalized "policy.foo" ∧ policy_name "policy.foo" = "policy.foo".
Proof.
  assert (normalized "policy.foo") as H by (split; reflexivity).
  split; [exact H|]. exact (proj2 (policy_name_strips_once "policy.foo") H).
Defined.

(** ** Sums over the values of a dict *)

Section sums.
Context {A : Type}.
Implicit Types (f : A → Z) (l : list A).

Lemma foldl_sum_acc f l a : foldl (λ acc g, acc + f g) a l = a + sum_of f l.
Proof.
  unfold sum_of. revert a. induction l as [|x l IH]; intros a; simpl; [lia|].
  rewrite IH, (IH (0 + f x)). lia.
Qed.

Lemma sum_of_cons f x l : sum_of f (x :: l) = f x + sum_of f l.
Proof. unfold sum_of at 1. simpl. rewrite foldl_sum_acc. lia. Qed.

Lemma sum_of_nil f : sum_of f [] = 0.
Proof. reflexivity. Qed.

Lemma sum_of_perm f l l' : l ≡ₚ l' → sum_of f l = sum_of f l'.
Proof.
  induction 1 as [|x l l' _ IH|x y l|l l' l'' _ IH1 _ IH2];
    rewrite ?sum_of_cons; lia.
Qed.

Lemma count_if_sum (p : A → bool) l :
  count_if p l = sum_of (λ x, if p x then 1 else 0) l.
Proof.
  unfold count_if, sum_of.
  enough (∀ a, foldl (λ acc g, if p g then acc + 1 else acc) a l
               = foldl (λ acc g, acc + (if p g then 1 else 0)) a l) by done.
  induction l as [|x l IH]; intros a; simpl; [done|].
  rewrite <- IH. by destruct (p x); rewrite ?Z.add_0_r.
Qed.
End sums.

Lemma sum_values_insert {V} (f : V → Z) (m : gmap string V) k v :
  sum_of f (values (<[k := v]> m))
  = sum_of f (values m) - from_option f 0 (m !! k) + f v.
Proof.
  unfold values. destruct (m !! k) as [old|] eqn:Hk; cbn [from_option].
  - rewrite <- insert_delete_eq.
    rewrite (sum_of_perm f _ _
               (fmap_Permutation snd _ _
                  (map_to_list_insert (delete k m) k v (lookup_delete_eq m k)))).
    rewrite <- (sum_of_perm f _ _
                  (fmap_Permutation snd _ _ (map_to_list_delete m k old Hk))).
    rewrite !fmap_cons, !sum_of_cons. cbn [snd]. lia.
  - rewrite (sum_of_perm f _ _
               (fmap_Permutation snd _ _ (map_to_list_insert m k v Hk))).
    rewrite fmap_cons, sum_of_cons. cbn [snd]. lia.
Qed.

Lemma sum_values_empty {V} (f : V → Z) : sum_of f (values (∅ : gmap string V)) = 0.
Proof. unfold values. by rewrite map_to_list_empty. Qed.

(** ** Groups of tests (C2) *)

Section test_groups.

(** A counter of a group: zero on a new group, raised by [delta] when
    a test is added. *)
Variables (f : TestGroup.t → Z) (delta : Test.t → Z).
Hypothesis f_fresh : f TestGroup.fresh = 0.
Hypothesis f_add : ∀ m t,
  let k := policy_name (Test.package t) in
  ∀ g, TestGroup.add m t !! k = Some g →
       f g = f (default TestGroup.fresh (m !! k)) + delta t.

Lemma sum_add m t :
  sum_of f (values (TestGroup.add m t)) = sum_of f (values m) + delta t.
Proof.
  pose proof (f_add m t) as Hadd. simpl in Hadd.
  unfold TestGroup.add in *. rewrite sum_values_insert.
  rewrite (Hadd _ (lookup_insert_eq _ _ _)).
  destruct (m !! policy_name (Test.package t)); simpl; rewrite ?f_fresh; lia.
Qed.

Lemma sum_group_tests_from m test_data :
  sum_of f (values (foldl TestGroup.add m test_data))
  = sum_of f (values m) + sum_of delta test_data.
Proof.
  revert m. induction test_data as [|t l IH]; intros m; simpl.
  - rewrite sum_of_nil. lia.
  - rewrite IH, sum_add, sum_of_cons. lia.
Qed.

Lemma sum_group_tests test_data :
  sum_of f (values (TestGroup.group_tests test_data)) = sum_of delta test_data.
Proof.
  unfold TestGroup.group_tests. rewrite sum_group_tests_from, sum_values_empty. lia.
Qed.

End test_groups.

Lemma sum_of_ones {A} (l : list A) : sum_of (λ _, 1) l = Z.of_nat (length l).
Proof. induction l as [|x l IH]; [done|]. rewrite sum_of_cons, IH. simpl length. lia. Qed.

Ltac counter_step :=
  intros m t k g; subst k; unfold TestGroup.add;
  rewrite lookup_insert_eq; intros [= <-]; simpl;
  rewrite ?length_app; simpl; repeat case_match; lia.

Lemma group_counts_totals (test_data : list Test.t) :
  sum_of (λ g, Z.of_nat (length (TestGroup.tests g)))
    (values (TestGroup.group_tests test_data)) = Z.of_nat (length test_data)
  ∧ sum_of TestGroup.failures (values (TestGroup.group_tests test_data))
    = count_if Test.failed test_data
  ∧ sum_of TestGroup.errors (values (TestGroup.group_tests test_data))
    = count_if Test.errored test_data
  ∧ sum_of TestGroup.skipped (values (TestGroup.group_tests test_data))
    = count_if Test.skipped test_data.
Proof.
  rewrite !count_if_sum, <- sum_of_ones.
  repeat split; apply sum_group_tests; try done; counter_step.
Qed.

(** C2: the test counts, failure counts, error counts and skipped
    counts of the groups add up to the counts over the flat list of
    records (for every list, the empty one included), in both scripts
    that group tests. *)
Theorem group_counts_add_up (test_data : list Test.t) :
  let policy_groups := TestGroup.group_tests test_data in
  sum_of (λ g, Z.of_nat (length (TestGroup.tests g))) (values policy_groups)
    = Z.of_nat (length test_data)
  ∧ sum_of TestGroup.failures (values policy_groups) = count_if Test.failed test_data
  ∧ sum_of TestGroup.errors (values policy_groups) = count_if Test.errored test_data
  ∧ sum_of TestGroup.skipped (values policy_groups) = count_if Test.skipped test_data.
Proof.
  simpl. rewrite !count_if_sum, <- sum_of_ones.
  repeat split; apply sum_group_tests; try done; counter_step.
Qed.

(** ** Floats: comparisons and rounding *)

Section float_lemmas.
Implicit Types (x y : float).

Lemma compare_nan x y :
  SFcompare x y = None ↔ is_nan x = true ∨ is_nan y = true.
Proof.
  destruct x as [[]|[]| |[]], y as [[]|[]| |[]]; simpl;
    (split; [intros; by auto|by intros [|]]).
Qed.

Lemma compare_antisym x y : SFcompare y x = CompOpp <$> SFcompare x y.
Proof.
  destruct x as [[]|[]| |[] m1 e1], y as [[]|[]| |[] m2 e2]; try reflexivity;
    simpl; f_equal; rewrite (Z.compare_antisym e1 e2);
    destruct (e1 ?= e2); simpl; try reflexivity;
    rewrite (Pos.compare_cont_antisym m1 m2 Eq); simpl;
    by rewrite ?CompOpp_involutive.
Qed.

(** On numbers, [not (x >= y)] is [x < y]. *)
Lemma not_ge_lt x y :
  is_nan x = false → is_nan y = false →
  negb (PyFloat.leb y x) = PyFloat.ltb x y.
Proof.
  intros Hx Hy. unfold PyFloat.leb, PyFloat.ltb, SFleb, SFltb.
  rewrite compare_antisym.
  destruct (SFcompare x y) as [[]|] eqn:Hc; try reflexivity.
  apply compare_nan in Hc as [?|?]; congruence.
Qed.

Lemma shr_1_nonneg mrs : 0 ≤ shr_m mrs → 0 ≤ shr_m (shr_1 mrs).
Proof. destruct mrs as [[|[]|[]] r s]; simpl; lia. Qed.

Lemma iter_shr_1_nonneg p mrs :
  0 ≤ shr_m mrs → 0 ≤ shr_m (SpecFloat.iter_pos shr_1 p mrs).
Proof.
  revert mrs. induction p as [p IH|p IH|]; intros mrs H; simpl;
    auto using shr_1_nonneg.
Qed.

Lemma shr_fexp_nonneg m e l :
  0 ≤ m → 0 ≤ shr_m (shr_fexp prec emax m e l).1.
Proof.
  intros H. unfold shr_fexp, shr.
  assert (0 ≤ shr_m (shr_record_of_loc m l)) by (by destruct l as [|[]]).
  destruct (_ - e); simpl; auto using iter_shr_1_nonneg.
Qed.

Lemma binary_round_aux_not_nan s m e l :
  0 ≤ m → is_nan (binary_round_aux prec emax s m e l) = false.
Proof.
  intros H. unfold binary_round_aux.
  pose proof (shr_fexp_nonneg m e l H) as H1.
  destruct (shr_fexp prec emax m e l) as [mrs' e']. simpl in H1.
  assert (0 ≤ round_nearest_even (shr_m mrs') (loc_of_shr_record mrs')) as H2.
  { unfold round_nearest_even.
    destruct (loc_of_shr_record mrs') as [|[]]; try case_match; lia. }
  pose proof (shr_fexp_nonneg _ e' loc_Exact H2) as H3.
  destruct (shr_fexp prec emax _ e' loc_Exact) as [mrs'' e'']. simpl in H3.
  destruct (shr_m mrs''); [done| |lia]. by case_match.
Qed.

Lemma ratio_pos_not_nan s n d : is_nan (ratio_pos s n d) = false.
Proof.
  unfold ratio_pos, SFdiv_core_binary.
  set (m' := match _ - _ - _ with 0 => Z.pos n | Z.pos _ => _ | Z.neg _ => 0 end).
  assert (0 ≤ m') as Hm.
  { subst m'. destruct (_ - _ - _); [lia| |lia]. by apply Z.shiftl_nonneg. }
  pose proof (Z.div_pos m' (Z.pos d) Hm ltac:(lia)) as Hq.
  unfold Z.div in Hq. destruct (Z.div_eucl m' (Z.pos d)) as [q r].
  by apply binary_round_aux_not_nan.
Qed.

(** Rounding a number gives a number. *)
Lemma round_not_nan x ndigits : is_nan x = false → is_nan (round x ndigits) = false.
Proof.
  intros H. unfold round, round_with. destruct x as [| | |s m e]; try done.
  destruct (scaled _ _ _ _); auto using ratio_pos_not_nan.
Qed.
End float_lemmas.

(** ** The coverage-only report (C4) *)

(** C4, as stated: the overall case is failed exactly when the overall
    coverage is strictly below the threshold.  It is not: the script
    compares the coverage rounded to two decimals, so an overall
    coverage of 94.996 against a threshold of 95 is reported as 95.0
    and not failed. *)
Lemma coverage_report_not_failed_below :
  ¬ (∀ coverage_data coverage_threshold testsuites suite testcase,
       CoverageReport.create_coverage_report coverage_data coverage_threshold
         = Some testsuites →
       children_of testsuites = [suite] →
       findall suite "testcase" = [testcase] →
       (findall testcase "failure" ≠ []
        ↔ PyFloat.ltb (Coverage.coverage coverage_data) coverage_threshold = true)).
Proof.
  intros H.
  assert (∃ testsuites suite testcase,
            CoverageReport.create_coverage_report Examples.cov_just_below (of_int 95)
              = Some testsuites
            ∧ children_of testsuites = [suite]
            ∧ findall suite "testcase" = [testcase]
            ∧ findall testcase "failure" = [])
    as (testsuites & suite & testcase & E & Hs & Htc & Hf).
  { destruct (CoverageReport.create_coverage_report Examples.cov_just_below (of_int 95))
      as [testsuites|] eqn:E; [|by vm_compute in E].
    vm_compute in E. injection E as <-.
    eexists _, _, _. split; [reflexivity|]. split; [reflexivity|].
    split; by vm_compute. }
  destruct (H _ _ _ _ _ E Hs Htc) as [_ Hb]. rewrite Hf in Hb.
  by apply Hb; vm_compute.
Qed.

(** C4, amended: the report of [opa_coverage_to_junit.py] has one
    suite with one test case; the case carries a [failure] child, and
    the [failures] attributes of the suite and of the root are ["1"],
    exactly when the overall coverage rounded to two decimals is not
    at least the threshold, whatever the files are.  For a coverage
    and a threshold that are numbers that is: exactly when the rounded
    coverage is strictly below the threshold. *)
Theorem coverage_report_fails_iff_below
    (coverage_data : Coverage.t) (coverage_threshold : float) (testsuites : element) :
  CoverageReport.create_coverage_report coverage_data coverage_threshold = Some testsuites →
  let overall_coverage := round (Coverage.coverage coverage_data) 2 in
  let failed := negb (PyFloat.leb coverage_threshold overall_coverage) in
  (∃ suite testcase,
     children_of testsuites = [suite]
     ∧ findall suite "testcase" = [testcase]
     ∧ (findall testcase "failure" ≠ [] ↔ failed = true)
     ∧ get testcase "name"
       = Some [FStr "Overall Coverage: "; FFloat overall_coverage; FStr "%"]
     ∧ get suite "tests" = Some [FStr "1"]
     ∧ get suite "failures" = Some [FStr (if failed then "1" else "0")]
     ∧ get testsuites "failures" = Some [FStr (if failed then "1" else "0")])
  ∧ (is_nan (Coverage.coverage coverage_data) = false →
     is_nan coverage_threshold = false →
     failed = PyFloat.ltb overall_coverage coverage_threshold).
Proof.
  intros Hrep overall_coverage failed. split.
  - unfold CoverageReport.create_coverage_report in Hrep.
    destruct (CoverageReport.group_files _ _ _) as [policy_groups|]; [|done].
    cbn [mbind option_bind] in Hrep.
    destruct (mapM _ _) as [sections|]; [|done].
    cbn [mbind option_bind] in Hrep. injection Hrep as <-.
    unfold CoverageReport._round_percentage. fold overall_coverage.
    replace (PyFloat.leb coverage_threshold overall_coverage) with (negb failed)
      by (subst failed; apply negb_involutive).
    destruct failed; (eexists _, _; repeat split; try reflexivity; try done).
  - intros Hc Ht. subst failed overall_coverage.
    apply not_ge_lt; [by apply round_not_nan|done].
Qed.

Lemma coverage_report_fails_iff_below_witness :
  ∃ testsuites suite testcase,
    CoverageReport.create_coverage_report Examples.cov_low_file (of_int 95) = Some testsuites
    ∧ children_of testsuites = [suite]
    ∧ findall suite "testcase" = [testcase]
    ∧ findall testcase "failure" = []
    ∧ get testsuites "failures" = Some [FStr "0"].
Proof.
  destruct (CoverageReport.create_coverage_report Examples.cov_low_file (of_int 95))
    as [testsuites|] eqn:E; [|by vm_compute in E].
  destruct (coverage_report_fails_iff_below Examples.cov_low_file (of_int 95)
              testsuites E)
    as [(suite & testcase & H1 & H2 & H3 & _ & _ & _ & H4) _].
  exists testsuites, suite, testcase. repeat split; try done.
  destruct (findall testcase "failure"); [done|].
  destruct H3 as [H3 _]. by specialize (H3 ltac:(done)).
Defined.

(** ** Exit statuses (C1) *)

Lemma leb_not_nan (x y : float) :
  PyFloat.leb x y = true → is_nan x = false ∧ is_nan y = false.
Proof. destruct x as [[]|[]| |[]], y as [[]|[]| |[]]; by cbv. Qed.

(** C1, as stated for the test report program: a completed run exits
    with 0 exactly when no test failed.  It does not: with a failing
    test in the input the report is written and the status is 0. *)
Lemma test_report_exit_ignores_failures :
  ¬ (∀ test_data : list Test.t,
       is_Some (written (TestReport.main test_data)) →
       (exit_status (TestReport.main test_data) = 0
        ↔ count_if Test.failed test_data = 0)).
Proof.
  intros H.
  specialize (H [Examples.passing_test; Examples.failing_test]).
  destruct H as [H _]; [vm_compute; by eexists|]. by specialize (H eq_refl).
Qed.

(** C1, amended: when the report has been written, the test report
    program and the Cobertura program exit with 0 whatever the tests
    and the coverage are; the coverage-only program exits with 0 if
    the reported overall coverage (rounded to two decimals) is at
    least the threshold and with 1 otherwise, which for a coverage
    that is a number means: with 1 exactly when it is below the
    threshold; the combined program exits with 1 if a test record has
    its fail flag set or the reported overall coverage is below the
    threshold, and with 0 otherwise. *)
Theorem exit_status_of_completed_runs :
  (∀ test_data report,
     written (TestReport.main test_data) = Some report →
     exit_status (TestReport.main test_data) = 0)
  ∧ (∀ coverage_data source coverage_threshold report,
       written (Cobertura.main coverage_data source coverage_threshold) = Some report →
       exit_status (Cobertura.main coverage_data source coverage_threshold) = 0)
  ∧ (∀ coverage_data coverage_threshold report,
       written (CoverageReport.main coverage_data coverage_threshold) = Some report →
       exit_status (CoverageReport.main coverage_data coverage_threshold)
       = (if PyFloat.leb coverage_threshold (round (Coverage.coverage coverage_data) 2)
          then 0 else 1)
       ∧ (is_nan (Coverage.coverage coverage_data) = false →
          exit_status (CoverageReport.main coverage_data coverage_threshold)
          = if PyFloat.ltb (round (Coverage.coverage coverage_data) 2) coverage_threshold
            then 1 else 0))
  ∧ (∀ test_data coverage_data coverage_threshold report,
       written (Combined.main test_data coverage_data coverage_threshold) = Some report →
       exit_status (Combined.main test_data coverage_data coverage_threshold)
       = if bool_decide (0 < count_if Test.failed test_data)
            || PyFloat.ltb (round (Coverage.coverage coverage_data) 2) coverage_threshold
         then 1 else 0).
Proof.
  split; [|split; [|split]].
  - intros test_data report. unfold TestReport.main. by case_match.
  - intros coverage_data source coverage_threshold report. unfold Cobertura.main.
    repeat case_match; done.
  - intros coverage_data coverage_threshold report. unfold CoverageReport.main.
    destruct (PyFloat.leb (of_int 0) coverage_threshold
              && PyFloat.leb coverage_threshold (of_int 100)) eqn:Hvalid; [|done].
    apply andb_true_iff in Hvalid as [_ [Ht _]%leb_not_nan]. cbn [negb].
    destruct (CoverageReport.create_coverage_report _ _); [|done].
    intros _. cbn [exit_status]. unfold CoverageReport._round_percentage.
    split; [done|]. intros Hnan.
    rewrite <- (not_ge_lt _ _ (round_not_nan _ 2 Hnan) Ht). by case_match.
  - intros test_data coverage_data coverage_threshold report. unfold Combined.main.
    destruct (negb _); [done|]. unfold Combined.create_combined_report.
    destruct (Combined.create_test_summary_and_suites _); [|done].
    destruct (Combined.create_coverage_summary_and_suites _ _); [|done].
    cbn [mbind option_bind exit_status]. intros _. unfold Combined._round_percentage.
    destruct (PyFloat.ltb _ _); [by rewrite !orb_true_r|]. reflexivity.
Qed.

Lemma exit_status_of_completed_runs_witness :
  exit_status (TestReport.main [Examples.passing_test; Examples.failing_test]) = 0
  ∧ exit_status (CoverageReport.main Examples.cov_low_file (of_int 95)) = 0
  ∧ exit_status (CoverageReport.main Examples.cov_low_file (of_int 97)) = 1.
Proof.
  destruct exit_status_of_completed_runs as (Htest & _ & Hcov & _).
  split; [|split].
  - destruct (written (TestReport.main [Examples.passing_test; Examples.failing_test]))
      as [report|] eqn:E; [|by vm_compute in E].
    exact (Htest _ report E).
  - destruct (written (CoverageReport.main Examples.cov_low_file (of_int 95)))
      as [report|] eqn:E; [|by vm_compute in E].
    exact (proj1 (Hcov Examples.cov_low_file (of_int 95) report E)).
  - destruct (written (CoverageReport.main Examples.cov_low_file (of_int 97)))
      as [report|] eqn:E; [|by vm_compute in E].
    exact (proj1 (Hcov Examples.cov_low_file (of_int 97) report E)).
Defined.

(** ** Groups of files *)

Lemma assoc_is_Some {V} (d : list (string * V)) (k : string) :
  k ∈ d.*1 → is_Some (assoc k d).
Proof.
  induction d as [|[k' v] d IH]; [by intros ?%elem_of_nil|].
  rewrite fmap_cons. cbn [assoc fst].
  intros [->|?]%elem_of_cons; case_bool_decide; try done; by auto.
Qed.

Lemma policy_files_assoc (coverage_data : Coverage.t) (p : string) :
  p ∈ Coverage.policy_files coverage_data →
  is_Some (assoc p (Coverage.files coverage_data)).
Proof.
  unfold Coverage.policy_files. intros [_ ?]%list_elem_of_filter.
  by apply assoc_is_Some.
Qed.

Section cov_groups.

Variable add_file : gmap string CovGroup.t → string → File.t → gmap string CovGroup.t.

(** What both scripts do to the group of a file, whatever they do to
    its line totals. *)
Hypothesis add_file_counts : ∀ G p fd,
  let g := default CovGroup.fresh (G !! policy_area p) in
  ∃ g', add_file G p fd = <[policy_area p := g']> G
        ∧ CovGroup.files g' = CovGroup.files g ++ [p]
        ∧ CovGroup.total_coverage g'
          = PyFloat.add (CovGroup.total_coverage g) (File.coverage fd)
        ∧ CovGroup.file_count g' = CovGroup.file_count g + 1.

Variable files : list (string * File.t).

Lemma fold_files_is_Some l G0 :
  (∀ p, p ∈ l → is_Some (assoc p files)) →
  is_Some (CovGroup.fold_files add_file files l G0).
Proof.
  revert G0. induction l as [|p l IH]; intros G0 Hl; simpl; [by eexists|].
  destruct (Hl p) as [fd ->]; [by left|]. simpl.
  apply IH. intros q Hq. apply Hl. by right.
Qed.

Lemma fold_files_inv l G0 G area :
  CovGroup.fold_files add_file files l G0 = Some G →
  let g0 := default CovGroup.fresh (G0 !! area) in
  let g := default CovGroup.fresh (G !! area) in
  let ps := filter (λ p, policy_area p = area) l in
  CovGroup.files g = CovGroup.files g0 ++ ps
  ∧ CovGroup.file_count g = CovGroup.file_count g0 + Z.of_nat (length ps)
  ∧ CovGroup.total_coverage g
    = float_sum (CovGroup.total_coverage g0) (coverage_of files <$> ps)
  ∧ (is_Some (G !! area) ↔ is_Some (G0 !! area) ∨ ps ≠ []).
Proof.
  revert G0. induction l as [|p l IH]; intros G0; simpl.
  - intros [= ->]. rewrite app_nil_r, Z.add_0_r.
    repeat split; try done; [by left|by intros [?|?]].
  - destruct (assoc p files) as [fd|] eqn:Hfd; [|done]. simpl. intros HG.
    destruct (add_file_counts G0 p fd) as (g' & Hadd & Hfiles & Htotal & Hcount).
    rewrite Hadd in HG. destruct (IH _ HG) as (IH1 & IH2 & IH3 & IH4). clear IH.
    rewrite filter_cons. case_decide as Harea.
    + subst area. rewrite lookup_insert_eq in IH1, IH2, IH3, IH4. simpl in *.
      rewrite IH1, IH2, IH3, Hfiles, Hcount, Htotal, <- app_assoc.
      unfold coverage_of at 2. rewrite Hfd. simpl.
      repeat split; try done; try lia.
      * intros _. by right.
      * intros _. apply IH4. left. by eexists.
    + rewrite lookup_insert_ne in IH1, IH2, IH3, IH4 by done. done.
Qed.

(** From the empty dict: the group of an area holds the files of that
    area, and an area has a group exactly when it has a file. *)
Lemma fold_files_groups l G area g :
  CovGroup.fold_files add_file files l ∅ = Some G →
  G !! area = Some g →
  let ps := filter (λ p, policy_area p = area) l in
  CovGroup.files g = ps
  ∧ CovGroup.file_count g = Z.of_nat (length ps)
  ∧ CovGroup.total_coverage g = float_sum PyFloat.zero (coverage_of files <$> ps)
  ∧ ps ≠ [].
Proof.
  intros HG Hg. destruct (fold_files_inv l ∅ G area HG) as (H1 & H2 & H3 & H4).
  rewrite Hg, lookup_empty in *. simpl in *.
  repeat split; try done.
  destruct H4 as [[[]%is_Some_None|?] _]; by eauto.
Qed.

Lemma fold_files_keys l G area :
  CovGroup.fold_files add_file files l ∅ = Some G →
  is_Some (G !! area) ↔ ∃ p, p ∈ l ∧ policy_area p = area.
Proof.
  intros HG. destruct (fold_files_inv l ∅ G area HG) as (_ & _ & _ & H4).
  rewrite H4, lookup_empty. split.
  - intros [[]%is_Some_None|Hne].
    destruct (filter _ l) as [|p ps] eqn:E; [done|].
    assert (p ∈ filter (λ p, policy_area p = area) l) as Hin
      by (rewrite E; by left).
    apply list_elem_of_filter in Hin as [? ?]. by exists p.
  - intros (p & Hp & Harea). right. intros E.
    assert (p ∈ filter (λ p, policy_area p = area) l) as Hin
      by by apply list_elem_of_filter.
    rewrite E in Hin. by apply elem_of_nil in Hin.
Qed.

End cov_groups.

Lemma coverage_report_add_file_counts G p fd :
  let g := default CovGroup.fresh (G !! policy_area p) in
  ∃ g', CoverageReport.add_file G p fd = <[policy_area p := g']> G
        ∧ CovGroup.files g' = CovGroup.files g ++ [p]
        ∧ CovGroup.total_coverage g'
          = PyFloat.add (CovGroup.total_coverage g) (File.coverage fd)
        ∧ CovGroup.file_count g' = CovGroup.file_count g + 1.
Proof.
  unfold CoverageReport.add_file. eexists. split; [reflexivity|].
  by destruct (File.covered_lines fd).
Qed.

Lemma combined_add_file_counts G p fd :
  let g := default CovGroup.fresh (G !! policy_area p) in
  ∃ g', Combined.add_file G p fd = <[policy_area p := g']> G
        ∧ CovGroup.files g' = CovGroup.files g ++ [p]
        ∧ CovGroup.total_coverage g'
          = PyFloat.add (CovGroup.total_coverage g) (File.coverage fd)
        ∧ CovGroup.file_count g' = CovGroup.file_count g + 1.
Proof.
  unfold Combined.add_file. eexists. split; [reflexivity|].
  by destruct (File.covered_lines fd), (File.not_covered_lines fd).
Qed.

Lemma elem_of_sorted_keys {V} (m : gmap string V) (k : string) :
  k ∈ sorted_keys m ↔ is_Some (m !! k).
Proof.
  unfold sorted_keys, sorted. rewrite merge_sort_Permutation, list_elem_of_fmap.
  split.
  - intros ([k' v] & -> & H%elem_of_map_to_list). by eexists.
  - intros [v H]. exists (k, v). by rewrite elem_of_map_to_list.
Qed.

Lemma elem_of_sorted (l : list string) (x : string) : x ∈ sorted l ↔ x ∈ l.
Proof. unfold sorted. by rewrite merge_sort_Permutation. Qed.

Lemma average_is_Some (g : CovGroup.t) :
  1 ≤ CovGroup.file_count g → is_Some (CovGroup.average g).
Proof.
  intros H. unfold CovGroup.average, truediv_float_int.
  rewrite bool_decide_eq_false_2 by lia. by eexists.
Qed.

(** ** The report builders are total (C10) *)

Section totality.

Variables (coverage_data : Coverage.t) (coverage_threshold : float).

Lemma coverage_report_group_files_is_Some :
  is_Some (CoverageReport.group_files (Coverage.files coverage_data)
             (Coverage.policy_files coverage_data) ∅).
Proof. apply fold_files_is_Some, policy_files_assoc. Qed.

Lemma combined_group_files_is_Some :
  is_Some (Combined.group_files (Coverage.files coverage_data)
             (Coverage.policy_files coverage_data) ∅).
Proof. apply fold_files_is_Some, policy_files_assoc. Qed.

Lemma grouped_files policy_groups area g :
  grouped coverage_data policy_groups → policy_groups !! area = Some g →
  CovGroup.files g = area_files coverage_data area
  ∧ CovGroup.file_count g = Z.of_nat (length (area_files coverage_data area))
  ∧ CovGroup.total_coverage g
    = float_sum PyFloat.zero
        (coverage_of (Coverage.files coverage_data) <$> area_files coverage_data area)
  ∧ area_files coverage_data area ≠ [].
Proof.
  intros [HG|HG] Hg.
  - exact (fold_files_groups _ coverage_report_add_file_counts _ _ _ _ _ HG Hg).
  - exact (fold_files_groups _ combined_add_file_counts _ _ _ _ _ HG Hg).
Qed.

Lemma grouped_count policy_groups area g :
  grouped coverage_data policy_groups → policy_groups !! area = Some g →
  1 ≤ CovGroup.file_count g.
Proof.
  intros HG Hg. destruct (grouped_files _ _ _ HG Hg) as (_ & -> & _ & Hne).
  destruct (area_files coverage_data area); [done|]. simpl length. lia.
Qed.

Lemma grouped_file_assoc policy_groups area g p :
  grouped coverage_data policy_groups → policy_groups !! area = Some g →
  p ∈ CovGroup.files g → is_Some (assoc p (Coverage.files coverage_data)).
Proof.
  intros HG Hg. destruct (grouped_files _ _ _ HG Hg) as (-> & _).
  unfold area_files. intros [_ ?]%list_elem_of_filter. by apply policy_files_assoc.
Qed.

Lemma file_lines_is_Some p :
  is_Some (assoc p (Coverage.files coverage_data)) →
  is_Some (CoverageReport.file_lines coverage_data coverage_threshold p).
Proof.
  intros [fd Hfd]. unfold CoverageReport.file_lines. rewrite Hfd. simpl.
  by destruct (File.covered_lines fd).
Qed.

Lemma file_details_is_Some p :
  is_Some (assoc p (Coverage.files coverage_data)) →
  is_Some (Combined.file_details coverage_data p).
Proof.
  intros [fd Hfd]. unfold Combined.file_details. rewrite Hfd. simpl.
  by destruct (File.covered_lines fd), (File.not_covered_lines fd).
Qed.

Lemma has_incomplete_coverage_is_Some ps :
  (∀ p, p ∈ ps → is_Some (assoc p (Coverage.files coverage_data))) →
  is_Some (Combined.has_incomplete_coverage (Coverage.files coverage_data) ps).
Proof.
  induction ps as [|p ps IH]; intros Hps; simpl; [by eexists|].
  destruct (Hps p) as [fd ->]; [by left|]. simpl.
  destruct (PyFloat.ltb _ _); [by eexists|]. apply IH. intros q Hq. apply Hps. by right.
Qed.

Lemma case_name_is_Some area g avg :
  (∀ p, p ∈ CovGroup.files g → is_Some (assoc p (Coverage.files coverage_data))) →
  is_Some (Combined.case_name coverage_data area g avg).
Proof.
  intros Hps. unfold Combined.case_name. case_bool_decide; [by eexists|].
  destruct (CovGroup.files g) as [|p ps]; [by eexists|].
  destruct (Hps p) as [fd ->]; [by left|]. simpl.
  by destruct (File.covered_lines fd), (File.not_covered_lines fd).
Qed.

Lemma policy_lines_is_Some policy_groups area g :
  grouped coverage_data policy_groups → policy_groups !! area = Some g →
  is_Some (CoverageReport.policy_lines coverage_data coverage_threshold area g).
Proof.
  intros HG Hg. unfold CoverageReport.policy_lines.
  destruct (average_is_Some g (grouped_count _ _ _ HG Hg)) as [avg ->]. cbn [mbind option_bind].
  match goal with
  | |- is_Some (?m ≫= _) => assert (is_Some m) as [details ->]; [|by eexists]
  end.
  apply mapM_is_Some, Forall_forall. intros p Hp. apply (proj1 (elem_of_sorted _ _)) in Hp.
  apply file_lines_is_Some. exact (grouped_file_assoc _ _ _ p HG Hg Hp).
Qed.

Lemma coverage_testcase_is_Some policy_groups area g :
  grouped coverage_data policy_groups → policy_groups !! area = Some g →
  is_Some (Combined.coverage_testcase coverage_data area g).
Proof.
  intros HG Hg. unfold Combined.coverage_testcase.
  assert (∀ p, p ∈ CovGroup.files g →
               is_Some (assoc p (Coverage.files coverage_data))) as Hps
    by (intros p; by eapply grouped_file_assoc).
  destruct (average_is_Some g (grouped_count _ _ _ HG Hg)) as [avg ->]. cbn [mbind option_bind].
  destruct (has_incomplete_coverage_is_Some _ Hps) as [b ->]. cbn [mbind option_bind].
  destruct (case_name_is_Some area g (Combined._round_percentage avg) Hps) as [n ->].
  cbn [mbind option_bind].
  match goal with
  | |- is_Some (?m ≫= _) => assert (is_Some m) as [details ->]; [|by eexists]
  end.
  apply mapM_is_Some, Forall_forall. intros p Hp. apply (proj1 (elem_of_sorted _ _)) in Hp.
  by apply file_details_is_Some, Hps.
Qed.

End totality.

(** C10: a policy-area group that reaches rendering holds at least one
    file, its file count is the number of its files, and the average
    is computed without a division by zero; both coverage report
    builders return a report on every coverage input. *)
Theorem coverage_builders_total (coverage_data : Coverage.t) (coverage_threshold : float) :
  (∀ policy_groups area g,
     grouped coverage_data policy_groups → policy_groups !! area = Some g →
     1 ≤ CovGroup.file_count g
     ∧ CovGroup.file_count g = Z.of_nat (length (CovGroup.files g))
     ∧ is_Some (CovGroup.average g))
  ∧ is_Some (CoverageReport.create_coverage_report coverage_data coverage_threshold)
  ∧ is_Some (Combined.create_coverage_summary_and_suites coverage_data coverage_threshold).
Proof.
  split; [|split].
  - intros policy_groups area g HG Hg.
    pose proof (grouped_count _ _ _ _ HG Hg) as Hcount.
    destruct (grouped_files _ _ _ _ HG Hg) as (Hfiles & Hlen & _).
    split; [|split]; [done| by rewrite Hfiles |by apply average_is_Some].
  - unfold CoverageReport.create_coverage_report.
    destruct (coverage_report_group_files_is_Some coverage_data) as [G HG].
    rewrite HG. cbn [mbind option_bind].
    match goal with
    | |- is_Some (?m ≫= _) => assert (is_Some m) as [sections ->]; [|by eexists]
    end.
    apply mapM_is_Some, Forall_forall. intros area [g Hg]%elem_of_sorted_keys.
    cbn [compose]. rewrite Hg. cbn [mbind option_bind].
    apply (policy_lines_is_Some _ _ G); [by left|done].
  - unfold Combined.create_coverage_summary_and_suites.
    destruct (combined_group_files_is_Some coverage_data) as [G HG].
    rewrite HG. cbn [mbind option_bind].
    match goal with
    | |- is_Some (?m ≫= _) => assert (is_Some m) as [testcases ->]; [|by eexists]
    end.
    apply mapM_is_Some, Forall_forall. intros area [g Hg]%elem_of_sorted_keys.
    cbn [compose]. rewrite Hg. cbn [mbind option_bind].
    apply (coverage_testcase_is_Some _ G); [by right|done].
Qed.

Lemma coverage_builders_total_witness :
  let policy_groups :=
    CoverageReport.add_file
      (CoverageReport.add_file ∅ "policy/a/x.rego" Examples.low_file)
      "policy/a/y.rego" Examples.full_file in
  let g := default CovGroup.fresh (policy_groups !! "a") in
  grouped Examples.cov_low_file policy_groups
  ∧ policy_groups !! "a" = Some g
  ∧ 1 ≤ CovGroup.file_count g
  ∧ is_Some (CovGroup.average g).
Proof.
  intros policy_groups g.
  assert (grouped Examples.cov_low_file policy_groups) as HG by (left; by vm_compute).
  assert (policy_groups !! "a" = Some g) as Hg by by vm_compute.
  destruct (coverage_builders_total Examples.cov_low_file (of_int 95)) as (H & _ & _).
  destruct (H policy_groups "a" g HG Hg) as (H1 & _ & H3). done.
Defined.

(** ** The coverage summary of the combined report (C5) *)

Lemma has_incomplete_coverage_spec files ps b :
  Combined.has_incomplete_coverage files ps = Some b →
  b = true ↔ ∃ p file_data,
    p ∈ ps ∧ assoc p files = Some file_data
    ∧ PyFloat.ltb (File.coverage file_data) (of_int 100) = true.
Proof.
  revert b. induction ps as [|p ps IH]; intros b;
    cbn [Combined.has_incomplete_coverage].
  - intros [= <-]. split; [done|]. by intros (? & ? & ?%elem_of_nil & _).
  - destruct (assoc p files) as [fd|] eqn:Hfd; [|done]. cbn [mbind option_bind].
    destruct (PyFloat.ltb (File.coverage fd) (of_int 100)) eqn:Hlt.
    + intros [= <-]. split; [|done]. intros _. exists p, fd. split; [by left|done].
    + intros Hb. rewrite (IH _ Hb). split.
      * intros (q & fq & Hq & Hfq & Hlq). exists q, fq. split; [by right|done].
      * intros (q & fq & [->|Hq]%elem_of_cons & Hfq & Hlq); [congruence|].
        by exists q, fq.
Qed.

Lemma case_name_prefix coverage_data area g avg name :
  Combined.case_name coverage_data area g avg = Some name →
  ∃ rest, name = FStr area :: FStr ": " :: rest.
Proof.
  unfold Combined.case_name. intros H.
  repeat (case_match; simplify_option_eq); by eexists.
Qed.

Lemma filter_tag_all (t : string) (l : list element) :
  Forall (λ e, tag_of e = t) l → filter (λ e, tag_of e = t) l = l.
Proof.
  induction 1 as [|e l He _ IH]; [done|].
  rewrite filter_cons, decide_True by done. by rewrite IH.
Qed.

(** C5: the coverage suite of the combined report has one test case per
    policy area that has a policy file, and the case of an area carries
    a [failure] child exactly when some policy file of that area has a
    coverage strictly below 100; neither the average of the area nor
    the threshold enters. *)
Theorem coverage_case_fails_iff_incomplete
    (coverage_data : Coverage.t) (coverage_threshold : float) (suites : list element) :
  Combined.create_coverage_summary_and_suites coverage_data coverage_threshold
    = Some suites →
  ∃ suite areas testcases,
    suites = [suite]
    ∧ findall suite "testcase" = testcases
    ∧ (∀ area, area ∈ areas ↔ area_files coverage_data area ≠ [])
    ∧ Forall2
        (λ area testcase,
           (∃ rest, get testcase "name" = Some (FStr area :: FStr ": " :: rest))
           ∧ (findall testcase "failure" ≠ [] ↔
              ∃ p file_data,
                p ∈ area_files coverage_data area
                ∧ assoc p (Coverage.files coverage_data) = Some file_data
                ∧ PyFloat.ltb (File.coverage file_data) (of_int 100) = true))
        areas testcases.
Proof.
  unfold Combined.create_coverage_summary_and_suites.
  destruct (Combined.group_files _ _ _) as [G|] eqn:HG; [|done].
  cbn [mbind option_bind].
  destruct (mapM _ _) as [testcases|] eqn:HM; [|done].
  cbn [mbind option_bind]. intros [= <-].
  apply mapM_Some_1 in HM.
  assert (Forall2
            (λ area testcase,
               tag_of testcase = "testcase"
               ∧ (∃ rest, get testcase "name" = Some (FStr area :: FStr ": " :: rest))
               ∧ (findall testcase "failure" ≠ [] ↔
                  ∃ p file_data,
                    p ∈ area_files coverage_data area
                    ∧ assoc p (Coverage.files coverage_data) = Some file_data
                    ∧ PyFloat.ltb (File.coverage file_data) (of_int 100) = true))
            (sorted_keys G) testcases) as Hcases.
  { eapply Forall2_impl; [exact HM|]. clear HM. intros area testcase Htc.
    cbn beta in Htc.
    destruct (G !! area) as [g|] eqn:Hg; [|done]. cbn [mbind option_bind] in Htc.
    destruct (grouped_files coverage_data G area g (or_intror HG) Hg) as (Hfiles & _).
    unfold Combined.coverage_testcase in Htc.
    destruct (CovGroup.average g) as [avg|]; [|done]. cbn [mbind option_bind] in Htc.
    destruct (Combined.has_incomplete_coverage _ _) as [b|] eqn:Hb; [|done].
    cbn [mbind option_bind] in Htc.
    destruct (Combined.case_name _ _ _ _) as [name|] eqn:Hname; [|done].
    cbn [mbind option_bind] in Htc.
    destruct (mapM _ _) as [details|]; [|done].
    cbn [mbind option_bind] in Htc. injection Htc as <-.
    apply has_incomplete_coverage_spec in Hb. rewrite Hfiles in Hb. rewrite <- Hb.
    apply case_name_prefix in Hname as [rest ->].
    split; [done|]. split; [by eexists|]. by destruct b. }
  eexists _, (sorted_keys G), testcases. split; [reflexivity|]. split; [|split].
  - unfold findall. cbn [children_of]. rewrite filter_cons, decide_False by done.
    apply filter_tag_all. eapply Forall2_Forall_r; [exact Hcases|].
    apply Forall_forall. by intros area _ testcase [? _].
  - intros area. rewrite elem_of_sorted_keys.
    rewrite (fold_files_keys _ combined_add_file_counts _ _ _ area HG).
    unfold area_files. split.
    + intros (p & Hp & Harea) E.
      assert (p ∈ filter (λ p, policy_area p = area) (Coverage.policy_files coverage_data))
        as Hin by by apply list_elem_of_filter.
      rewrite E in Hin. by apply elem_of_nil in Hin.
    + intros Hne. destruct (filter _ _) as [|p ps] eqn:E; [done|].
      assert (p ∈ filter (λ p, policy_area p = area) (Coverage.policy_files coverage_data))
        as Hin by (rewrite E; by left).
      apply list_elem_of_filter in Hin as [? ?]. by exists p.
  - eapply Forall2_impl; [exact Hcases|]. by intros area testcase (_ & ? & ?).
Qed.

Lemma coverage_case_fails_iff_incomplete_witness :
  ∃ suites suite testcase rest,
    Combined.create_coverage_summary_and_suites Examples.cov_low_file (of_int 50)
      = Some suites
    ∧ suites = [suite]
    ∧ testcase ∈ findall suite "testcase"
    ∧ get testcase "name" = Some (FStr "a" :: FStr ": " :: rest)
    ∧ findall testcase "failure" ≠ [].
Proof.
  destruct (Combined.create_coverage_summary_and_suites Examples.cov_low_file (of_int 50))
    as [suites|] eqn:E; [|by vm_compute in E].
  destruct (coverage_case_fails_iff_incomplete Examples.cov_low_file (of_int 50) suites E)
    as (suite & areas & testcases & Hs & Hfind & Hareas & Hcases).
  assert ("a" ∈ areas) as [i Hi]%list_elem_of_lookup by by apply Hareas.
  destruct (Forall2_lookup_l _ _ _ _ _ Hcases Hi) as (testcase & Htc & [rest Hname] & Hfail).
  exists suites, suite, testcase, rest. rewrite Hfind.
  split; [done|]. split; [done|]. split; [by eapply list_elem_of_lookup_2|].
  split; [done|]. apply Hfail.
  exists "policy/a/x.rego", Examples.low_file. split; [|done].
  vm_compute. by left.
Defined.

(** ** The average of a policy area (C8) *)






(** ** Lines of the Cobertura report *)

Section line_marks.

Variable hit : bool.

Lemma foldl_mark_stable (l : list Z) (m : gmap Z bool) (n : Z) :
  m !! n = Some hit → foldl (λ m k, <[k := hit]> m) m l !! n = Some hit.
Proof.
  revert m. induction l as [|k l IH]; intros m Hm; simpl; [done|].
  apply IH. destruct (decide (k = n)) as [->|]; [apply lookup_insert_eq|].
  by rewrite lookup_insert_ne.
Qed.

Lemma foldl_mark_hit (l : list Z) (m : gmap Z bool) (n : Z) :
  n ∈ l → foldl (λ m k, <[k := hit]> m) m l !! n = Some hit.
Proof.
  revert m. induction l as [|k l IH]; intros m; [by intros ?%elem_of_nil|].
  intros [->|Hn]%elem_of_cons; simpl; [|by apply IH].
  apply foldl_mark_stable, lookup_insert_eq.
Qed.

Lemma mark_regions_stable regions m m' n :
  Cobertura.mark_regions hit regions m = Some m' →
  m !! n = Some hit → m' !! n = Some hit.
Proof.
  revert m. induction regions as [|r rs IH]; intros m; simpl; [by intros [= ->]|].
  destruct (Region.start_row r) as [a|]; [|done].
  destruct (Region.end_row r) as [b|]; [|done]. simpl.
  intros Hm' Hm. eapply IH; [exact Hm'|]. by apply foldl_mark_stable.
Qed.

Lemma mark_regions_hit regions m m' n :
  Cobertura.mark_regions hit regions m = Some m' →
  (∃ r, r ∈ regions ∧ in_region n r) → m' !! n = Some hit.
Proof.
  revert m. induction regions as [|r rs IH]; intros m; simpl.
  { by intros _ (? & ?%elem_of_nil & _). }
  destruct (Region.start_row r) as [a|] eqn:Ha; [|done].
  destruct (Region.end_row r) as [b|] eqn:Hb; [|done]. simpl.
  intros Hm' (r' & [->|Hr']%elem_of_cons & Hin).
  - destruct Hin as (a' & b' & Ha' & Hb' & Hn).
    assert (a' = a) as -> by congruence. assert (b' = b) as -> by congruence.
    eapply mark_regions_stable; [exact Hm'|].
    apply foldl_mark_hit, elem_of_seqZ. lia.
  - eapply IH; [exact Hm'|]. by exists r'.
Qed.

End line_marks.

Lemma line_coverage_not_covered file_data lc n :
  Cobertura.line_coverage file_data = Some lc →
  (∃ r, r ∈ default [] (File.not_covered file_data) ∧ in_region n r) →
  lc !! n = Some false.
Proof.
  unfold Cobertura.line_coverage.
  destruct (Cobertura.mark_regions true _ _) as [covered|]; [|done]. simpl.
  apply mark_regions_hit.
Qed.

Lemma elem_of_sorted_Z (l : list Z) (x : Z) : x ∈ sorted_Z l ↔ x ∈ l.
Proof. unfold sorted_Z. by rewrite merge_sort_Permutation. Qed.

Lemma elem_of_line_elems (lc : gmap Z bool) (e : element) :
  e ∈ Cobertura.line_elems lc ↔ ∃ n b, lc !! n = Some b ∧ e = Cobertura.line_elem n b.
Proof.
  unfold Cobertura.line_elems. rewrite list_elem_of_omap. split.
  - intros (n & _ & He). destruct (lc !! n) as [b|] eqn:Hb; [|done].
    injection He as <-. by exists n, b.
  - intros (n & b & Hb & ->). exists n. rewrite Hb. split; [|done].
    apply elem_of_sorted_Z, list_elem_of_fmap. exists (n, b).
    split; [done|]. by apply elem_of_map_to_list.
Qed.

(** ** Uncovered regions in the detail text (C9) *)









(** ** Test files and the rollups *)

Section test_files.

Variable coverage_data : Coverage.t.

Lemma policy_only_policy_files :
  Coverage.policy_files (policy_only coverage_data) = Coverage.policy_files coverage_data.
Proof.
  unfold Coverage.policy_files, policy_only. cbn [Coverage.files].
  induction (Coverage.files coverage_data) as [|[p fd] l IH]; [done|].
  rewrite fmap_cons, !filter_cons. cbn [fst].
  case_decide; [by rewrite fmap_cons, filter_cons, decide_True, IH|done].
Qed.

Lemma policy_only_assoc p :
  PyStr.endswith p "_test.rego" = false →
  assoc p (Coverage.files (policy_only coverage_data))
  = assoc p (Coverage.files coverage_data).
Proof.
  intros Hp. unfold policy_only. cbn [Coverage.files].
  induction (Coverage.files coverage_data) as [|[q fd] l IH]; [done|].
  rewrite filter_cons. cbn [fst assoc]. case_decide as Hq.
  - cbn [assoc]. by rewrite IH.
  - rewrite IH. case_bool_decide; [congruence|done].
Qed.

Lemma fold_files_ext add_file files files' l G :
  (∀ p, p ∈ l → assoc p files' = assoc p files) →
  CovGroup.fold_files add_file files' l G = CovGroup.fold_files add_file files l G.
Proof.
  revert G. induction l as [|p l IH]; intros G Hl; [done|].
  cbn [CovGroup.fold_files]. rewrite Hl by by left.
  destruct (assoc p files); [|done]. cbn [mbind option_bind].
  apply IH. intros q Hq. apply Hl. by right.
Qed.

Lemma policy_only_fold_files add_file :
  CovGroup.fold_files add_file (Coverage.files (policy_only coverage_data))
    (Coverage.policy_files (policy_only coverage_data)) ∅
  = CovGroup.fold_files add_file (Coverage.files coverage_data)
      (Coverage.policy_files coverage_data) ∅.
Proof.
  rewrite policy_only_policy_files. apply fold_files_ext.
  intros p [Hp _]%list_elem_of_filter. by apply policy_only_assoc.
Qed.

Lemma policy_only_policy_totals :
  Cobertura.policy_totals (Coverage.files (policy_only coverage_data))
  = Cobertura.policy_totals (Coverage.files coverage_data).
Proof.
  unfold Cobertura.policy_totals, policy_only. cbn [Coverage.files].
  generalize (0, 0). induction (Coverage.files coverage_data) as [|[p fd] l IH];
    intros [c u]; [done|].
  rewrite filter_cons. cbn [fst foldl]. case_decide as Hp.
  - cbn [foldl]. rewrite Hp. apply IH.
  - apply not_false_is_true in Hp. rewrite Hp. apply IH.
Qed.

Lemma policy_only_group_packages :
  Cobertura.group_packages (Coverage.files (policy_only coverage_data))
  = Cobertura.group_packages (Coverage.files coverage_data).
Proof.
  unfold Cobertura.group_packages, policy_only. cbn [Coverage.files].
  generalize (∅ : gmap string Cobertura.package).
  induction (Coverage.files coverage_data) as [|[p fd] l IH]; intros m; [done|].
  rewrite filter_cons. cbn [fst foldl]. case_decide as Hp.
  - cbn [foldl]. apply IH.
  - apply not_false_is_true in Hp. rewrite <- IH. f_equal.
    unfold Cobertura.add_file. by rewrite Hp.
Qed.

End test_files.

Section test_files_reports.

Variables (coverage_data : Coverage.t) (coverage_threshold : float).
Variables (policy_groups : gmap string CovGroup.t) (area : string) (g : CovGroup.t).
Hypothesis HG : grouped coverage_data policy_groups.
Hypothesis Hg : policy_groups !! area = Some g.

Lemma grouped_file_assoc_policy_only p :
  p ∈ CovGroup.files g →
  assoc p (Coverage.files (policy_only coverage_data))
  = assoc p (Coverage.files coverage_data).
Proof.
  destruct (grouped_files _ _ _ _ HG Hg) as (-> & _).
  unfold area_files, Coverage.policy_files.
  intros [_ [Hp _]%list_elem_of_filter]%list_elem_of_filter.
  by apply policy_only_assoc.
Qed.

Lemma policy_only_policy_lines :
  CoverageReport.policy_lines (policy_only coverage_data) coverage_threshold area g
  = CoverageReport.policy_lines coverage_data coverage_threshold area g.
Proof.
  unfold CoverageReport.policy_lines.
  destruct (CovGroup.average g); [|done]. cbn [mbind option_bind].
  f_equal. apply Forall_mapM_ext, Forall_forall. intros p Hp.
  apply (proj1 (elem_of_sorted _ _)) in Hp.
  unfold CoverageReport.file_lines. by rewrite grouped_file_assoc_policy_only.
Qed.

Lemma policy_only_has_incomplete_coverage ps :
  (∀ p, p ∈ ps → assoc p (Coverage.files (policy_only coverage_data))
                 = assoc p (Coverage.files coverage_data)) →
  Combined.has_incomplete_coverage (Coverage.files (policy_only coverage_data)) ps
  = Combined.has_incomplete_coverage (Coverage.files coverage_data) ps.
Proof.
  induction ps as [|p ps IH]; intros Hps; [done|].
  cbn [Combined.has_incomplete_coverage]. rewrite Hps by by left.
  destruct (assoc p _); [|done]. cbn [mbind option_bind].
  destruct (PyFloat.ltb _ _); [done|]. apply IH. intros q Hq. apply Hps. by right.
Qed.

Lemma policy_only_coverage_testcase :
  Combined.coverage_testcase (policy_only coverage_data) area g
  = Combined.coverage_testcase coverage_data area g.
Proof.
  unfold Combined.coverage_testcase.
  destruct (CovGroup.average g) as [avg|]; [|done]. cbn [mbind option_bind].
  rewrite policy_only_has_incomplete_coverage
    by (intros p Hp; by apply grouped_file_assoc_policy_only).
  destruct (Combined.has_incomplete_coverage _ _) as [b|]; [|done].
  cbn [mbind option_bind].
  assert (Combined.case_name (policy_only coverage_data) area g
            (Combined._round_percentage avg)
          = Combined.case_name coverage_data area g (Combined._round_percentage avg))
    as ->.
  { unfold Combined.case_name. case_bool_decide; [done|].
    pose proof grouped_file_assoc_policy_only as Hassoc.
    destruct (CovGroup.files g) as [|p ps]; [done|]. by rewrite Hassoc by by left. }
  destruct (Combined.case_name _ _ _ _); [|done]. cbn [mbind option_bind].
  f_equal. apply Forall_mapM_ext, Forall_forall. intros p Hp.
  apply (proj1 (elem_of_sorted _ _)) in Hp.
  unfold Combined.file_details. by rewrite grouped_file_assoc_policy_only.
Qed.

End test_files_reports.

Lemma policy_only_create_coverage_report coverage_data coverage_threshold :
  CoverageReport.create_coverage_report (policy_only coverage_data) coverage_threshold
  = CoverageReport.create_coverage_report coverage_data coverage_threshold.
Proof.
  unfold CoverageReport.create_coverage_report, CoverageReport.group_files.
  rewrite policy_only_fold_files.
  destruct (CovGroup.fold_files _ _ _ _) as [G|] eqn:HG; [|done].
  cbn [mbind option_bind].
  match goal with
  | |- ?m ≫= _ = ?m' ≫= _ => assert (m = m') as ->; [|done]
  end.
  apply Forall_mapM_ext, Forall_forall. intros area [g Hg]%elem_of_sorted_keys.
  rewrite Hg. cbn [mbind option_bind].
  apply (policy_only_policy_lines _ _ G); [by left|done].
Qed.

Lemma policy_only_create_coverage_summary coverage_data coverage_threshold :
  Combined.create_coverage_summary_and_suites (policy_only coverage_data) coverage_threshold
  = Combined.create_coverage_summary_and_suites coverage_data coverage_threshold.
Proof.
  unfold Combined.create_coverage_summary_and_suites, Combined.group_files.
  rewrite policy_only_fold_files.
  destruct (CovGroup.fold_files _ _ _ _) as [G|] eqn:HG; [|done].
  cbn [mbind option_bind].
  match goal with
  | |- ?m ≫= _ = ?m' ≫= _ => assert (m = m') as ->; [|done]
  end.
  apply Forall_mapM_ext, Forall_forall. intros area [g Hg]%elem_of_sorted_keys.
  rewrite Hg. cbn [mbind option_bind].
  apply (policy_only_coverage_testcase _ G); [by right|done].
Qed.

(** * Further properties of the scripts *)

(** ** What a group of tests holds *)

Lemma sum_of_app {A} (f : A → Z) (l k : list A) :
  sum_of f (l ++ k) = sum_of f l + sum_of f k.
Proof.
  induction l as [|x l IH]; [by rewrite sum_of_nil|].
  rewrite <- app_comm_cons, !sum_of_cons, IH. lia.
Qed.

Lemma count_if_app {A} (p : A → bool) (l k : list A) :
  count_if p (l ++ k) = count_if p l + count_if p k.
Proof. rewrite !count_if_sum. apply sum_of_app. Qed.

Lemma count_if_nonneg {A} (p : A → bool) (l : list A) : 0 ≤ count_if p l.
Proof.
  rewrite count_if_sum. induction l as [|x l IH]; [by rewrite sum_of_nil|].
  rewrite sum_of_cons. destruct (p x); lia.
Qed.

Lemma sum_of_singleton {A} (f : A → Z) (x : A) : sum_of f [x] = f x.
Proof. rewrite sum_of_cons, sum_of_nil. lia. Qed.

Lemma count_if_singleton {A} (p : A → bool) (x : A) :
  count_if p [x] = if p x then 1 else 0.
Proof. rewrite count_if_sum. apply sum_of_singleton. Qed.

Lemma group_tests_holds (test_data : list Test.t) (name : string) :
  holds_tests test_data name (TestGroup.group_tests test_data !! name).
Proof.
  unfold TestGroup.group_tests.
  induction test_data as [|t l IH] using rev_ind;
    [cbn [foldl]; by rewrite lookup_empty|].
  rewrite foldl_snoc. unfold TestGroup.add at 1. unfold holds_tests, policy_tests in *.
  destruct (decide (policy_name (Test.package t) = name)) as [<-|Hne].
  - rewrite lookup_insert_eq.
    cbn [TestGroup.tests TestGroup.package TestGroup.duration TestGroup.failures
         TestGroup.errors TestGroup.skipped].
    rewrite filter_app, filter_cons, decide_True, filter_nil by done.
    rewrite sum_of_app, !count_if_app, sum_of_singleton, !count_if_singleton.
    assert (∀ k : list Test.t, k ++ [t] ≠ []) as Hne by (by intros []).
    destruct (foldl TestGroup.add ∅ l !! policy_name (Test.package t)) as [g|];
      cbn [from_option id].
    + destruct IH as (-> & _ & _ & -> & -> & -> & ->).
      repeat split; try done; repeat case_match; lia.
    + rewrite IH. cbn [TestGroup.fresh TestGroup.tests TestGroup.duration
        TestGroup.failures TestGroup.errors TestGroup.skipped app].
      rewrite sum_of_nil. unfold count_if. cbn [foldl].
      repeat split; try done; repeat case_match; lia.
  - rewrite lookup_insert_ne by done.
    rewrite filter_app, filter_cons, decide_False, filter_nil, app_nil_r by done.
    exact IH.
Qed.

(** X1: after grouping, the group of a policy holds exactly the records
    of that policy, in input order, with their duration, failure, error
    and skip counts; a policy has a group exactly when it has a record,
    so every record is in one group and in one only. *)
Theorem test_group_contents (test_data : list Test.t) (name : string) :
  (∀ g, TestGroup.group_tests test_data !! name = Some g →
     TestGroup.tests g = policy_tests test_data name
     ∧ TestGroup.package g = Some name
     ∧ TestGroup.duration g = sum_of Test.duration (policy_tests test_data name)
     ∧ TestGroup.failures g = count_if Test.failed (policy_tests test_data name)
     ∧ TestGroup.errors g = count_if Test.errored (policy_tests test_data name)
     ∧ TestGroup.skipped g = count_if Test.skipped (policy_tests test_data name))
  ∧ (is_Some (TestGroup.group_tests test_data !! name)
     ↔ ∃ t, t ∈ test_data ∧ policy_name (Test.package t) = name).
Proof.
  pose proof (group_tests_holds test_data name) as H. split.
  - intros g Hg. rewrite Hg in H. by destruct H as (? & _ & ? & ? & ? & ? & ?).
  - destruct (TestGroup.group_tests test_data !! name) as [g|];
      cbn [holds_tests] in H; unfold policy_tests in H.
    + destruct H as (_ & Hne & _). split; [intros _|by eexists].
      destruct (filter _ test_data) as [|t l] eqn:E; [done|].
      assert (t ∈ filter (λ t, policy_name (Test.package t) = name) test_data)
        as [? ?]%list_elem_of_filter by (rewrite E; by left).
      by exists t.
    + split; [by intros []%is_Some_None|]. intros (t & Ht & Hname).
      assert (t ∈ filter (λ t, policy_name (Test.package t) = name) test_data)
        as Hin by by apply list_elem_of_filter.
      rewrite H in Hin. by apply elem_of_nil in Hin.
Qed.

Lemma test_group_contents_witness :
  let test_data := [Examples.passing_test; Examples.failing_test] in
  ∃ g, TestGroup.group_tests test_data !! "policy.foo" = Some g
       ∧ TestGroup.tests g = test_data ∧ TestGroup.failures g = 1.
Proof.
  intros test_data.
  destruct (TestGroup.group_tests test_data !! "policy.foo") as [g|] eqn:Hg;
    [|by vm_compute in Hg].
  destruct (test_group_contents test_data "policy.foo") as [H _].
  destruct (H g Hg) as (Htests & _ & _ & Hfail & _).
  exists g. split; [done|]. by rewrite Htests, Hfail.
Defined.

(** ** The test report *)

Lemma mapM_length_eq {A B} (f : A → option B) (l : list A) (k : list B) :
  mapM f l = Some k → length k = length l.
Proof. intros H. symmetry. by eapply length_mapM. Qed.

Lemma sorted_keys_sorted {V} (m : gmap string V) :
  Sorted String.le (sorted_keys m) ∧ NoDup (sorted_keys m).
Proof.
  unfold sorted_keys, sorted. split; [apply Sorted_merge_sort; apply _|].
  rewrite merge_sort_Permutation. apply NoDup_fst_map_to_list.
Qed.

(** X2: the root of the test report carries the counts of the flat
    list: the number of records and the numbers of records with a fail
    flag, with an error and with a skip. *)
Theorem test_report_root_counts (test_data : list Test.t) (testsuites : element) :
  TestReport.create_test_report test_data = Some testsuites →
  tag_of testsuites = "testsuites"
  ∧ get testsuites "tests" = Some [FInt (Z.of_nat (length test_data))]
  ∧ get testsuites "failures" = Some [FInt (count_if Test.failed test_data)]
  ∧ get testsuites "errors" = Some [FInt (count_if Test.errored test_data)]
  ∧ get testsuites "skipped" = Some [FInt (count_if Test.skipped test_data)].
Proof.
  unfold TestReport.create_test_report.
  destruct (group_counts_totals test_data) as (_ & -> & -> & ->).
  destruct (_nanos_to_seconds _); [|done]. cbn [mbind option_bind].
  destruct (mapM _ _); [|done]. cbn [mbind option_bind]. by intros [= <-].
Qed.

Lemma testcase_shape (test : Test.t) (tc : element) :
  TestReport.testcase test = Some tc →
  tag_of tc = "testcase" ∧ get tc "name" = Some [FStr (Test.name test)].
Proof.
  unfold TestReport.testcase. destruct (_nanos_to_seconds _); [|done].
  cbn [mbind option_bind]. by intros [= <-].
Qed.



Lemma testsuite_shape (test_data : list Test.t) (name : string)
    (g : TestGroup.t) (suite : element) :
  TestGroup.group_tests test_data !! name = Some g →
  TestReport.testsuite name g = Some suite →
  get suite "name" = Some [FStr name]
  ∧ get suite "package" = Some [FStr name]
  ∧ get suite "tests" = Some [FInt (Z.of_nat (length (policy_tests test_data name)))]
  ∧ get suite "failures"
    = Some [FInt (count_if Test.failed (policy_tests test_data name))]
  ∧ Forall2 (λ t tc, get tc "name" = Some [FStr (Test.name t)])
      (policy_tests test_data name) (findall suite "testcase").
Proof.
  intros Hg. pose proof (group_tests_holds test_data name) as Hc.
  rewrite Hg in Hc. destruct Hc as (Htests & _ & _ & _ & Hfail & _).
  unfold TestReport.testsuite. destruct (_nanos_to_seconds _); [|done].
  cbn [mbind option_bind]. destruct (mapM _ _) as [tcs|] eqn:HM; [|done].
  cbn [mbind option_bind]. intros [= <-]. rewrite Htests in *. rewrite Hfail.
  repeat split; try done.
  apply mapM_Some_1 in HM. unfold findall. cbn [children_of].
  rewrite filter_cons, decide_False by done.
  rewrite filter_tag_all.
  - eapply Forall2_impl; [exact HM|]. intros t tc Htc.
    by destruct (testcase_shape t tc Htc) as (_ & ?).
  - eapply Forall2_Forall_r; [exact HM|]. apply Forall_forall.
    intros t _ tc Htc. by destruct (testcase_shape t tc Htc) as (? & _).
Qed.

(** X4: the test report has one suite per policy that has a record, in
    the increasing order of the policy names and without a repeat;
    the suite of a policy carries its name, the number of its records
    and of its failed records, and one test case per record, in input
    order. *)
Theorem test_report_suites (test_data : list Test.t) (testsuites : element) :
  TestReport.create_test_report test_data = Some testsuites →
  ∃ names,
    Sorted String.le names ∧ NoDup names
    ∧ (∀ name, name ∈ names ↔ policy_tests test_data name ≠ [])
    ∧ Forall2
        (λ name suite,
           get suite "name" = Some [FStr name]
           ∧ get suite "package" = Some [FStr name]
           ∧ get suite "tests"
             = Some [FInt (Z.of_nat (length (policy_tests test_data name)))]
           ∧ get suite "failures"
             = Some [FInt (count_if Test.failed (policy_tests test_data name))]
           ∧ Forall2 (λ t tc, get tc "name" = Some [FStr (Test.name t)])
               (policy_tests test_data name) (findall suite "testcase"))
        names (children_of testsuites).
Proof.
  unfold TestReport.create_test_report.
  destruct (_nanos_to_seconds _); [|done]. cbn [mbind option_bind].
  destruct (mapM _ _) as [suites|] eqn:HM; [|done].
  cbn [mbind option_bind]. intros [= <-].
  exists (sorted_keys (TestGroup.group_tests test_data)).
  destruct (sorted_keys_sorted (TestGroup.group_tests test_data)) as [Hs Hn].
  split; [done|]. split; [done|]. split.
  - intros name. rewrite elem_of_sorted_keys.
    pose proof (group_tests_holds test_data name) as H.
    destruct (TestGroup.group_tests test_data !! name) as [g|]; cbn [holds_tests] in H.
    + destruct H as (_ & Hne & _). split; [done|by eexists].
    + split; [by intros []%is_Some_None|done].
  - cbn [children_of]. apply mapM_Some_1 in HM.
    eapply Forall2_impl; [exact HM|]. intros name suite Hsuite. cbn beta in Hsuite.
    destruct (TestGroup.group_tests test_data !! name) as [g|] eqn:Hg; [|done].
    cbn [mbind option_bind] in Hsuite. by eapply testsuite_shape.
Qed.

Lemma test_report_suites_witness :
  ∃ testsuites suite,
    TestReport.create_test_report [Examples.passing_test; Examples.failing_test]
      = Some testsuites
    ∧ children_of testsuites = [suite]
    ∧ get suite "name" = Some [FStr "policy.foo"]
    ∧ get suite "tests" = Some [FInt 2].
Proof.
  destruct (TestReport.create_test_report [Examples.passing_test; Examples.failing_test])
    as [testsuites|] eqn:E; [|by vm_compute in E].
  destruct (test_report_suites _ testsuites E) as (names & _ & _ & Hnames & Hsuites).
  assert ("policy.foo" ∈ names) as Hin by (apply Hnames; by vm_compute).
  vm_compute in E. injection E as <-. cbn [children_of] in Hsuites.
  destruct names as [|name [|? ?]];
    [by apply elem_of_nil in Hin| |by apply Forall2_length in Hsuites].
  apply list_elem_of_singleton in Hin as <-.
  apply Forall2_cons_1 in Hsuites as [(Hname & _ & Htests & _) _].
  eexists _, _. split; [reflexivity|]. split; [reflexivity|]. split; [exact Hname|].
  exact Htests.
Defined.

Lemma test_report_root_counts_witness :
  ∃ testsuites,
    TestReport.create_test_report [Examples.passing_test; Examples.failing_test]
      = Some testsuites
    ∧ get testsuites "tests" = Some [FInt 2]
    ∧ get testsuites "failures" = Some [FInt 1].
Proof.
  destruct (TestReport.create_test_report [Examples.passing_test; Examples.failing_test])
    as [testsuites|] eqn:E; [|by vm_compute in E].
  destruct (test_report_root_counts _ testsuites E) as (_ & Htests & Hfail & _).
  exists testsuites. split; [reflexivity|]. split; [exact Htests|exact Hfail].
Defined.

(** ** The test suite of the combined report *)

Lemma sum_of_fmap {A B} (f : B → Z) (h : A → B) (l : list A) :
  sum_of f (h <$> l) = sum_of (f ∘ h) l.
Proof.
  induction l as [|x l IH]; [done|]. by rewrite fmap_cons, !sum_of_cons, IH.
Qed.

Lemma sum_of_ext_in {A} (f g : A → Z) (l : list A) :
  (∀ x, x ∈ l → f x = g x) → sum_of f l = sum_of g l.
Proof.
  induction l as [|x l IH]; intros H; [done|]. rewrite !sum_of_cons.
  rewrite (H x) by by left. rewrite IH; [done|]. intros y Hy. apply H. by right.
Qed.

Lemma count_if_cons {A} (p : A → bool) (x : A) (l : list A) :
  count_if p (x :: l) = (if p x then 1 else 0) + count_if p l.
Proof. by rewrite !count_if_sum, sum_of_cons. Qed.

Lemma count_if_pos {A} (p : A → bool) (l : list A) :
  bool_decide (0 < count_if p l) = existsb p l.
Proof.
  induction l as [|x l IH]; [done|]. rewrite count_if_cons. cbn [existsb].
  rewrite <- IH. pose proof (count_if_nonneg p l).
  destruct (p x); cbn [orb]; [apply bool_decide_eq_true_2; lia|].
  by rewrite Z.add_0_l.
Qed.

Lemma existsb_problem (l : list Test.t) :
  existsb problem l = existsb Test.failed l || existsb Test.errored l.
Proof.
  induction l as [|t l IH]; [done|]. cbn [existsb]. rewrite IH. unfold problem.
  destruct (Test.failed t), (Test.errored t), (existsb Test.failed l); done.
Qed.

Lemma passed_count (l : list Test.t) :
  Z.of_nat (length l) - count_if Test.failed l - count_if Test.errored l
  = count_if (λ t, negb (problem t)) l
    - count_if (λ t, Test.failed t && Test.errored t) l.
Proof.
  induction l as [|t l IH]; [done|]. rewrite !count_if_cons. cbn [length].
  unfold problem at 1. destruct (Test.failed t), (Test.errored t); cbn; lia.
Qed.

Lemma count_if_perm {A} (p : A → bool) (l k : list A) :
  l ≡ₚ k → count_if p l = count_if p k.
Proof. intros H. rewrite !count_if_sum. by apply sum_of_perm. Qed.

Lemma has_problem_tests (test_data : list Test.t) (name : string) (g : TestGroup.t) :
  TestGroup.group_tests test_data !! name = Some g →
  Combined.has_problem g = existsb problem (policy_tests test_data name).
Proof.
  intros Hg. pose proof (group_tests_holds test_data name) as H. rewrite Hg in H.
  destruct H as (_ & _ & _ & _ & Hf & He & _).
  unfold Combined.has_problem. by rewrite Hf, He, !count_if_pos, existsb_problem.
Qed.

Lemma count_problem_groups (test_data : list Test.t) :
  count_if Combined.has_problem (values (TestGroup.group_tests test_data))
  = count_if (λ name, existsb problem (policy_tests test_data name))
      (sorted_keys (TestGroup.group_tests test_data)).
Proof.
  unfold sorted_keys, sorted.
  rewrite (count_if_perm _ _ _ (merge_sort_Permutation _ _)).
  unfold values. rewrite !count_if_sum, !sum_of_fmap.
  apply sum_of_ext_in. intros [name g] Hg%elem_of_map_to_list. cbn [compose fst snd].
  by rewrite (has_problem_tests test_data name g Hg).
Qed.

Lemma size_sorted_keys {V} (m : gmap string V) :
  size m = length (sorted_keys m).
Proof.
  unfold sorted_keys, sorted. rewrite (Permutation_length (merge_sort_Permutation _ _)).
  by rewrite length_fmap, length_map_to_list.
Qed.

Lemma policy_names_spec (test_data : list Test.t) (name : string) :
  name ∈ sorted_keys (TestGroup.group_tests test_data)
  ↔ policy_tests test_data name ≠ [].
Proof.
  rewrite elem_of_sorted_keys.
  pose proof (group_tests_holds test_data name) as H.
  destruct (TestGroup.group_tests test_data !! name) as [g|]; cbn [holds_tests] in H.
  - destruct H as (_ & Hne & _). split; [done|by eexists].
  - split; [by intros []%is_Some_None|done].
Qed.

Lemma filter_tag_none (t : string) (l : list element) :
  Forall (λ e, tag_of e ≠ t) l → filter (λ e, tag_of e = t) l = [].
Proof.
  induction 1 as [|e l He _ IH]; [done|].
  by rewrite filter_cons, decide_False.
Qed.

Lemma policy_testcase_shape (test_data : list Test.t) (name : string)
    (g : TestGroup.t) (case : element) :
  TestGroup.group_tests test_data !! name = Some g →
  Combined.policy_testcase name g = Some case →
  tag_of case = "testcase"
  ∧ get case "classname" = Some [FStr "tests"]
  ∧ get case "name"
    = Some [FStr name; FStr ": ";
            FInt (Z.of_nat (length (policy_tests test_data name))); FStr " tests, ";
            FInt (count_if Test.failed (policy_tests test_data name)); FStr " failures, ";
            FInt (count_if Test.errored (policy_tests test_data name)); FStr " errors, ";
            FInt (count_if Test.skipped (policy_tests test_data name)); FStr " skipped"]
  ∧ (findall case "failure" ≠ []
     ↔ ∃ t, t ∈ policy_tests test_data name ∧ problem t = true)
  ∧ length (findall case "system-out") = 1%nat.
Proof.
  intros Hg. pose proof (has_problem_tests test_data name g Hg) as Hp.
  pose proof (group_tests_holds test_data name) as H. rewrite Hg in H.
  destruct H as (Ht & _ & _ & _ & Hf & He & Hs).
  unfold Combined.policy_testcase. destruct (_nanos_to_seconds _); [|done].
  cbn [mbind option_bind]. destruct (mapM _ _); [|done].
  cbn [mbind option_bind]. intros [= <-]. rewrite Hp, Ht, Hf, He, Hs.
  split; [done|]. split; [done|]. split; [done|].
  assert (existsb problem (policy_tests test_data name) = true
          ↔ ∃ t, t ∈ policy_tests test_data name ∧ problem t = true) as Hex.
  { rewrite existsb_exists. by setoid_rewrite list_elem_of_In. }
  rewrite <- Hex. unfold findall. cbn [children_of].
  by destruct (existsb problem _).
Qed.

(** X5: the test suite of the combined report counts policies, not
    tests: its [tests] attribute is the number of policies that have a
    record and its [failures] attribute the number of those with a
    record that failed or has an error.  The property [passed_tests]
    is the number of records that neither failed nor have an error,
    less the number of records that did both: a skipped record counts
    as passed and a record that failed with an error is taken off
    twice. *)
Theorem combined_test_summary (test_data : list Test.t) (suites : list element) :
  Combined.create_test_summary_and_suites test_data = Some suites →
  ∃ suite props names,
    suites = [suite]
    ∧ Sorted String.le names ∧ NoDup names
    ∧ (∀ name, name ∈ names ↔ policy_tests test_data name ≠ [])
    ∧ get suite "tests" = Some [FInt (Z.of_nat (length names))]
    ∧ get suite "failures"
      = Some [FInt (count_if (λ name, existsb problem (policy_tests test_data name))
                      names)]
    ∧ findall suite "properties" = [props]
    ∧ children_of props
      = [property "total_policies" [FInt (Z.of_nat (length names))];
         property "total_tests" [FInt (Z.of_nat (length test_data))];
         property "passed_tests"
           [FInt (count_if (λ t, negb (problem t)) test_data
                  - count_if (λ t, Test.failed t && Test.errored t) test_data)]].
Proof.
  unfold Combined.create_test_summary_and_suites.
  destruct (group_counts_totals test_data) as (_ & -> & -> & _).
  destruct (_nanos_to_seconds _); [|done]. cbn [mbind option_bind].
  destruct (mapM _ _) as [testcases|] eqn:HM; [|done].
  cbn [mbind option_bind]. intros [= <-].
  destruct (sorted_keys_sorted (TestGroup.group_tests test_data)) as [Hs Hn].
  eexists _, _, (sorted_keys (TestGroup.group_tests test_data)).
  split; [reflexivity|]. split; [done|]. split; [done|].
  split; [apply policy_names_spec|].
  rewrite size_sorted_keys, count_problem_groups, passed_count.
  split; [done|]. split; [done|].
  assert (filter (λ e, tag_of e = "properties") testcases = []) as Hnone.
  { apply filter_tag_none. apply mapM_Some_1 in HM.
    eapply Forall2_Forall_r; [exact HM|]. apply Forall_forall.
    intros name _ case Hcase. cbn beta in Hcase.
    destruct (TestGroup.group_tests test_data !! name) as [g|] eqn:Hg; [|done].
    cbn [mbind option_bind] in Hcase.
    by destruct (policy_testcase_shape _ _ _ _ Hg Hcase) as (-> & _). }
  unfold findall. cbn [children_of]. rewrite filter_cons, decide_True, Hnone by done.
  split; reflexivity.
Qed.

Lemma combined_test_summary_witness :
  ∃ suites suite props,
    Combined.create_test_summary_and_suites
      [Examples.passing_test; Examples.failing_test] = Some suites
    ∧ suites = [suite]
    ∧ findall suite "properties" = [props]
    ∧ length (children_of props) = 3%nat.
Proof.
  destruct (Combined.create_test_summary_and_suites
              [Examples.passing_test; Examples.failing_test]) as [suites|] eqn:E;
    [|by vm_compute in E].
  destruct (combined_test_summary _ suites E)
    as (suite & props & names & -> & _ & _ & _ & _ & _ & Hprops & Hchildren).
  exists [suite], suite, props. split; [reflexivity|]. split; [reflexivity|].
  split; [exact Hprops|]. by rewrite Hchildren.
Defined.



(** ** The root of the combined report *)

Lemma test_summary_single (test_data : list Test.t) (suites : list element) :
  Combined.create_test_summary_and_suites test_data = Some suites →
  ∃ suite, suites = [suite] ∧ tag_of suite = "testsuite"
           ∧ get suite "package" = Some [FStr "tests"].
Proof.
  unfold Combined.create_test_summary_and_suites.
  destruct (_nanos_to_seconds _); [|done]. cbn [mbind option_bind].
  destruct (mapM _ _); [|done]. cbn [mbind option_bind]. intros [= <-]. by eexists.
Qed.

Lemma coverage_summary_single (coverage_data : Coverage.t) (coverage_threshold : float)
    (suites : list element) :
  Combined.create_coverage_summary_and_suites coverage_data coverage_threshold
    = Some suites →
  ∃ suite, suites = [suite] ∧ tag_of suite = "testsuite"
           ∧ get suite "package" = Some [FStr "coverage"].
Proof.
  unfold Combined.create_coverage_summary_and_suites.
  destruct (Combined.group_files _ _ _); [|done]. cbn [mbind option_bind].
  destruct (mapM _ _); [|done]. cbn [mbind option_bind]. intros [= <-]. by eexists.
Qed.

(** X7: the root of the combined report holds the test suite and then
    the coverage suite; its [tests], [errors] and [skipped] attributes
    count the records of the flat list, and its [failures] attribute
    is the number of failed records plus one when the reported overall
    coverage is below the threshold.  The value returned, which is the
    exit status, is 1 exactly when that attribute is positive and 0
    exactly when it is zero: errors and skips alone do not make the run
    fail. *)
Theorem combined_root_counts (test_data : list Test.t) (coverage_data : Coverage.t)
    (coverage_threshold : float) (root : element) (code : Z) :
  Combined.create_combined_report test_data coverage_data coverage_threshold
    = Some (root, code) →
  ∃ failures test_suite coverage_suite,
    failures
    = count_if Test.failed test_data
      + (if PyFloat.ltb (round (Coverage.coverage coverage_data) 2) coverage_threshold
         then 1 else 0)
    ∧ get root "tests" = Some [FInt (Z.of_nat (length test_data))]
    ∧ get root "failures" = Some [FInt failures]
    ∧ get root "errors" = Some [FInt (count_if Test.errored test_data)]
    ∧ get root "skipped" = Some [FInt (count_if Test.skipped test_data)]
    ∧ children_of root = [test_suite; coverage_suite]
    ∧ get test_suite "package" = Some [FStr "tests"]
    ∧ get coverage_suite "package" = Some [FStr "coverage"]
    ∧ (code = 1 ↔ 0 < failures)
    ∧ (code = 0 ↔ failures = 0).
Proof.
  unfold Combined.create_combined_report.
  destruct (Combined.create_test_summary_and_suites _) as [ts|] eqn:Hts; [|done].
  cbn [mbind option_bind].
  destruct (Combined.create_coverage_summary_and_suites _ _) as [cs|] eqn:Hcs; [|done].
  cbn [mbind option_bind]. unfold Combined._round_percentage.
  apply test_summary_single in Hts as (test_suite & -> & _ & Htp).
  apply coverage_summary_single in Hcs as (coverage_suite & -> & _ & Hcp).
  pose proof (count_if_nonneg Test.failed test_data) as Hnn.
  destruct (PyFloat.ltb _ _); intros [= <- <-];
    eexists _, test_suite, coverage_suite; (split; [reflexivity|]);
    rewrite ?Z.add_0_r; do 7 (split; [done|]).
  - rewrite orb_true_r. split; split; intros; try done; lia.
  - rewrite orb_false_r. case_bool_decide; split; split; intros; try done; lia.
Qed.

Lemma combined_root_counts_witness :
  ∃ root code,
    Combined.create_combined_report [Examples.passing_test; Examples.failing_test]
      Examples.cov_low_file (of_int 95) = Some (root, code)
    ∧ get root "failures" = Some [FInt 1]
    ∧ code = 1.
Proof.
  destruct (Combined.create_combined_report [Examples.passing_test; Examples.failing_test]
              Examples.cov_low_file (of_int 95)) as [[root code]|] eqn:E;
    [|by vm_compute in E].
  destruct (combined_root_counts _ _ _ root code E)
    as (failures & ts & cs & Hf & _ & Hfail & _ & _ & _ & _ & _ & Hcode & _).
  assert (failures = 1) as Hone by (rewrite Hf; by vm_compute).
  rewrite Hone in Hfail, Hcode.
  exists root, code. split; [reflexivity|]. split; [exact Hfail|]. by apply Hcode.
Defined.

(** ** Splitting and joining; the names read off a path *)

Lemma split_free (sep : ascii) (s : string) :
  contains sep s = false → PyStr.split sep s = [s].
Proof.
  induction s as [|c s IH]; [done|]. cbn [contains PyStr.split].
  intros [Hc Hs]%orb_false_iff. by rewrite Hc, (IH Hs).
Qed.

Lemma split_app (sep : ascii) (x rest : string) :
  contains sep x = false →
  PyStr.split sep (x +:+ String sep rest) = x :: PyStr.split sep rest.
Proof.
  induction x as [|c x IH]; intros H.
  - rewrite app_empty. cbn [PyStr.split]. by rewrite Ascii.eqb_refl.
  - cbn [contains] in H. apply orb_false_iff in H as [Hc Hx].
    rewrite app_cons. cbn [PyStr.split]. by rewrite Hc, (IH Hx).
Qed.

Lemma split_join (sep : ascii) (parts : list string) :
  parts ≠ [] → Forall (λ p, contains sep p = false) parts →
  PyStr.split sep (PyStr.join (String sep EmptyString) parts) = parts.
Proof.
  unfold PyStr.join. induction parts as [|x [|y l] IH]; intros Hne Hall; [done| |].
  - cbn [String.concat]. apply split_free. by inversion Hall.
  - rewrite join_cons2. inversion Hall as [|? ? Hx Hrest]; subst.
    change (String sep EmptyString +:+ ?r) with (String sep r).
    rewrite split_app by done. f_equal. by apply IH.
Qed.

Lemma split_parts_free (sep : ascii) (s : string) :
  Forall (λ p, contains sep p = false) (PyStr.split sep s).
Proof.
  induction s as [|c s IH]; [by repeat constructor|]. cbn [PyStr.split].
  pose proof (split_not_nil sep s) as Hne.
  destruct (PyStr.split sep s) as [|h t]; [done|]. inversion IH; subst.
  destruct (Ascii.eqb c sep) eqn:Hc; cbn [hd tl].
  - by repeat constructor.
  - constructor; [|done]. cbn [contains]. rewrite Hc. done.
Qed.

(** X8: splitting at a character and joining with it are inverse to
    each other: joining the parts of a string gives the string back,
    the parts of a string are never none and hold no separator, and
    splitting the join of parts that hold no separator gives the parts
    back. *)
Theorem split_join_round_trip (sep : ascii) :
  (∀ s, PyStr.join (String sep EmptyString) (PyStr.split sep s) = s)
  ∧ (∀ s, PyStr.split sep s ≠ []
          ∧ Forall (λ p, contains sep p = false) (PyStr.split sep s))
  ∧ (∀ parts,
       parts ≠ [] → Forall (λ p, contains sep p = false) parts →
       PyStr.split sep (PyStr.join (String sep EmptyString) parts) = parts).
Proof.
  split; [apply join_split|]. split; [|apply split_join].
  intros s. split; [apply split_not_nil|apply split_parts_free].
Qed.

Lemma split_join_round_trip_witness :
  PyStr.split "." (PyStr.join "." ["data"; "policy"; "foo_test"])
  = ["data"; "policy"; "foo_test"].
Proof.
  apply (proj2 (proj2 (split_join_round_trip "."))); [done|].
  repeat constructor.
Defined.

Lemma split_path (dirs : list string) (file : string) :
  Forall (λ p, contains "/" p = false) dirs → contains "/" file = false →
  PyStr.split "/" (PyStr.join "/" (dirs ++ [file])) = dirs ++ [file].
Proof.
  intros Hdirs Hfile. apply split_join; [by destruct dirs|].
  apply Forall_app. split; [done|]. by constructor.
Qed.

(** X9: for a path [d1/.../dn/file] whose components hold no slash,
    the file name is [file]; the Cobertura package is [d1.....dn], or
    [default] when there is no directory; the policy area is
    [d2.....dn] when [d1] is [policy] and there is a second directory,
    and [other] in every other case.  So for a file in an area the
    package is the area with [policy.] in front. *)
Theorem path_names (dirs : list string) (file : string) :
  Forall (λ p, contains "/" p = false) dirs → contains "/" file = false →
  let path := PyStr.join "/" (dirs ++ [file]) in
  filename_of path = file
  ∧ Cobertura.package_name path
    = (if bool_decide (dirs = []) then "default" else PyStr.join "." dirs)
  ∧ policy_area path
    = (if bool_decide (hd EmptyString dirs = "policy" ∧ (2 ≤ length dirs)%nat)
       then PyStr.join "." (tl dirs) else "other")
  ∧ (hd EmptyString dirs = "policy" → (2 ≤ length dirs)%nat →
     Cobertura.package_name path = "policy." +:+ policy_area path).
Proof.
  intros Hdirs Hfile path.
  assert (filename_of path = file) as Hname.
  { unfold filename_of, path, PyStr.last_part. rewrite split_path by done.
    apply last_last. }
  assert (Cobertura.package_name path
          = (if bool_decide (dirs = []) then "default" else PyStr.join "." dirs)) as Hpkg.
  { unfold Cobertura.package_name, path. rewrite split_path by done.
    rewrite removelast_last, length_app. cbn [length].
    destruct dirs as [|d ds]; [done|]. rewrite bool_decide_eq_true_2 by (cbn; lia).
    by rewrite bool_decide_eq_false_2. }
  assert (policy_area path
          = (if bool_decide (hd EmptyString dirs = "policy" ∧ (2 ≤ length dirs)%nat)
             then PyStr.join "." (tl dirs) else "other")) as Harea.
  { unfold policy_area, path. rewrite split_path by done. rewrite length_app.
    destruct dirs as [|d ds]; cbn [length app hd tl].
    - rewrite bool_decide_eq_false_2 by lia.
      rewrite (bool_decide_eq_false_2 (_ ∧ _)); [done|]. intros [_ ?]. lia.
    - rewrite removelast_last.
      destruct (decide (d = "policy")) as [->|Hd].
      + rewrite (bool_decide_eq_true_2 ("policy" = "policy")), andb_true_r by done.
        destruct ds as [|d2 ds]; cbn [length].
        * rewrite bool_decide_eq_false_2 by lia.
          rewrite (bool_decide_eq_false_2 (_ ∧ _)); [done|]. intros [_ ?]. lia.
        * rewrite bool_decide_eq_true_2 by lia.
          rewrite (bool_decide_eq_true_2 (_ ∧ _)); [done|]. split; [done|lia].
      + rewrite (bool_decide_eq_false_2 (d = "policy")), andb_false_r by done.
        rewrite (bool_decide_eq_false_2 (_ ∧ _)); [done|]. by intros [? _]. }
  split; [done|]. split; [done|]. split; [done|].
  intros Hhd Hlen. rewrite Hpkg, Harea.
  rewrite (bool_decide_eq_true_2 (_ ∧ _)) by done.
  destruct dirs as [|d [|d2 ds]]; cbn [length] in Hlen; [lia|lia|].
  cbn [hd] in Hhd. subst d. rewrite bool_decide_eq_false_2 by done.
  unfold PyStr.join. by rewrite join_cons2.
Qed.

Lemma path_names_witness :
  filename_of "policy/a/b/x.rego" = "x.rego"
  ∧ Cobertura.package_name "policy/a/b/x.rego" = "policy.a.b"
  ∧ policy_area "policy/a/b/x.rego" = "a.b".
Proof.
  destruct (path_names ["policy"; "a"; "b"] "x.rego") as (H1 & H2 & H3 & _);
    [by repeat constructor|done|].
  split; [exact H1|]. split; [exact H2|exact H3].
Defined.

(** ** The lines of a class in the Cobertura report *)

Lemma foldl_mark_lookup (hit : bool) (l : list Z) (m : gmap Z bool) (n : Z) :
  foldl (λ m k, <[k := hit]> m) m l !! n
  = if decide (n ∈ l) then Some hit else m !! n.
Proof.
  revert m. induction l as [|k l IH]; intros m; cbn [foldl].
  - rewrite decide_False; [done|]. by intros ?%elem_of_nil.
  - rewrite IH. destruct (decide (n ∈ l)) as [Hl|Hl].
    + rewrite decide_True; [done|]. by right.
    + destruct (decide (k = n)) as [->|Hk].
      * rewrite decide_True by by left. apply lookup_insert_eq.
      * rewrite decide_False by (intros [?|?]%elem_of_cons; by auto).
        by rewrite lookup_insert_ne.
Qed.

(** After the pass over a list of regions a line of one of them has
    the mark of the pass and any other line is as it was. *)
Lemma mark_regions_lookup (hit : bool) (regions : list Region.t)
    (m m' : gmap Z bool) (n : Z) :
  Cobertura.mark_regions hit regions m = Some m' →
  (m' !! n = Some hit ∧ ∃ r, r ∈ regions ∧ in_region n r)
  ∨ (m' !! n = m !! n ∧ ¬ ∃ r, r ∈ regions ∧ in_region n r).
Proof.
  revert m. induction regions as [|r rs IH]; intros m; cbn [Cobertura.mark_regions].
  { intros [= ->]. right. split; [done|]. by intros (? & ?%elem_of_nil & _). }
  destruct (Region.start_row r) as [a|] eqn:Ha; [|done].
  destruct (Region.end_row r) as [b|] eqn:Hb; [|done]. cbn [mbind option_bind].
  intros Hm'. destruct (IH _ Hm') as [[Hn (r' & Hr' & Hin)]|[Hn Hnone]].
  - left. split; [done|]. exists r'. split; [by right|done].
  - rewrite foldl_mark_lookup in Hn.
    destruct (decide (n ∈ seqZ a (b + 1 - a))) as [Hseq|Hseq].
    + left. split; [done|]. exists r. split; [by left|].
      exists a, b. apply elem_of_seqZ in Hseq. repeat split; try done; lia.
    + right. split; [done|].
      intros (r' & [->|Hr']%elem_of_cons & Hin); [|apply Hnone; by exists r'].
      destruct Hin as (a' & b' & Ha' & Hb' & Hn').
      apply Hseq, elem_of_seqZ. simplify_eq. lia.
Qed.

(** X10: in the dict of line marks of a file, a line is marked not
    hit exactly when it lies in a not-covered region, hit exactly when
    it lies in a covered region and in no not-covered one, and it has
    no mark exactly when it lies in no region at all. *)
Theorem line_coverage_marks (file_data : File.t) (lc : gmap Z bool) (n : Z) :
  Cobertura.line_coverage file_data = Some lc →
  let covered := ∃ r, r ∈ default [] (File.covered file_data) ∧ in_region n r in
  let not_covered :=
    ∃ r, r ∈ default [] (File.not_covered file_data) ∧ in_region n r in
  (lc !! n = Some false ↔ not_covered)
  ∧ (lc !! n = Some true ↔ covered ∧ ¬ not_covered)
  ∧ (lc !! n = None ↔ ¬ covered ∧ ¬ not_covered).
Proof.
  unfold Cobertura.line_coverage.
  destruct (Cobertura.mark_regions true _ _) as [c|] eqn:Hc; [|done].
  cbn [mbind option_bind]. intros Hlc. cbv zeta.
  destruct (mark_regions_lookup _ _ _ _ n Hc) as [[Hn1 Hcov]|[Hn1 Hcov]];
    destruct (mark_regions_lookup _ _ _ _ n Hlc) as [[Hn2 Hnot]|[Hn2 Hnot]];
    rewrite ?lookup_empty in Hn1; rewrite Hn2, ?Hn1.
  - split; [done|]. split; split; try done; by intros [_ ?].
  - split; [split; [done|by intros ?]|]. split; split; try done. by intros [? _].
  - split; [done|]. split; split; try done; by intros [_ ?].
  - split; [split; [done|by intros ?]|]. split; split; try done. by intros [? _].
Qed.

Lemma line_coverage_marks_witness :
  ∃ lc, Cobertura.line_coverage Examples.overlapping_file = Some lc
        ∧ lc !! 2 = Some true ∧ lc !! 4 = Some false ∧ lc !! 9 = None.
Proof.
  destruct (Cobertura.line_coverage Examples.overlapping_file) as [lc|] eqn:E;
    [|by vm_compute in E].
  exists lc. split; [reflexivity|].
  assert (∀ n a b, in_region n (Examples.region a b) ↔ a ≤ n ≤ b) as Hin.
  { intros n a b. split.
    - by intros (? & ? & [= <-] & [= <-] & ?).
    - intros ?. by exists a, b. }
  assert (∀ n l, (∃ r, r ∈ [Examples.region (fst l) (snd l)] ∧ in_region n r)
                 ↔ fst l ≤ n ≤ snd l) as Hone.
  { intros n [a b]. cbn [fst snd]. split.
    - intros (r & ->%list_elem_of_singleton & ?). by apply Hin.
    - intros ?. exists (Examples.region a b). split; [by left|by apply Hin]. }
  split; [|split].
  - apply (line_coverage_marks _ lc 2 E). split.
    + apply (Hone 2 (1, 5)). cbn. lia.
    + intros H%(Hone 2 (3, 7)). cbn in H. lia.
  - apply (line_coverage_marks _ lc 4 E). apply (Hone 4 (3, 7)). cbn. lia.
  - apply (line_coverage_marks _ lc 9 E). split.
    + intros H%(Hone 9 (1, 5)). cbn in H. lia.
    + intros H%(Hone 9 (3, 7)). cbn in H. lia.
Defined.





(** ** The packages of the Cobertura report *)

Lemma group_packages_holds (files : list (string * File.t)) (name : string) :
  holds_files files name (Cobertura.group_packages files !! name).
Proof.
  unfold Cobertura.group_packages.
  induction files as [|[p fd] l IH] using rev_ind;
    [cbn [foldl]; by rewrite lookup_empty|].
  rewrite foldl_snoc. unfold Cobertura.add_file at 1.
  unfold holds_files, package_files in *. rewrite filter_app, filter_cons, filter_nil.
  cbn [fst]. destruct (PyStr.endswith p "_test.rego") eqn:Htest.
  { rewrite decide_False by (by intros [? _]). by rewrite app_nil_r. }
  destruct (decide (Cobertura.package_name p = name)) as [<-|Hne].
  - rewrite lookup_insert_eq, decide_True by done.
    cbn [Cobertura.pkg_files Cobertura.pkg_covered_lines Cobertura.pkg_total_lines].
    rewrite !sum_of_app, !sum_of_singleton. unfold entry_covered at 2, entry_lines at 2.
    cbn [snd].
    assert (∀ k : list (string * File.t), k ++ [(p, fd)] ≠ []) as Hne by (by intros []).
    destruct (foldl Cobertura.add_file ∅ l !! Cobertura.package_name p) as [pk|];
      cbn [from_option id].
    + destruct IH as (-> & _ & -> & ->). by repeat split.
    + rewrite IH. cbn [Cobertura.pkg_files Cobertura.pkg_covered_lines
                       Cobertura.pkg_total_lines app]. rewrite !sum_of_nil.
      by repeat split.
  - rewrite lookup_insert_ne by done.
    rewrite decide_False by (by intros [_ ?]). by rewrite app_nil_r.
Qed.

(** X12: after the loop over the files, a Cobertura package holds
    exactly the entries of the policy files whose directory gives its
    name, in input order, with the sums of their covered lines and of
    their lines (a missing count being zero); a name has a package
    exactly when a policy file has it, and a test file is in none. *)
Theorem package_contents (files : list (string * File.t)) (name : string) :
  (∀ p, Cobertura.group_packages files !! name = Some p →
     Cobertura.pkg_files p = package_files files name
     ∧ Cobertura.pkg_covered_lines p = sum_of entry_covered (package_files files name)
     ∧ Cobertura.pkg_total_lines p = sum_of entry_lines (package_files files name)
     ∧ Forall (λ entry, PyStr.endswith entry.1 "_test.rego" = false)
         (Cobertura.pkg_files p))
  ∧ (is_Some (Cobertura.group_packages files !! name)
     ↔ ∃ entry, entry ∈ files ∧ PyStr.endswith entry.1 "_test.rego" = false
                ∧ Cobertura.package_name entry.1 = name).
Proof.
  pose proof (group_packages_holds files name) as H. split.
  - intros p Hp. rewrite Hp in H. destruct H as (Hf & _ & Hc & Ht).
    split; [done|]. split; [done|]. split; [done|]. rewrite Hf.
    apply Forall_forall. unfold package_files.
    by intros entry [[? _] _]%list_elem_of_filter.
  - destruct (Cobertura.group_packages files !! name) as [p|];
      cbn [holds_files] in H; unfold package_files in H.
    + destruct H as (_ & Hne & _). split; [intros _|by eexists].
      destruct (filter _ files) as [|entry l] eqn:E; [done|].
      assert (entry ∈ filter
                (λ entry, PyStr.endswith entry.1 "_test.rego" = false
                          ∧ Cobertura.package_name entry.1 = name) files)
        as [[? ?] ?]%list_elem_of_filter by (rewrite E; by left).
      by exists entry.
    + split; [by intros []%is_Some_None|]. intros (entry & Hin & Htest & Hname).
      assert (entry ∈ filter
                (λ entry, PyStr.endswith entry.1 "_test.rego" = false
                          ∧ Cobertura.package_name entry.1 = name) files)
        as Hf by by apply list_elem_of_filter.
      rewrite H in Hf. by apply elem_of_nil in Hf.
Qed.

Lemma package_contents_witness :
  ∃ p, Cobertura.group_packages (Coverage.files Examples.cov_low_file) !! "policy.a"
       = Some p
       ∧ Cobertura.pkg_covered_lines p = 21 ∧ Cobertura.pkg_total_lines p = 30.
Proof.
  destruct (Cobertura.group_packages (Coverage.files Examples.cov_low_file) !! "policy.a")
    as [p|] eqn:Hp; [|by vm_compute in Hp].
  destruct (package_contents (Coverage.files Examples.cov_low_file) "policy.a") as [H _].
  destruct (H p Hp) as (_ & Hc & Ht & _).
  exists p. split; [done|]. by rewrite Hc, Ht.
Defined.

(** The sum of a counter over the packages is its sum over the policy
    files. *)
Lemma sum_packages (f : Cobertura.package → Z) (delta : string * File.t → Z) :
  (∀ files entry lr c t,
     f {| Cobertura.pkg_files := files ++ [entry]; Cobertura.pkg_line_rate := lr;
          Cobertura.pkg_covered_lines := c + entry_covered entry;
          Cobertura.pkg_total_lines := t + entry_lines entry |}
     = f {| Cobertura.pkg_files := files; Cobertura.pkg_line_rate := lr;
            Cobertura.pkg_covered_lines := c; Cobertura.pkg_total_lines := t |}
       + delta entry) →
  f {| Cobertura.pkg_files := []; Cobertura.pkg_line_rate := 0;
       Cobertura.pkg_covered_lines := 0; Cobertura.pkg_total_lines := 0 |} = 0 →
  ∀ files,
    sum_of f (values (Cobertura.group_packages files))
    = sum_of delta (filter (λ entry, PyStr.endswith entry.1 "_test.rego" = false) files).
Proof.
  intros Hstep Hfresh files. unfold Cobertura.group_packages.
  induction files as [|[p fd] l IH] using rev_ind;
    [cbn [foldl]; by rewrite sum_values_empty|].
  rewrite foldl_snoc, filter_app, filter_cons, filter_nil, sum_of_app. cbn [fst].
  unfold Cobertura.add_file at 1.
  destruct (PyStr.endswith p "_test.rego") eqn:Htest.
  { rewrite decide_False by done. rewrite sum_of_nil, IH. lia. }
  rewrite decide_True, sum_of_singleton, sum_values_insert, IH by done.
  pose proof (Hstep (Cobertura.pkg_files
                       (default {| Cobertura.pkg_files := []; Cobertura.pkg_line_rate := 0;
                                   Cobertura.pkg_covered_lines := 0;
                                   Cobertura.pkg_total_lines := 0 |}
                          (foldl Cobertura.add_file ∅ l !! Cobertura.package_name p)))
                (p, fd)) as Hs.
  unfold entry_covered, entry_lines in Hs. cbn [snd] in Hs. rewrite Hs. clear Hs.
  destruct (foldl Cobertura.add_file ∅ l !! Cobertura.package_name p) as [[? ? ? ?]|];
    cbn [from_option id Cobertura.pkg_files Cobertura.pkg_line_rate
         Cobertura.pkg_covered_lines Cobertura.pkg_total_lines];
    rewrite ?Hfresh; lia.
Qed.

Lemma policy_totals_sums (files : list (string * File.t)) :
  let policy := filter (λ entry, PyStr.endswith entry.1 "_test.rego" = false) files in
  Cobertura.policy_totals files
  = (sum_of entry_covered policy,
     sum_of (λ entry, default 0 (File.not_covered_lines entry.2)) policy).
Proof.
  cbv zeta. unfold Cobertura.policy_totals.
  induction files as [|[p fd] l IH] using rev_ind; [done|].
  rewrite foldl_snoc, IH, filter_app, filter_cons, filter_nil, !sum_of_app. cbn [fst].
  destruct (PyStr.endswith p "_test.rego") eqn:Htest.
  - rewrite decide_False by done. rewrite !sum_of_nil. f_equal; lia.
  - rewrite decide_True by done. rewrite !sum_of_singleton. done.
Qed.

Lemma sum_of_plus {A} (f g : A → Z) (l : list A) :
  sum_of (λ x, f x + g x) l = sum_of f l + sum_of g l.
Proof.
  induction l as [|x l IH]; [done|]. rewrite !sum_of_cons, IH. lia.
Qed.

(** X13: the root of the Cobertura report agrees with its packages:
    [lines-covered] is the sum of the covered lines of the packages
    and [lines-valid] the sum of their lines, both being the sums
    over the policy files of the input, the test files left out. *)
Theorem cobertura_root_totals (coverage_data : Coverage.t) (source : string)
    (root : element) (policy_metrics : Cobertura.metrics) :
  Cobertura.create_cobertura_report coverage_data source = Some (root, policy_metrics) →
  let packages := values (Cobertura.group_packages (Coverage.files coverage_data)) in
  let policy := filter (λ entry, PyStr.endswith entry.1 "_test.rego" = false)
                  (Coverage.files coverage_data) in
  get root "lines-covered" = Some [FInt (sum_of Cobertura.pkg_covered_lines packages)]
  ∧ get root "lines-valid" = Some [FInt (sum_of Cobertura.pkg_total_lines packages)]
  ∧ sum_of Cobertura.pkg_covered_lines packages = sum_of entry_covered policy
  ∧ sum_of Cobertura.pkg_total_lines packages = sum_of entry_lines policy
  ∧ Cobertura.covered_lines policy_metrics + Cobertura.not_covered_lines policy_metrics
    = Cobertura.total_lines policy_metrics.
Proof.
  intros Hreport. cbv zeta.
  rewrite (sum_packages Cobertura.pkg_covered_lines entry_covered) by done.
  rewrite (sum_packages Cobertura.pkg_total_lines entry_lines) by done.
  revert Hreport. unfold Cobertura.create_cobertura_report.
  unfold Cobertura.calculate_policy_only_coverage.
  pose proof (policy_totals_sums (Coverage.files coverage_data)) as Ht. cbv zeta in Ht.
  rewrite Ht. clear Ht.
  match goal with
  | |- context [bool_decide ?P] => destruct (bool_decide P)
  end.
  - destruct (truediv_int _ _); [|done]. cbn [mbind option_bind].
    destruct (mapM _ _); [|done]. cbn [mbind option_bind]. intros [= <- <-].
    cbn [Cobertura.covered_lines Cobertura.not_covered_lines Cobertura.total_lines].
    unfold entry_lines. rewrite sum_of_plus. by repeat split.
  - cbn [mbind option_bind].
    destruct (mapM _ _); [|done]. cbn [mbind option_bind]. intros [= <- <-].
    cbn [Cobertura.covered_lines Cobertura.not_covered_lines Cobertura.total_lines].
    unfold entry_lines. rewrite sum_of_plus. by repeat split.
Qed.

Lemma cobertura_root_totals_witness :
  ∃ root policy_metrics,
    Cobertura.create_cobertura_report Examples.cov_low_file "/src" = Some (root, policy_metrics)
    ∧ get root "lines-covered" = Some [FInt 21]
    ∧ get root "lines-valid" = Some [FInt 30].
Proof.
  destruct (Cobertura.create_cobertura_report Examples.cov_low_file "/src")
    as [[root policy_metrics]|] eqn:E; [|by vm_compute in E].
  destruct (cobertura_root_totals _ _ root policy_metrics E)
    as (Hc & Hv & Hcs & Hvs & _).
  rewrite Hcs in Hc. rewrite Hvs in Hv.
  exists root, policy_metrics. split; [reflexivity|]. split; [exact Hc|exact Hv].
Defined.

(** ** A region without a row *)

Lemma mark_regions_missing_row (hit : bool) (regions : list Region.t)
    (m : gmap Z bool) (r : Region.t) :
  r ∈ regions → Region.start_row r = None ∨ Region.end_row r = None →
  Cobertura.mark_regions hit regions m = None.
Proof.
  intros Hr Hrow. revert m.
  induction regions as [|r' rs IH]; intros m; [by apply elem_of_nil in Hr|].
  cbn [Cobertura.mark_regions]. apply elem_of_cons in Hr as [<-|Hr].
  - by destruct Hrow as [-> | ->]; [|destruct (Region.start_row r)].
  - destruct (Region.start_row r'); [|done]. destruct (Region.end_row r'); [|done].
    cbn [mbind option_bind]. by apply IH.
Qed.

Lemma mapM_None {A B} (f : A → option B) (l : list A) (x : A) :
  x ∈ l → f x = None → mapM f l = None.
Proof.
  intros Hx Hf. destruct (mapM f l) as [k|] eqn:E; [|done].
  assert (is_Some (mapM f l)) as Hs by by eexists.
  rewrite mapM_is_Some, Forall_forall in Hs. destruct (Hs x Hx) as [? ?].
  cbn [compose] in *. congruence.
Qed.

(** X14: the Cobertura report needs the rows of every region of every
    policy file: when a covered or not-covered region of one of them
    has no start row or no end row, no report is built, nothing is
    written and the script ends with status 1. *)
Theorem cobertura_needs_rows (coverage_data : Coverage.t) (source : string)
    (file_path : string) (file_data : File.t) (r : Region.t) :
  (file_path, file_data) ∈ Coverage.files coverage_data →
  PyStr.endswith file_path "_test.rego" = false →
  r ∈ default [] (File.covered file_data) ++ default [] (File.not_covered file_data) →
  Region.start_row r = None ∨ Region.end_row r = None →
  Cobertura.create_cobertura_report coverage_data source = None
  ∧ (∀ coverage_threshold,
       written (Cobertura.main coverage_data source coverage_threshold) = None
       ∧ exit_status (Cobertura.main coverage_data source coverage_threshold) ≠ 0)
  ∧ Cobertura.main coverage_data source None
    = {| written := None; exit_status := 1 |}.
Proof.
  intros Hin Htest Hr Hrow.
  assert (Cobertura.line_coverage file_data = None) as Hlc.
  { unfold Cobertura.line_coverage. apply elem_of_app in Hr as [Hr|Hr].
    - by rewrite (mark_regions_missing_row true _ _ r Hr Hrow).
    - destruct (Cobertura.mark_regions true _ _); [|done]. cbn [mbind option_bind].
      by apply (mark_regions_missing_row false _ _ r). }
  assert (Cobertura.class_elem (file_path, file_data) = None) as Hclass.
  { unfold Cobertura.class_elem. by rewrite Hlc. }
  set (name := Cobertura.package_name file_path).
  pose proof (group_packages_holds (Coverage.files coverage_data) name) as Hp.
  assert ((file_path, file_data) ∈ package_files (Coverage.files coverage_data) name)
    as Hpf by (by apply list_elem_of_filter).
  destruct (Cobertura.group_packages (Coverage.files coverage_data) !! name)
    as [p|] eqn:Hg; cbn [holds_files] in Hp;
    [|rewrite Hp in Hpf; by apply elem_of_nil in Hpf].
  destruct Hp as (Hfiles & _).
  assert (Cobertura.package_elem name p = None) as Hpkg.
  { unfold Cobertura.package_elem.
    destruct (if bool_decide _ then _ else _); [|done]. cbn [mbind option_bind].
    rewrite (mapM_None _ _ (file_path, file_data)); [done| |done]. by rewrite Hfiles. }
  assert (Cobertura.create_cobertura_report coverage_data source = None) as Hreport.
  { unfold Cobertura.create_cobertura_report.
    destruct (Cobertura.calculate_policy_only_coverage _); [|done].
    cbn [mbind option_bind].
    rewrite (mapM_None _ _ name); [done| |by rewrite Hg].
    apply elem_of_sorted_keys. by eexists. }
  split; [done|]. unfold Cobertura.main. rewrite Hreport. split; [|done].
  intros [t|]; [|done]. by destruct (negb _).
Qed.

Lemma cobertura_needs_rows_witness :
  let file_data :=
    {| File.coverage := of_int 50; File.covered_lines := Some 1;
       File.not_covered_lines := Some 1; File.covered := None;
       File.not_covered :=
         Some [{| Region.start_row := Some 3; Region.end_row := None |}] |} in
  let coverage_data :=
    {| Coverage.coverage := of_int 50; Coverage.covered_lines := 1;
       Coverage.not_covered_lines := 1;
       Coverage.files := [("policy/a/x.rego", file_data)] |} in
  Cobertura.main coverage_data "/src" None = {| written := None; exit_status := 1 |}.
Proof.
  intros file_data coverage_data.
  apply (cobertura_needs_rows coverage_data "/src" "policy/a/x.rego" file_data
           {| Region.start_row := Some 3; Region.end_row := None |}).
  - by left.
  - reflexivity.
  - by left.
  - by right.
Defined.

(** ** The line totals of a policy area *)

Section group_lines.

Variable add_file : gmap string CovGroup.t → string → File.t → gmap string CovGroup.t.
Variable lines_of : File.t → Z * Z.

Hypothesis add_file_lines : ∀ G p fd,
  let g := default CovGroup.fresh (G !! policy_area p) in
  ∃ g', add_file G p fd = <[policy_area p := g']> G
        ∧ CovGroup.covered_lines g' = CovGroup.covered_lines g + (lines_of fd).1
        ∧ CovGroup.not_covered_lines g'
          = CovGroup.not_covered_lines g + (lines_of fd).2
        ∧ CovGroup.total_lines g'
          = CovGroup.total_lines g + ((lines_of fd).1 + (lines_of fd).2).

Variable files : list (string * File.t).

Lemma fold_files_lines l G0 G area :
  CovGroup.fold_files add_file files l G0 = Some G →
  let g0 := default CovGroup.fresh (G0 !! area) in
  let g := default CovGroup.fresh (G !! area) in
  let ps := filter (λ p, policy_area p = area) l in
  CovGroup.covered_lines g
  = CovGroup.covered_lines g0 + sum_of (λ p, (lines_at lines_of files p).1) ps
  ∧ CovGroup.not_covered_lines g
    = CovGroup.not_covered_lines g0 + sum_of (λ p, (lines_at lines_of files p).2) ps
  ∧ CovGroup.total_lines g - CovGroup.total_lines g0
    = (CovGroup.covered_lines g - CovGroup.covered_lines g0)
      + (CovGroup.not_covered_lines g - CovGroup.not_covered_lines g0).
Proof.
  revert G0. induction l as [|p l IH]; intros G0; cbn [CovGroup.fold_files].
  - intros [= ->]. cbv zeta. rewrite filter_nil, !sum_of_nil. lia.
  - destruct (assoc p files) as [fd|] eqn:Hfd; [|done]. cbn [mbind option_bind].
    intros HG. destruct (add_file_lines G0 p fd) as (g' & Hadd & Hc & Hn & Ht).
    rewrite Hadd in HG. destruct (IH _ HG) as (IH1 & IH2 & IH3). clear IH.
    cbv zeta. rewrite filter_cons. case_decide as Harea.
    + subst area. rewrite lookup_insert_eq in IH1, IH2, IH3.
      cbn [from_option id] in IH1, IH2, IH3. rewrite !sum_of_cons.
      unfold lines_at at 1 3. rewrite Hfd. cbn [from_option]. lia.
    + rewrite lookup_insert_ne in IH1, IH2, IH3 by done. done.
Qed.

End group_lines.

Lemma coverage_report_add_file_lines G p fd :
  let g := default CovGroup.fresh (G !! policy_area p) in
  ∃ g', CoverageReport.add_file G p fd = <[policy_area p := g']> G
        ∧ CovGroup.covered_lines g'
          = CovGroup.covered_lines g + (lines_of_coverage_report fd).1
        ∧ CovGroup.not_covered_lines g'
          = CovGroup.not_covered_lines g + (lines_of_coverage_report fd).2
        ∧ CovGroup.total_lines g'
          = CovGroup.total_lines g
            + ((lines_of_coverage_report fd).1 + (lines_of_coverage_report fd).2).
Proof.
  unfold CoverageReport.add_file, lines_of_coverage_report.
  eexists. split; [reflexivity|].
  destruct (File.covered_lines fd); cbn; repeat split; lia.
Qed.

Lemma combined_add_file_lines G p fd :
  let g := default CovGroup.fresh (G !! policy_area p) in
  ∃ g', Combined.add_file G p fd = <[policy_area p := g']> G
        ∧ CovGroup.covered_lines g'
          = CovGroup.covered_lines g + (lines_of_combined fd).1
        ∧ CovGroup.not_covered_lines g'
          = CovGroup.not_covered_lines g + (lines_of_combined fd).2
        ∧ CovGroup.total_lines g'
          = CovGroup.total_lines g
            + ((lines_of_combined fd).1 + (lines_of_combined fd).2).
Proof.
  unfold Combined.add_file, lines_of_combined.
  eexists. split; [reflexivity|].
  destruct (File.covered_lines fd), (File.not_covered_lines fd); cbn; repeat split; lia.
Qed.

(** X15: in both coverage scripts the covered and the not-covered
    lines of a policy area are the sums, over the policy files of the
    area, of the lines each script counts for a file, and the total of
    the area is the sum of the two.  The scripts differ in what they
    count: the coverage-only script counts a file that has
    [covered_lines], with zero for a missing [not_covered_lines]; the
    combined script counts a file only when it has both keys. *)
Theorem group_line_totals (coverage_data : Coverage.t)
    (policy_groups : gmap string CovGroup.t) (area : string) (g : CovGroup.t) :
  policy_groups !! area = Some g →
  let files := Coverage.files coverage_data in
  let totals (lines_of : File.t → Z * Z) :=
    CovGroup.covered_lines g
    = sum_of (λ p, (lines_at lines_of files p).1) (area_files coverage_data area)
    ∧ CovGroup.not_covered_lines g
      = sum_of (λ p, (lines_at lines_of files p).2) (area_files coverage_data area)
    ∧ CovGroup.total_lines g
      = CovGroup.covered_lines g + CovGroup.not_covered_lines g in
  (CoverageReport.group_files files (Coverage.policy_files coverage_data) ∅
     = Some policy_groups → totals lines_of_coverage_report)
  ∧ (Combined.group_files files (Coverage.policy_files coverage_data) ∅
       = Some policy_groups → totals lines_of_combined).
Proof.
  intros Hg. cbv zeta. split; intros HG.
  - destruct (fold_files_lines _ _ coverage_report_add_file_lines _ _ _ _ area HG)
      as (H1 & H2 & H3).
    rewrite Hg, lookup_empty in H1, H2, H3. cbn in H1, H2, H3.
    unfold area_files. repeat split; lia.
  - destruct (fold_files_lines _ _ combined_add_file_lines _ _ _ _ area HG)
      as (H1 & H2 & H3).
    rewrite Hg, lookup_empty in H1, H2, H3. cbn in H1, H2, H3.
    unfold area_files. repeat split; lia.
Qed.

Lemma group_line_totals_witness :
  ∃ policy_groups g,
    CoverageReport.group_files (Coverage.files Examples.cov_low_file)
      (Coverage.policy_files Examples.cov_low_file) ∅ = Some policy_groups
    ∧ policy_groups !! "a" = Some g
    ∧ CovGroup.covered_lines g = 21
    ∧ CovGroup.total_lines g = CovGroup.covered_lines g + CovGroup.not_covered_lines g.
Proof.
  destruct (CoverageReport.group_files (Coverage.files Examples.cov_low_file)
              (Coverage.policy_files Examples.cov_low_file) ∅)
    as [policy_groups|] eqn:HG; [|by vm_compute in HG].
  destruct (policy_groups !! "a") as [g|] eqn:Hg;
    [|vm_compute in HG; injection HG as <-; by vm_compute in Hg].
  destruct (group_line_totals Examples.cov_low_file policy_groups "a" g Hg) as [H _].
  destruct (H HG) as (Hc & _ & Ht).
  exists policy_groups, g. split; [reflexivity|]. split; [exact Hg|].
  split; [|exact Ht]. rewrite Hc. by vm_compute.
Defined.

Lemma fold_files_add_ext add1 add2 (files : list (string * File.t)) (l : list string)
    (G : gmap string CovGroup.t) :
  (∀ G p fd, p ∈ l → assoc p files = Some fd → add1 G p fd = add2 G p fd) →
  CovGroup.fold_files add1 files l G = CovGroup.fold_files add2 files l G.
Proof.
  revert G. induction l as [|p l IH]; intros G Hl; [done|].
  cbn [CovGroup.fold_files]. destruct (assoc p files) as [fd|] eqn:Hfd; [|done].
  cbn [mbind option_bind]. rewrite (Hl G p fd) by (done || by left).
  apply IH. intros G' q fq Hq. apply Hl. by right.
Qed.

(** X16: the coverage-only script and the combined script build the
    same groups of files whenever no policy file has [covered_lines]
    without [not_covered_lines]. *)
Theorem coverage_groups_agree (coverage_data : Coverage.t) :
  (∀ p file_data,
     p ∈ Coverage.policy_files coverage_data →
     assoc p (Coverage.files coverage_data) = Some file_data →
     is_Some (File.covered_lines file_data) →
     is_Some (File.not_covered_lines file_data)) →
  CoverageReport.group_files (Coverage.files coverage_data)
    (Coverage.policy_files coverage_data) ∅
  = Combined.group_files (Coverage.files coverage_data)
      (Coverage.policy_files coverage_data) ∅.
Proof.
  intros Hkeys. apply fold_files_add_ext. intros G p fd Hp Hfd.
  specialize (Hkeys p fd Hp Hfd).
  unfold CoverageReport.add_file, Combined.add_file.
  destruct (File.covered_lines fd) as [c|]; [|by destruct (File.not_covered_lines fd)].
  destruct Hkeys as [n ->]; [by eexists|]. done.
Qed.

Lemma coverage_groups_agree_witness :
  CoverageReport.group_files (Coverage.files Examples.cov_low_file)
    (Coverage.policy_files Examples.cov_low_file) ∅
  = Combined.group_files (Coverage.files Examples.cov_low_file)
      (Coverage.policy_files Examples.cov_low_file) ∅.
Proof.
  apply coverage_groups_agree. intros p fd Hp Hfd _.
  assert (fd = Examples.low_file ∨ fd = Examples.full_file) as [-> | ->];
    [|by eexists..].
  unfold Examples.cov_low_file in Hfd. cbn [Coverage.files assoc] in Hfd.
  repeat case_bool_decide; simplify_eq; auto.
Defined.

(** ** The threshold and the outcome of a run *)

Lemma create_coverage_report_is_Some (coverage_data : Coverage.t)
    (coverage_threshold : float) :
  is_Some (CoverageReport.create_coverage_report coverage_data coverage_threshold).
Proof.
  unfold CoverageReport.create_coverage_report.
  destruct (coverage_report_group_files_is_Some coverage_data) as [G HG].
  rewrite HG. cbn [mbind option_bind].
  match goal with
  | |- is_Some (?m ≫= _) => assert (is_Some m) as [sections ->]; [|by eexists]
  end.
  apply mapM_is_Some, Forall_forall. intros area [g Hg]%elem_of_sorted_keys.
  cbn [compose]. rewrite Hg. cbn [mbind option_bind].
  apply (policy_lines_is_Some _ _ G); [by left|done].
Qed.

Lemma create_coverage_summary_is_Some (coverage_data : Coverage.t)
    (coverage_threshold : float) :
  is_Some (Combined.create_coverage_summary_and_suites coverage_data coverage_threshold).
Proof.
  unfold Combined.create_coverage_summary_and_suites.
  destruct (combined_group_files_is_Some coverage_data) as [G HG].
  rewrite HG. cbn [mbind option_bind].
  match goal with
  | |- is_Some (?m ≫= _) => assert (is_Some m) as [testcases ->]; [|by eexists]
  end.
  apply mapM_is_Some, Forall_forall. intros area [g Hg]%elem_of_sorted_keys.
  cbn [compose]. rewrite Hg. cbn [mbind option_bind].
  apply (coverage_testcase_is_Some _ G); [by right|done].
Qed.

(** X17: what a run of the coverage-only script and of the combined
    script leaves.  With a threshold outside [0, 100], a NaN included,
    nothing is written and the status is 2.  With a threshold inside,
    the coverage-only script always writes its report and ends with 0
    or 1; the combined script writes its report whenever the test
    summary can be built, and otherwise ends with 1 and writes
    nothing. *)
Theorem threshold_and_outcome (test_data : list Test.t) (coverage_data : Coverage.t)
    (coverage_threshold : float) :
  let valid := PyFloat.leb (of_int 0) coverage_threshold
               && PyFloat.leb coverage_threshold (of_int 100) in
  (is_nan coverage_threshold = true → valid = false)
  ∧ (valid = false →
     CoverageReport.main coverage_data coverage_threshold
       = {| written := None; exit_status := 2 |}
     ∧ Combined.main test_data coverage_data coverage_threshold
       = {| written := None; exit_status := 2 |})
  ∧ (valid = true →
     (∃ report,
        CoverageReport.create_coverage_report coverage_data coverage_threshold
          = Some report
        ∧ written (CoverageReport.main coverage_data coverage_threshold) = Some report
        ∧ (exit_status (CoverageReport.main coverage_data coverage_threshold) = 0
           ∨ exit_status (CoverageReport.main coverage_data coverage_threshold) = 1))
     ∧ (is_Some (Combined.create_test_summary_and_suites test_data) →
        is_Some (written (Combined.main test_data coverage_data coverage_threshold)))
     ∧ (Combined.create_test_summary_and_suites test_data = None →
        Combined.main test_data coverage_data coverage_threshold
          = {| written := None; exit_status := 1 |})).
Proof.
  cbv zeta. split; [|split].
  - by destruct coverage_threshold.
  - intros Hv. unfold CoverageReport.main, Combined.main. by rewrite Hv.
  - intros Hv. unfold CoverageReport.main, Combined.main. rewrite Hv. cbn [negb].
    split; [|split].
    + destruct (create_coverage_report_is_Some coverage_data coverage_threshold)
        as [report Hr].
      exists report. rewrite Hr. split; [done|]. split; [done|].
      cbn [exit_status].
      destruct (PyFloat.leb coverage_threshold (CoverageReport._round_percentage _));
        [by left|by right].
    + intros [ts Hts]. unfold Combined.create_combined_report. rewrite Hts.
      cbn [mbind option_bind].
      destruct (create_coverage_summary_is_Some coverage_data coverage_threshold)
        as [cs ->].
      cbn [mbind option_bind written]. by eexists.
    + intros Hts. unfold Combined.create_combined_report. by rewrite Hts.
Qed.

Lemma threshold_and_outcome_witness :
  CoverageReport.main Examples.cov_low_file (of_int 101)
    = {| written := None; exit_status := 2 |}
  ∧ CoverageReport.main Examples.cov_low_file S754_nan
    = {| written := None; exit_status := 2 |}
  ∧ is_Some (written (CoverageReport.main Examples.cov_low_file (of_int 95))).
Proof.
  split; [|split].
  - by apply (threshold_and_outcome [] Examples.cov_low_file (of_int 101)).
  - destruct (threshold_and_outcome [] Examples.cov_low_file S754_nan) as (Hn & H & _).
    by destruct (H (Hn eq_refl)).
  - destruct (threshold_and_outcome [] Examples.cov_low_file (of_int 95)) as (_ & _ & H).
    destruct (H eq_refl) as ((report & _ & Hw & _) & _). rewrite Hw. by eexists.
Defined.

(** ** The name of a class in the Cobertura report *)

Lemma contains_app (c : ascii) (s t : string) :
  contains c (s +:+ t) = contains c s || contains c t.
Proof.
  induction s as [|a s IH]; [done|]. rewrite app_cons. cbn [contains].
  by rewrite IH, orb_assoc.
Qed.

Lemma prefix_cons_ne (a c : ascii) (p s : string) :
  a ≠ c → String.prefix (String a p) (String c s) = false.
Proof. intros H. cbn [String.prefix]. by destruct (ascii_dec a c). Qed.

Lemma remove_all_free (a : ascii) (p s : string) :
  contains a s = false → Cobertura.remove_all (String a p) 0 s = s.
Proof.
  induction s as [|c s IH]; [done|]. cbn [contains].
  intros [Hc Hs]%orb_false_iff. cbn [Cobertura.remove_all].
  rewrite prefix_cons_ne by (intros ->; by rewrite Ascii.eqb_refl in Hc).
  by rewrite (IH Hs).
Qed.

Lemma remove_all_suffix (base : string) :
  contains "." base = false →
  Cobertura.remove_all ".rego" 0 (base +:+ ".rego") = base.
Proof.
  induction base as [|c s IH]; [done|]. cbn [contains].
  intros [Hc Hs]%orb_false_iff. rewrite app_cons. cbn [Cobertura.remove_all].
  rewrite prefix_cons_ne by (intros <-; by rewrite Ascii.eqb_refl in Hc).
  by rewrite (IH Hs).
Qed.

(** X18: the class of a file [d1/.../dn/base.rego], where [base]
    holds no dot and no component holds a slash, is named [base] and
    keeps the whole path as its file name; its line rate and that of
    its one method are the coverage of the file over 100, rounded to
    four decimals. *)
Theorem class_name_of_path (dirs : list string) (base : string) (file_data : File.t)
    (class : element) :
  Forall (λ p, contains "/" p = false) dirs →
  contains "/" base = false → contains "." base = false →
  let path := PyStr.join "/" (dirs ++ [base +:+ ".rego"]) in
  Cobertura.class_elem (path, file_data) = Some class →
  get class "name" = Some [FStr base]
  ∧ get class "filename" = Some [FStr path]
  ∧ get class "line-rate"
    = Some [FFloat (round (PyFloat.div (File.coverage file_data) (of_int 100)) 4)]
  ∧ ∃ methods method,
      findall class "methods" = [methods] ∧ children_of methods = [method]
      ∧ get method "name" = Some [FStr "evaluate"]
      ∧ get method "line-rate" = get class "line-rate".
Proof.
  intros Hdirs Hslash Hdot path. unfold Cobertura.class_elem.
  destruct (Cobertura.line_coverage file_data); [|done].
  cbn [mbind option_bind]. intros [= <-].
  assert (filename_of path = base +:+ ".rego") as ->.
  { unfold filename_of, path, PyStr.last_part.
    rewrite split_path; [apply last_last|done|].
    by rewrite contains_app, Hslash. }
  rewrite remove_all_suffix by done.
  split; [done|]. split; [done|]. split; [done|].
  by eexists _, _.
Qed.

Lemma class_name_of_path_witness :
  ∃ class,
    Cobertura.class_elem ("policy/a/x.rego", Examples.low_file) = Some class
    ∧ get class "name" = Some [FStr "x"].
Proof.
  destruct (Cobertura.class_elem ("policy/a/x.rego", Examples.low_file))
    as [class|] eqn:E; [|by vm_compute in E].
  exists class. split; [reflexivity|].
  by apply (class_name_of_path ["policy"; "a"] "x" Examples.low_file class);
    [repeat constructor| | |].
Defined.

(** ** The times of the test report *)

Lemma group_durations (test_data : list Test.t) :
  sum_of TestGroup.duration (values (TestGroup.group_tests test_data))
  = sum_of Test.duration test_data.
Proof. apply sum_group_tests; [done|]. counter_step. Qed.

Lemma testcase_time (test : Test.t) (tc : element) :
  TestReport.testcase test = Some tc →
  ∃ time, _nanos_to_seconds (Test.duration test) = Some time
          ∧ get tc "time" = Some [FFloat time].
Proof.
  unfold TestReport.testcase.
  destruct (_nanos_to_seconds _) as [time|]; [|done].
  cbn [mbind option_bind]. intros [= <-]. by exists time.
Qed.

Lemma testsuite_time (test_data : list Test.t) (name : string)
    (g : TestGroup.t) (suite : element) :
  TestGroup.group_tests test_data !! name = Some g →
  TestReport.testsuite name g = Some suite →
  (∃ time, _nanos_to_seconds (sum_of Test.duration (policy_tests test_data name))
             = Some time
           ∧ get suite "time" = Some [FFloat time])
  ∧ Forall2
      (λ test tc, ∃ time, _nanos_to_seconds (Test.duration test) = Some time
                          ∧ get tc "time" = Some [FFloat time])
      (policy_tests test_data name) (findall suite "testcase").
Proof.
  intros Hg. pose proof (group_tests_holds test_data name) as Hc.
  rewrite Hg in Hc. destruct Hc as (Htests & _ & _ & Hd & _).
  unfold TestReport.testsuite. rewrite Hd, Htests.
  destruct (_nanos_to_seconds _) as [time|]; [|done].
  cbn [mbind option_bind]. destruct (mapM _ _) as [tcs|] eqn:HM; [|done].
  cbn [mbind option_bind]. intros [= <-]. split; [by exists time|].
  apply mapM_Some_1 in HM. unfold findall. cbn [children_of].
  rewrite filter_cons, decide_False by done.
  rewrite filter_tag_all.
  - eapply Forall2_impl; [exact HM|]. intros t tc Htc. by apply testcase_time.
  - eapply Forall2_Forall_r; [exact HM|]. apply Forall_forall.
    intros t _ tc Htc. by destruct (testcase_shape t tc Htc) as (? & _).
Qed.

(** X19: the [time] attributes of the test report are seconds rounded
    to three decimals: on the root the sum of the durations of all
    records, on the suite of a policy the sum over its records, on a
    test case the duration of its record. *)
Theorem test_report_times (test_data : list Test.t) (testsuites : element) :
  TestReport.create_test_report test_data = Some testsuites →
  (∃ time, _nanos_to_seconds (sum_of Test.duration test_data) = Some time
           ∧ get testsuites "time" = Some [FFloat time])
  ∧ ∃ names,
      (∀ name, name ∈ names ↔ policy_tests test_data name ≠ [])
      ∧ Forall2
          (λ name suite,
             (∃ time,
                _nanos_to_seconds (sum_of Test.duration (policy_tests test_data name))
                  = Some time
                ∧ get suite "time" = Some [FFloat time])
             ∧ Forall2
                 (λ test tc,
                    ∃ time, _nanos_to_seconds (Test.duration test) = Some time
                            ∧ get tc "time" = Some [FFloat time])
                 (policy_tests test_data name) (findall suite "testcase"))
          names (children_of testsuites).
Proof.
  unfold TestReport.create_test_report. rewrite group_durations.
  destruct (_nanos_to_seconds _) as [time|]; [|done]. cbn [mbind option_bind].
  destruct (mapM _ _) as [suites|] eqn:HM; [|done].
  cbn [mbind option_bind]. intros [= <-]. split; [by exists time|].
  exists (sorted_keys (TestGroup.group_tests test_data)).
  split; [apply policy_names_spec|].
  cbn [children_of]. apply mapM_Some_1 in HM.
  eapply Forall2_impl; [exact HM|]. intros name suite Hsuite. cbn beta in Hsuite.
  destruct (TestGroup.group_tests test_data !! name) as [g|] eqn:Hg; [|done].
  cbn [mbind option_bind] in Hsuite. by eapply testsuite_time.
Qed.

Lemma test_report_times_witness :
  ∃ testsuites time,
    TestReport.create_test_report [Examples.passing_test; Examples.failing_test]
      = Some testsuites
    ∧ _nanos_to_seconds 3000000 = Some time
    ∧ get testsuites "time" = Some [FFloat time].
Proof.
  destruct (TestReport.create_test_report [Examples.passing_test; Examples.failing_test])
    as [testsuites|] eqn:E; [|by vm_compute in E].
  destruct (test_report_times _ testsuites E) as ((time & Ht & Hg) & _).
  exists testsuites, time. split; [reflexivity|]. split; [exact Ht|exact Hg].
Defined.

(** ** The packages listed in the Cobertura report *)

Lemma class_elem_shape (entry : string * File.t) (class : element) :
  Cobertura.class_elem entry = Some class →
  tag_of class = "class" ∧ get class "filename" = Some [FStr entry.1].
Proof.
  destruct entry as [p fd]. unfold Cobertura.class_elem.
  destruct (Cobertura.line_coverage fd); [|done]. cbn [mbind option_bind].
  by intros [= <-].
Qed.

Lemma package_elem_shape (files : list (string * File.t)) (name : string)
    (p : Cobertura.package) (pkg : element) :
  Cobertura.group_packages files !! name = Some p →
  Cobertura.package_elem name p = Some pkg →
  tag_of pkg = "package"
  ∧ get pkg "name" = Some [FStr name]
  ∧ ∃ classes,
      children_of pkg = [classes]
      ∧ tag_of classes = "classes"
      ∧ Forall2 (λ entry class,
                   tag_of class = "class"
                   ∧ get class "filename" = Some [FStr entry.1])
          (package_files files name) (children_of classes).
Proof.
  intros Hp. pose proof (group_packages_holds files name) as H. rewrite Hp in H.
  destruct H as (Hfiles & _). unfold Cobertura.package_elem. rewrite Hfiles.
  destruct (if bool_decide _ then _ else _); [|done]. cbn [mbind option_bind].
  destruct (mapM _ _) as [classes|] eqn:HM; [|done].
  cbn [mbind option_bind]. intros [= <-]. split; [done|]. split; [done|].
  eexists. split; [reflexivity|]. split; [done|]. cbn [children_of].
  apply mapM_Some_1 in HM. eapply Forall2_impl; [exact HM|].
  intros entry class Hclass. by apply class_elem_shape.
Qed.

(** X20: the Cobertura report lists one package per directory that
    holds a policy file, by increasing name and without a repeat, and
    in a package one class per policy file of that directory, in the
    order of the input, with the path of the file as its file name. *)
Theorem cobertura_packages_listed (coverage_data : Coverage.t) (source : string)
    (root : element) (policy_metrics : Cobertura.metrics) :
  Cobertura.create_cobertura_report coverage_data source = Some (root, policy_metrics) →
  ∃ packages names,
    findall root "packages" = [packages]
    ∧ Sorted String.le names ∧ NoDup names
    ∧ (∀ name, name ∈ names
               ↔ package_files (Coverage.files coverage_data) name ≠ [])
    ∧ Forall2
        (λ name pkg,
           tag_of pkg = "package"
           ∧ get pkg "name" = Some [FStr name]
           ∧ ∃ classes,
               children_of pkg = [classes]
               ∧ tag_of classes = "classes"
               ∧ Forall2 (λ entry class,
                            tag_of class = "class"
                            ∧ get class "filename" = Some [FStr entry.1])
                   (package_files (Coverage.files coverage_data) name)
                   (children_of classes))
        names (children_of packages).
Proof.
  unfold Cobertura.create_cobertura_report.
  destruct (Cobertura.calculate_policy_only_coverage _); [|done].
  cbn [mbind option_bind]. destruct (mapM _ _) as [pkgs|] eqn:HM; [|done].
  cbn [mbind option_bind]. intros [= <- _].
  set (G := Cobertura.group_packages (Coverage.files coverage_data)) in *.
  destruct (sorted_keys_sorted G) as [Hs Hn].
  eexists _, (sorted_keys G). split; [reflexivity|].
  split; [done|]. split; [done|]. split.
  - intros name. rewrite elem_of_sorted_keys.
    pose proof (group_packages_holds (Coverage.files coverage_data) name) as H.
    fold G in H. destruct (G !! name) as [p|]; cbn [holds_files] in H.
    + destruct H as (_ & Hne & _). split; [done|by eexists].
    + split; [by intros []%is_Some_None|done].
  - cbn [children_of]. apply mapM_Some_1 in HM.
    eapply Forall2_impl; [exact HM|]. intros name pkg Hpkg. cbn beta in Hpkg.
    destruct (G !! name) as [p|] eqn:Hp; [|done].
    cbn [mbind option_bind] in Hpkg. by eapply package_elem_shape.
Qed.

Lemma cobertura_packages_listed_witness :
  ∃ root policy_metrics packages names,
    Cobertura.create_cobertura_report Examples.cov_low_file "/src"
      = Some (root, policy_metrics)
    ∧ findall root "packages" = [packages]
    ∧ "policy.a" ∈ names
    ∧ length (children_of packages) = length names.
Proof.
  destruct (Cobertura.create_cobertura_report Examples.cov_low_file "/src")
    as [[root policy_metrics]|] eqn:E; [|by vm_compute in E].
  destruct (cobertura_packages_listed _ _ root policy_metrics E)
    as (packages & names & Hp & _ & _ & Hnames & Hpkgs).
  exists root, policy_metrics, packages, names.
  split; [reflexivity|]. split; [exact Hp|].
  split; [apply Hnames; by vm_compute|]. symmetry. by eapply Forall2_length.
Defined.


(** ** When the test report is built *)

Lemma bind_is_Some {A B} (m : option A) (f : A → option B) :
  is_Some (m ≫= f) ↔ ∃ x, m = Some x ∧ is_Some (f x).
Proof.
  destruct m as [x|]; cbn [mbind option_bind].
  - split; [by exists x|]. by intros (? & [= <-] & ?).
  - split; [by intros []%is_Some_None|]. by intros (? & ? & _).
Qed.

Lemma testcase_is_Some (test : Test.t) :
  is_Some (TestReport.testcase test) ↔ is_Some (_nanos_to_seconds (Test.duration test)).
Proof.
  unfold TestReport.testcase. rewrite bind_is_Some. split.
  - intros (time & -> & _). by eexists.
  - intros [time ->]. exists time. split; [done|by eexists].
Qed.

Lemma test_detail_is_Some (test : Test.t) :
  is_Some (Combined.test_detail test) ↔ is_Some (_nanos_to_seconds (Test.duration test)).
Proof.
  unfold Combined.test_detail. rewrite bind_is_Some. split.
  - intros (time & -> & _). by eexists.
  - intros [time ->]. exists time. split; [done|by eexists].
Qed.

Lemma testsuite_is_Some (name : string) (g : TestGroup.t) :
  is_Some (TestReport.testsuite name g)
  ↔ is_Some (_nanos_to_seconds (TestGroup.duration g))
    ∧ is_Some (mapM TestReport.testcase (TestGroup.tests g)).
Proof.
  unfold TestReport.testsuite. rewrite bind_is_Some. split.
  - intros (time & -> & (tcs & -> & _)%bind_is_Some). split; by eexists.
  - intros [[time ->] [tcs ->]]. exists time. split; [done|]. by eexists.
Qed.

Lemma policy_testcase_is_Some (name : string) (g : TestGroup.t) :
  is_Some (Combined.policy_testcase name g)
  ↔ is_Some (_nanos_to_seconds (TestGroup.duration g))
    ∧ is_Some (mapM Combined.test_detail (TestGroup.tests g)).
Proof.
  unfold Combined.policy_testcase. rewrite bind_is_Some. split.
  - intros (time & -> & (tcs & -> & _)%bind_is_Some). split; by eexists.
  - intros [[time ->] [tcs ->]]. exists time. split; [done|]. by eexists.
Qed.

(** The groups can all be rendered exactly when the durations of the
    policies and of the records convert to seconds. *)
Lemma groups_are_Some {A B} (test_data : list Test.t)
    (per_test : Test.t → option A) (per_group : string → TestGroup.t → option B) :
  (∀ test, is_Some (per_test test)
           ↔ is_Some (_nanos_to_seconds (Test.duration test))) →
  (∀ name g, is_Some (per_group name g)
             ↔ is_Some (_nanos_to_seconds (TestGroup.duration g))
               ∧ is_Some (mapM per_test (TestGroup.tests g))) →
  is_Some (mapM (λ name, TestGroup.group_tests test_data !! name
                         ≫= λ group, per_group name group)
             (sorted_keys (TestGroup.group_tests test_data)))
  ↔ (∀ name, policy_tests test_data name ≠ [] →
       is_Some (_nanos_to_seconds (sum_of Test.duration (policy_tests test_data name))))
    ∧ (∀ test, test ∈ test_data → is_Some (_nanos_to_seconds (Test.duration test))).
Proof.
  intros Htest Hgroup. rewrite mapM_is_Some, Forall_forall.
  assert (∀ name g, TestGroup.group_tests test_data !! name = Some g →
            is_Some (per_group name g)
            ↔ is_Some (_nanos_to_seconds
                         (sum_of Test.duration (policy_tests test_data name)))
              ∧ ∀ test, test ∈ policy_tests test_data name →
                        is_Some (_nanos_to_seconds (Test.duration test))) as Hg.
  { intros name g Hname. pose proof (group_tests_holds test_data name) as H.
    rewrite Hname in H. destruct H as (Ht & _ & _ & Hd & _).
    rewrite Hgroup, Hd, Ht, mapM_is_Some, Forall_forall.
    split; intros [H1 H2]; (split; [done|]); intros test Hin;
      apply Htest; by apply H2. }
  split.
  - intros Hall. split.
    + intros name Hne%policy_names_spec. specialize (Hall name Hne).
      cbn [compose] in Hall. apply elem_of_sorted_keys in Hne as [g Hname].
      rewrite Hname in Hall. cbn [mbind option_bind] in Hall.
      by apply (Hg name g Hname) in Hall as [? _].
    + intros test Hin.
      assert (test ∈ policy_tests test_data (policy_name (Test.package test))) as Hp
        by (by apply list_elem_of_filter).
      assert (policy_tests test_data (policy_name (Test.package test)) ≠ []) as Hne
        by (intros E; rewrite E in Hp; by apply elem_of_nil in Hp).
      apply policy_names_spec in Hne. specialize (Hall _ Hne). cbn [compose] in Hall.
      apply elem_of_sorted_keys in Hne as [g Hname].
      rewrite Hname in Hall. cbn [mbind option_bind] in Hall.
      apply (Hg _ g Hname) in Hall as [_ Hall]. by apply Hall.
  - intros (Hpolicy & Hrecords) name Hname. cbn [compose].
    pose proof (proj1 (policy_names_spec test_data name) Hname) as Hne.
    apply elem_of_sorted_keys in Hname as [g Hname]. rewrite Hname.
    cbn [mbind option_bind]. apply (Hg name g Hname). split; [by apply Hpolicy|].
    intros test [_ Hin]%list_elem_of_filter. by apply Hrecords.
Qed.

(** X21: the test report, and the test summary of the combined
    report, are built exactly when every duration the report shows
    converts to seconds: the sum over all records, the sum over the
    records of each policy, and the duration of each record.  Nothing
    else in a list of test records can make either builder fail. *)
Theorem test_report_built_iff (test_data : list Test.t) :
  let converts :=
    is_Some (_nanos_to_seconds (sum_of Test.duration test_data))
    ∧ (∀ name, policy_tests test_data name ≠ [] →
         is_Some (_nanos_to_seconds
                    (sum_of Test.duration (policy_tests test_data name))))
    ∧ (∀ test, test ∈ test_data →
         is_Some (_nanos_to_seconds (Test.duration test))) in
  (is_Some (TestReport.create_test_report test_data) ↔ converts)
  ∧ (is_Some (Combined.create_test_summary_and_suites test_data) ↔ converts).
Proof.
  cbv zeta.
  pose proof (groups_are_Some test_data _ _ testcase_is_Some testsuite_is_Some) as Hr.
  pose proof (groups_are_Some test_data _ _ test_detail_is_Some policy_testcase_is_Some)
    as Hc.
  cbn beta in Hr, Hc. split.
  - rewrite <- Hr. clear Hr Hc. unfold TestReport.create_test_report.
    rewrite group_durations.
    destruct (_nanos_to_seconds _) as [time|]; cbn [mbind option_bind];
      [|split; [by intros []%is_Some_None|by intros [[]%is_Some_None _]]].
    destruct (mapM _ _) as [suites|]; cbn [mbind option_bind].
    + split; [intros _; split; by eexists|intros _; by eexists].
    + split; [by intros []%is_Some_None|by intros [_ []%is_Some_None]].
  - rewrite <- Hc. clear Hr Hc. unfold Combined.create_test_summary_and_suites.
    rewrite group_durations.
    destruct (_nanos_to_seconds _) as [time|]; cbn [mbind option_bind];
      [|split; [by intros []%is_Some_None|by intros [[]%is_Some_None _]]].
    destruct (mapM _ _) as [cases|]; cbn [mbind option_bind].
    + split; [intros _; split; by eexists|intros _; by eexists].
    + split; [by intros []%is_Some_None|by intros [_ []%is_Some_None]].
Qed.

Lemma test_report_built_iff_witness :
  is_Some (_nanos_to_seconds (Test.duration Examples.failing_test)).
Proof.
  destruct (proj1 (proj1 (test_report_built_iff
                            [Examples.passing_test; Examples.failing_test])))
    as (_ & _ & Hrecords); [vm_compute; by eexists|].
  apply Hrecords. right. left.
Defined.

(** * Lines and overall figures of the reports *)

(** ** The lines of a policy file in the Cobertura report (C6) *)

Lemma Forall2_elem_of_l {A B} (P : A → B → Prop) (l : list A) (k : list B) (x : A) :
  Forall2 P l k → x ∈ l → ∃ y, y ∈ k ∧ P x y.
Proof.
  induction 1 as [|a b l k Hab _ IH]; [by intros ?%elem_of_nil|].
  intros [->|Hx]%elem_of_cons.
  - exists b. split; [by left|done].
  - destruct (IH Hx) as (y & Hy & Hxy). exists y. split; [by right|done].
Qed.

(** The class of a policy file in the report: it sits in the package
    of its directory and is what [class_elem] builds from the entry. *)
Lemma report_class (coverage_data : Coverage.t) (source : string) (root : element)
    (policy_metrics : Cobertura.metrics) (file_path : string) (file_data : File.t) :
  Cobertura.create_cobertura_report coverage_data source = Some (root, policy_metrics) →
  (file_path, file_data) ∈ Coverage.files coverage_data →
  PyStr.endswith file_path "_test.rego" = false →
  ∃ packages pkg classes class,
    findall root "packages" = [packages]
    ∧ pkg ∈ children_of packages
    ∧ get pkg "name" = Some [FStr (Cobertura.package_name file_path)]
    ∧ children_of pkg = [classes]
    ∧ class ∈ children_of classes
    ∧ Cobertura.class_elem (file_path, file_data) = Some class.
Proof.
  intros Hreport Hin Htest. unfold Cobertura.create_cobertura_report in Hreport.
  destruct (Cobertura.calculate_policy_only_coverage _); [|done].
  cbn [mbind option_bind] in Hreport. destruct (mapM _ _) as [pkgs|] eqn:HM; [|done].
  cbn [mbind option_bind] in Hreport. injection Hreport as <- _.
  set (name := Cobertura.package_name file_path).
  pose proof (group_packages_holds (Coverage.files coverage_data) name) as Hp.
  assert ((file_path, file_data) ∈ package_files (Coverage.files coverage_data) name)
    as Hpf by (by apply list_elem_of_filter).
  destruct (Cobertura.group_packages (Coverage.files coverage_data) !! name)
    as [p|] eqn:Hg; cbn [holds_files] in Hp;
    [|rewrite Hp in Hpf; by apply elem_of_nil in Hpf].
  destruct Hp as (Hfiles & _). apply mapM_Some_1 in HM.
  assert (name ∈ sorted_keys (Cobertura.group_packages (Coverage.files coverage_data)))
    as Hname by (apply elem_of_sorted_keys; by eexists).
  destruct (Forall2_elem_of_l _ _ _ _ HM Hname) as (pkg & Hpkg & Hbuilt).
  cbn beta in Hbuilt. rewrite Hg in Hbuilt. cbn [mbind option_bind] in Hbuilt.
  unfold Cobertura.package_elem in Hbuilt.
  destruct (if bool_decide _ then _ else _); [|done]. cbn [mbind option_bind] in Hbuilt.
  destruct (mapM _ _) as [classes|] eqn:HC; [|done].
  cbn [mbind option_bind] in Hbuilt. injection Hbuilt as <-.
  apply mapM_Some_1 in HC. rewrite Hfiles in HC.
  destruct (Forall2_elem_of_l _ _ _ _ HC Hpf) as (class & Hclass & Hbuilt).
  eexists _, _, _, class. split; [reflexivity|]. split; [exact Hpkg|].
  split; [done|]. split; [reflexivity|]. split; [exact Hclass|exact Hbuilt].
Qed.

(** C6: in the Cobertura report, the class of a file of the input
    that is not a test file (a test file has no class) sits in the
    package of its directory, and for every line number that lies in a
    covered and in a not-covered region of the file its [lines]
    element holds the element [<line number=n hits=0 branch=false/>];
    every [line] element with that number is this one.  The covered
    regions are marked first and the not-covered ones overwrite
    them. *)
Theorem overlapping_lines_not_covered
    (coverage_data : Coverage.t) (source : string) (root : element)
    (policy_metrics : Cobertura.metrics)
    (file_path : string) (file_data : File.t) (n : Z) :
  Cobertura.create_cobertura_report coverage_data source = Some (root, policy_metrics) →
  (file_path, file_data) ∈ Coverage.files coverage_data →
  PyStr.endswith file_path "_test.rego" = false →
  (∃ r, r ∈ default [] (File.covered file_data) ∧ in_region n r) →
  (∃ r, r ∈ default [] (File.not_covered file_data) ∧ in_region n r) →
  let not_hit :=
    Element "line"
      [("number", [FInt n]); ("hits", [FStr "0"]); ("branch", [FStr "false"])]
      None [] in
  ∃ packages pkg classes class lines,
    findall root "packages" = [packages]
    ∧ pkg ∈ children_of packages
    ∧ get pkg "name" = Some [FStr (Cobertura.package_name file_path)]
    ∧ children_of pkg = [classes]
    ∧ class ∈ children_of classes
    ∧ get class "filename" = Some [FStr file_path]
    ∧ findall class "lines" = [lines]
    ∧ not_hit ∈ children_of lines
    ∧ ∀ line, line ∈ children_of lines →
        get line "number" = Some [FInt n] → line = not_hit.
Proof.
  intros Hreport Hin Htest _ Hnot not_hit.
  destruct (report_class _ _ _ _ _ _ Hreport Hin Htest)
    as (packages & pkg & classes & class & Hpackages & Hpkg & Hname & Hclasses
        & Hclass & Hbuilt).
  unfold Cobertura.class_elem in Hbuilt.
  destruct (Cobertura.line_coverage file_data) as [lc|] eqn:Hlc; [|done].
  cbn [mbind option_bind] in Hbuilt. injection Hbuilt as Hbuilt.
  pose proof (line_coverage_not_covered _ _ _ Hlc Hnot) as Hn.
  exists packages, pkg, classes, class. eexists.
  split; [done|]. split; [done|]. split; [done|]. split; [done|]. split; [done|].
  rewrite <- Hbuilt. split; [done|]. split; [reflexivity|]. cbn [children_of]. split.
  - apply elem_of_line_elems. by exists n, false.
  - intros line (n' & b & Hb & ->)%elem_of_line_elems. cbn.
    intros [= ->]. by assert (b = false) as -> by congruence.
Qed.

Lemma overlapping_lines_not_covered_witness :
  let coverage_data :=
    {| Coverage.coverage := of_int 50; Coverage.covered_lines := 5;
       Coverage.not_covered_lines := 5;
       Coverage.files := [("policy/a/x.rego", Examples.overlapping_file)] |} in
  ∃ root policy_metrics packages pkg classes class lines,
    Cobertura.create_cobertura_report coverage_data "/src" = Some (root, policy_metrics)
    ∧ findall root "packages" = [packages]
    ∧ pkg ∈ children_of packages
    ∧ children_of pkg = [classes]
    ∧ class ∈ children_of classes
    ∧ findall class "lines" = [lines]
    ∧ Element "line"
        [("number", [FInt 4]); ("hits", [FStr "0"]); ("branch", [FStr "false"])]
        None [] ∈ children_of lines.
Proof.
  intros coverage_data.
  destruct (Cobertura.create_cobertura_report coverage_data "/src")
    as [[root policy_metrics]|] eqn:E; [|by vm_compute in E].
  assert (("policy/a/x.rego", Examples.overlapping_file) ∈ Coverage.files coverage_data)
    as Hin by (apply list_elem_of_here).
  assert (PyStr.endswith "policy/a/x.rego" "_test.rego" = false) as Htest
    by (vm_compute; reflexivity).
  assert (∃ r, r ∈ default [] (File.covered Examples.overlapping_file) ∧ in_region 4 r)
    as Hcov.
  { exists (Examples.region 1 5). split; [apply list_elem_of_here|].
    exists 1, 5. split; [reflexivity|]. split; [reflexivity|]. lia. }
  assert (∃ r, r ∈ default [] (File.not_covered Examples.overlapping_file)
               ∧ in_region 4 r) as Hnot.
  { exists (Examples.region 3 7). split; [apply list_elem_of_here|].
    exists 3, 7. split; [reflexivity|]. split; [reflexivity|]. lia. }
  destruct (overlapping_lines_not_covered coverage_data "/src" root policy_metrics
              "policy/a/x.rego" Examples.overlapping_file 4 E Hin Htest Hcov Hnot)
    as (packages & pkg & classes & class & lines & H1 & H2 & _ & H3 & H4 & _ & H5
        & H6 & _).
  exists root, policy_metrics, packages, pkg, classes, class, lines.
  split; [reflexivity|]. split; [exact H1|]. split; [exact H2|]. split; [exact H3|].
  split; [exact H4|]. split; [exact H5|exact H6].
Defined.

(** ** Test files and the overall figures (C7) *)

(** C7, as stated for the overall figures of the coverage-only
    report: the covered lines it shows leave the test files out.
    They do not, even on an input whose totals are the sums over its
    files: the report shows the [covered_lines] of the input, here
    18, of which 10 are the lines of a test file. *)
Lemma junit_overall_counts_test_files :
  ¬ (∀ (coverage_data : Coverage.t) (coverage_threshold : float)
       (testsuites suite : element),
       Coverage.covered_lines coverage_data
         = sum_of entry_covered (Coverage.files coverage_data) →
       CoverageReport.create_coverage_report coverage_data coverage_threshold
         = Some testsuites →
       children_of testsuites = [suite] →
       property_value suite "covered_lines"
       = Some [FInt (sum_of entry_covered
                       (filter (λ entry, PyStr.endswith entry.1 "_test.rego" = false)
                          (Coverage.files coverage_data)))]).
Proof.
  intros H.
  pose proof (H Examples.cov_with_tests (of_int 95)) as H'. vm_compute in H'.
  specialize (H' _ _ eq_refl eq_refl eq_refl). discriminate H'.
Qed.

(** C7, amended: a file whose path ends in [_test.rego] contributes
    nothing to the area groups of both JUnit builders and to the
    packages of the Cobertura report, and nothing to the overall
    figures the Cobertura program computes: its covered lines, its
    total lines and its percentage are those of the other files, and
    so are the attributes of the root.  The overall figures of the two
    JUnit reports are not computed from the files: they are the
    [covered_lines], [not_covered_lines] and [coverage] of the input,
    whatever these count.  The entries of the test files themselves
    change none of the three reports. *)
Theorem test_files_in_rollups
    (coverage_data : Coverage.t) (coverage_threshold : float) (source : string) :
  let policy :=
    filter (λ entry, PyStr.endswith entry.1 "_test.rego" = false)
      (Coverage.files coverage_data) in
  (CoverageReport.group_files (Coverage.files (policy_only coverage_data))
     (Coverage.policy_files (policy_only coverage_data)) ∅
   = CoverageReport.group_files (Coverage.files coverage_data)
       (Coverage.policy_files coverage_data) ∅
   ∧ Combined.group_files (Coverage.files (policy_only coverage_data))
       (Coverage.policy_files (policy_only coverage_data)) ∅
     = Combined.group_files (Coverage.files coverage_data)
         (Coverage.policy_files coverage_data) ∅
   ∧ Cobertura.group_packages (Coverage.files (policy_only coverage_data))
     = Cobertura.group_packages (Coverage.files coverage_data))
  ∧ (∀ root policy_metrics,
       Cobertura.create_cobertura_report coverage_data source
         = Some (root, policy_metrics) →
       Cobertura.calculate_policy_only_coverage coverage_data = Some policy_metrics
       ∧ Cobertura.covered_lines policy_metrics = sum_of entry_covered policy
       ∧ Cobertura.total_lines policy_metrics = sum_of entry_lines policy
       ∧ (0 < sum_of entry_lines policy →
          ∃ q, truediv_int (sum_of entry_covered policy) (sum_of entry_lines policy)
               = Some q
               ∧ Cobertura.coverage policy_metrics = PyFloat.mul q (of_int 100))
       ∧ (sum_of entry_lines policy ≤ 0 →
          Cobertura.coverage policy_metrics = PyFloat.zero)
       ∧ get root "lines-covered" = Some [FInt (sum_of entry_covered policy)]
       ∧ get root "lines-valid" = Some [FInt (sum_of entry_lines policy)]
       ∧ get root "line-rate"
         = Some [FFloat (Cobertura._round_percentage
                           (Cobertura.coverage policy_metrics))])
  ∧ (∀ testsuites,
       CoverageReport.create_coverage_report coverage_data coverage_threshold
         = Some testsuites →
       ∃ suite,
         children_of testsuites = [suite]
         ∧ property_value suite "covered_lines"
           = Some [FInt (Coverage.covered_lines coverage_data)]
         ∧ property_value suite "uncovered_lines"
           = Some [FInt (Coverage.not_covered_lines coverage_data)]
         ∧ property_value suite "total_lines"
           = Some [FInt (Coverage.covered_lines coverage_data
                         + Coverage.not_covered_lines coverage_data)]
         ∧ property_value suite "overall_coverage"
           = Some [FFloat (round (Coverage.coverage coverage_data) 2); FStr "%"])
  ∧ (∀ suites,
       Combined.create_coverage_summary_and_suites coverage_data coverage_threshold
         = Some suites →
       ∃ suite,
         suites = [suite]
         ∧ property_value suite "covered_lines"
           = Some [FInt (Coverage.covered_lines coverage_data)]
         ∧ property_value suite "uncovered_lines"
           = Some [FInt (Coverage.not_covered_lines coverage_data)]
         ∧ property_value suite "total_lines"
           = Some [FInt (Coverage.covered_lines coverage_data
                         + Coverage.not_covered_lines coverage_data)]
         ∧ property_value suite "overall_coverage"
           = Some [FFloat (round (Coverage.coverage coverage_data) 2); FStr "%"])
  ∧ (Cobertura.create_cobertura_report (policy_only coverage_data) source
     = Cobertura.create_cobertura_report coverage_data source
     ∧ CoverageReport.create_coverage_report (policy_only coverage_data)
         coverage_threshold
       = CoverageReport.create_coverage_report coverage_data coverage_threshold
     ∧ Combined.create_coverage_summary_and_suites (policy_only coverage_data)
         coverage_threshold
       = Combined.create_coverage_summary_and_suites coverage_data
           coverage_threshold).
Proof.
  cbv zeta. split; [|split; [|split; [|split]]].
  - split; [apply policy_only_fold_files|].
    split; [apply policy_only_fold_files|apply policy_only_group_packages].
  - intros root policy_metrics. unfold Cobertura.create_cobertura_report.
    destruct (Cobertura.calculate_policy_only_coverage coverage_data)
      as [m|] eqn:Hm; [|done].
    cbn [mbind option_bind]. destruct (mapM _ _) as [packages|]; [|done].
    cbn [mbind option_bind]. intros E%(inj Some).
    assert (m = policy_metrics) as -> by congruence.
    assert (root = Element "coverage"
                     [("line-rate",
                       [FFloat (Cobertura._round_percentage
                                  (Cobertura.coverage policy_metrics))]);
                      ("branch-rate", [FStr "0"]);
                      ("lines-covered", [FInt (Cobertura.covered_lines policy_metrics)]);
                      ("lines-valid", [FInt (Cobertura.total_lines policy_metrics)]);
                      ("branches-covered", [FStr "0"]);
                      ("branches-valid", [FStr "0"]);
                      ("complexity", [FStr "0"]);
                      ("version", [FStr "0.1"])]
                     None
                     [Element "sources" [] None
                        [Element "source" [] (Some [FStr source]) []];
                      Element "packages" [] None packages]) as -> by congruence.
    clear E. split; [done|].
    revert Hm. unfold Cobertura.calculate_policy_only_coverage.
    pose proof (policy_totals_sums (Coverage.files coverage_data)) as Ht.
    cbv zeta in Ht. rewrite Ht. clear Ht.
    set (policy := filter _ (Coverage.files coverage_data)).
    assert (sum_of entry_lines policy
            = sum_of entry_covered policy
              + sum_of (λ entry, default 0 (File.not_covered_lines entry.2)) policy)
      as -> by (unfold entry_lines; apply sum_of_plus).
    case_bool_decide as Hpos.
    + destruct (truediv_int _ _) as [q|] eqn:Hq; [|done].
      cbn [mbind option_bind]. intros Hm%(inj Some). subst policy_metrics.
      cbn [Cobertura.covered_lines Cobertura.total_lines Cobertura.coverage].
      split; [done|]. split; [done|]. split; [intros _; by exists q|].
      split; [intros Hle; lia|]. by repeat split.
    + cbn [mbind option_bind]. intros Hm%(inj Some). subst policy_metrics.
      cbn [Cobertura.covered_lines Cobertura.total_lines Cobertura.coverage].
      split; [done|]. split; [done|]. split; [intros Hlt; lia|].
      split; [done|]. by repeat split.
  - intros testsuites. unfold CoverageReport.create_coverage_report.
    destruct (CoverageReport.group_files _ _ _) as [G|]; [|done].
    cbn [mbind option_bind]. destruct (mapM _ _) as [sections|]; [|done].
    cbn [mbind option_bind]. cbv zeta. intros E%(inj Some). subst testsuites.
    eexists. split; [reflexivity|]. by repeat split.
  - intros suites. unfold Combined.create_coverage_summary_and_suites.
    destruct (Combined.group_files _ _ _) as [G|]; [|done].
    cbn [mbind option_bind]. destruct (mapM _ _) as [testcases|]; [|done].
    cbn [mbind option_bind]. cbv zeta. intros E%(inj Some). subst suites.
    eexists. split; [reflexivity|]. by repeat split.
  - split.
    { unfold Cobertura.create_cobertura_report.
      unfold Cobertura.calculate_policy_only_coverage.
      by rewrite policy_only_policy_totals, policy_only_group_packages. }
    split; [apply policy_only_create_coverage_report
           |apply policy_only_create_coverage_summary].
Qed.

Lemma test_files_in_rollups_witness :
  ∃ root policy_metrics suite,
    Cobertura.create_cobertura_report Examples.cov_with_tests "/src"
      = Some (root, policy_metrics)
    ∧ get root "lines-covered" = Some [FInt 8]
    ∧ get root "lines-valid" = Some [FInt 10]
    ∧ property_value suite "covered_lines" = Some [FInt 18]
    ∧ property_value suite "total_lines" = Some [FInt 20].
Proof.
  destruct (test_files_in_rollups Examples.cov_with_tests (of_int 95) "/src")
    as (_ & Hcobertura & Hcoverage & _).
  destruct (Cobertura.create_cobertura_report Examples.cov_with_tests "/src")
    as [[root policy_metrics]|] eqn:E; [|vm_compute in E; discriminate E].
  destruct (Hcobertura root policy_metrics eq_refl)
    as (_ & _ & _ & _ & _ & Hcovered & Hvalid & _).
  destruct (CoverageReport.create_coverage_report Examples.cov_with_tests (of_int 95))
    as [testsuites|] eqn:E'; [|vm_compute in E'; discriminate E'].
  destruct (Hcoverage testsuites eq_refl) as (suite & _ & Hc & _ & Ht & _).
  exists root, policy_metrics, suite.
  split; [reflexivity|]. split; [exact Hcovered|]. split; [exact Hvalid|].
  split; [exact Hc|exact Ht].
Defined.
